(** * Pixora backend: the request-to-artifact pipeline

    A shallow embedding of the generation controller
    (controllers/geminiController.js), the image generation service
    (services/imageGenerationService.js), the upload controller
    (controllers/uploadImage&promts.js) and the database helpers
    (config/database.js), with the properties of the specification
    stated and proved over it.

    Conventions of the embedding.
    - Request body fields are strings, as the JSDoc of the handlers
      documents them; an absent field is [None].  JavaScript truthiness
      of such a value is [truthy].
    - Handlers are computations in a state-and-exception monad [M] over
      a [World]: the module-level connection handle of database.js,
      the process environment, the file system, the provider behind the
      SDK, and the sources of UUIDs and of time.
    - The MongoDB driver is an in-memory store: a collection is the list
      of its documents in insertion order, [find] filters it, and
      [insertOne] rejects a duplicate [_id].
    - [trace] is ghost state: it records the calls made to the gateway
      and to the provider, so that "no gateway call" can be stated. *)

From Stdlib Require Import ZArith NArith Ascii String List Sorted.
From Stdlib.Strings Require Import Byte.
From stdpp Require Import base option list gmap strings fin_maps.

Set Warnings "-register-all".

Local Open Scope Z_scope.
Local Open Scope string_scope.
Local Open Scope list_scope.

(** ** JavaScript primitives *)

Module Js.

(** Truthiness of a value that is a string or [undefined]: the string
    a truthy value holds, [None] for [undefined] and for the empty
    string. *)
Definition truthy (v : option string) : option string :=
  match v with
  | Some s => if String.eqb s "" then None else Some s
  | None => None
  end.

(** [a || b] on such values. *)
Definition or (a b : option string) : option string :=
  match truthy a with
  | Some _ => a
  | None => b
  end.

(** [a || d] where [d] is a string literal. *)
Definition or_default (a : option string) (d : string) : string :=
  match a with
  | Some s => if String.eqb s "" then d else s
  | None => d
  end.

(** [hay.includes(needle)] *)
Fixpoint includes (needle hay : string) : bool :=
  String.prefix needle hay ||
  match hay with
  | EmptyString => false
  | String _ rest => includes needle rest
  end.

(** [s.length] *)
Definition length (s : string) : Z := Z.of_nat (String.length s).

(** [buffer.toString('base64')] *)
Definition base64_alphabet : string :=
  "ABCDEFGHIJKLMNOPQRSTUVWXYZabcdefghijklmnopqrstuvwxyz0123456789+/".

Definition base64_digit (n : N) : ascii :=
  match String.get (N.to_nat n) base64_alphabet with
  | Some c => c
  | None => "="%char
  end.

Fixpoint toBase64 (buffer : list byte) : string :=
  match buffer with
  | [] => ""
  | [a] =>
      let n := (Byte.to_N a * 65536)%N in
      String (base64_digit (n / 262144))
        (String (base64_digit (n / 4096 mod 64)) "==")
  | [a; b] =>
      let n := (Byte.to_N a * 65536 + Byte.to_N b * 256)%N in
      String (base64_digit (n / 262144))
        (String (base64_digit (n / 4096 mod 64))
           (String (base64_digit (n / 64 mod 64)) "="))
  | a :: b :: c :: rest =>
      let n := (Byte.to_N a * 65536 + Byte.to_N b * 256 + Byte.to_N c)%N in
      String (base64_digit (n / 262144))
        (String (base64_digit (n / 4096 mod 64))
           (String (base64_digit (n / 64 mod 64))
              (String (base64_digit (n mod 64)) (toBase64 rest))))
  end.

(** Truthiness of an object: every object is truthy. *)
Definition object_truthy {A} (o : A) : bool := true.

End Js.

(** ** JSON payloads of responses *)

Inductive Json :=
| JNull
| JBool (b : bool)
| JNum (n : Z)
| JStr (s : string)
| JDate (ms : Z)                       (* an instant, rendered as ISO-8601 *)
| JArr (items : list Json)
| JObj (fields : list (string * Json)).

(** [obj.key]; [None] is [undefined]. *)
Fixpoint assoc (key : string) (fields : list (string * Json)) : option Json :=
  match fields with
  | [] => None
  | (k, v) :: rest => if String.eqb k key then Some v else assoc key rest
  end.

Definition field (key : string) (j : Json) : option Json :=
  match j with
  | JObj fields => assoc key fields
  | _ => None
  end.

Definition opt_str (o : option string) : Json :=
  match o with
  | Some s => JStr s
  | None => JNull
  end.

Record Response := mkResponse { status : Z; json : Json }.

(** ** Requests *)

(** A file kept in memory by [multer()] ([upload.any()] in app.js). *)
Record MemoryFile := { buffer : list byte; mem_mimetype : string }.

(** A file written to disk by [multer({ storage: diskStorage })]. *)
Record DiskFile := {
  path : string;
  originalname : string;
  disk_mimetype : string;
  disk_size : Z
}.

Record Request := {
  content_type : option string;        (* req.headers['content-type'] *)
  body : gmap string string;           (* req.body *)
  files : list MemoryFile;             (* req.files *)
  file : option DiskFile               (* req.file *)
}.

Definition body_json (req : Request) : Json :=
  JObj (prod_map id JStr <$> map_to_list (body req)).

(** ** Documents and the store *)

(** [new Date()] is kept as a Date object by the driver,
    [new Date().toISOString()] as a string. *)
Inductive Stamp :=
| DateObject (ms : Z)
| IsoString (ms : Z).

Definition stamp_json (t : Stamp) : Json :=
  match t with
  | DateObject ms => JDate ms
  | IsoString ms => JDate ms
  end.

Module Doc.

(** The documents of [images] (PromptRecord) and of [generated_images]
    (GeneratedArtifact); a field that one of the two shapes does not
    have is [None] there. *)
Record t := {
  _id : string;
  promptId : option string;            (* null for text-only generation *)
  promptName : string;
  prompt : string;
  base64Image : string;
  originalName : string;
  size : Z;
  mimetype : string;
  uploadedAt : option Stamp;
  createdAt : Stamp;
  updatedAt : option Stamp;
  type : option string
}.

End Doc.

(** The filters the controllers pass to [find]. *)
Inductive Query :=
| Q_all                                (* {} *)
| Q_id (id : string)                   (* { _id: id } *)
| Q_promptId (promptId : string).      (* { promptId: promptId } *)

Definition matches (q : Query) (d : Doc.t) : bool :=
  match q with
  | Q_all => true
  | Q_id id => String.eqb (Doc._id d) id
  | Q_promptId p =>
      match Doc.promptId d with
      | Some p' => String.eqb p' p
      | None => false
      end
  end.

(** ** The provider behind the SDK *)

Record Err := mkErr { code : option string; message : string }.

Definition Error (message : string) : Err := mkErr None message.

Inductive Part :=
| TextPart (text : string)
| InlineDataPart (data mimeType : string).

(** [model.generateContent(parts, cfg)] followed by [response.text()]. *)
Inductive ProviderReply :=
| Responds (text : string)
| RespondsWithoutText (e : Err)        (* response.text() throws *)
| Rejects (e : Err).                   (* generateContent rejects *)

Inductive Event :=
| GatewayCall (operation : string)
| ProviderCall (model : string) (parts : list Part).

(** ** The world a handler runs in *)

Record World := mkWorld {
  db : option (gmap string (list Doc.t));   (* database.js: let db = null *)
  GEMINI_API_KEY : option string;           (* process.env.GEMINI_API_KEY *)
  fs : gmap string (list byte);             (* files under uploads/ *)
  sdk_error : string → option Err;          (* what getGenerativeModel throws, if it does *)
  provider : string → list Part → ProviderReply;
  uuid_source : nat → string;
  uuid_drawn : nat;
  clock_source : nat → Z;
  clock_read : nat;
  trace : list Event
}.

Definition set_db (s : option (gmap string (list Doc.t))) (w : World) : World :=
  mkWorld s (GEMINI_API_KEY w) (fs w) (sdk_error w) (provider w)
    (uuid_source w) (uuid_drawn w) (clock_source w) (clock_read w) (trace w).

Definition set_fs (f : gmap string (list byte)) (w : World) : World :=
  mkWorld (db w) (GEMINI_API_KEY w) f (sdk_error w) (provider w)
    (uuid_source w) (uuid_drawn w) (clock_source w) (clock_read w) (trace w).

Definition set_uuid_drawn (n : nat) (w : World) : World :=
  mkWorld (db w) (GEMINI_API_KEY w) (fs w) (sdk_error w) (provider w)
    (uuid_source w) n (clock_source w) (clock_read w) (trace w).

Definition set_clock_read (n : nat) (w : World) : World :=
  mkWorld (db w) (GEMINI_API_KEY w) (fs w) (sdk_error w) (provider w)
    (uuid_source w) (uuid_drawn w) (clock_source w) n (trace w).

Definition set_trace (t : list Event) (w : World) : World :=
  mkWorld (db w) (GEMINI_API_KEY w) (fs w) (sdk_error w) (provider w)
    (uuid_source w) (uuid_drawn w) (clock_source w) (clock_read w) t.

(** ** The monad of handlers: state and exceptions *)

Inductive Outcome (A : Type) :=
| Return (a : A)
| Throw (e : Err).
Arguments Return {A} a.
Arguments Throw {A} e.

Definition M (A : Type) : Type := World → Outcome A * World.

#[export] Instance M_ret : MRet M := λ A a w, (Return a, w).

#[export] Instance M_bind : MBind M := λ A B f m w,
  match m w with
  | (Return a, w') => f a w'
  | (Throw e, w') => (Throw e, w')
  end.

Definition throw {A} (e : Err) : M A := λ w, (Throw e, w).

(** [try { body } catch (error) { handler }] *)
Definition try_catch {A} (body : M A) (handler : Err → M A) : M A := λ w,
  match body w with
  | (Return a, w') => (Return a, w')
  | (Throw e, w') => handler e w'
  end.

Definition gets {A} (f : World → A) : M A := λ w, (Return (f w), w).
Definition modify (f : World → World) : M unit := λ w, (Return tt, f w).

(** [uuidv4()] *)
Definition uuidv4 : M string := λ w,
  (Return (uuid_source w (uuid_drawn w)), set_uuid_drawn (S (uuid_drawn w)) w).

(** [new Date()], as milliseconds since the epoch. *)
Definition now : M Z := λ w,
  (Return (clock_source w (clock_read w)), set_clock_read (S (clock_read w)) w).

(** Record a ghost event; [trace] holds the most recent event first. *)
Definition emit (e : Event) : M unit :=
  modify (λ w, set_trace (e :: trace w) w).

(** ** config/database.js *)

Module Database.

(** The documents of collection [c]; a collection that was never
    written to is empty. *)
Definition collection (store : gmap string (list Doc.t)) (c : string) : list Doc.t :=
  default [] (store !! c).

(** The documents of [c] that the filter [q] selects, in insertion order. *)
Definition select (store : gmap string (list Doc.t)) (c : string) (q : Query) : list Doc.t :=
  List.filter (matches q) (collection store c).

(** The driver: [database.collection(c).find(q).toArray()]. *)
Definition find (c : string) (q : Query) : M (list Doc.t) := λ w,
  match db w with
  | Some store => (Return (select store c q), w)
  | None => (Throw (Error "Client must be connected before running operations"), w)
  end.

(** No document of [docs] has this [_id]. *)
Definition fresh_id (id : string) (docs : list Doc.t) : bool :=
  negb (existsb (λ d, String.eqb (Doc._id d) id) docs).

(** The driver: [database.collection(c).insertOne(data)]; the unique
    index on [_id] rejects a second document with the same [_id]. *)
Definition insertOne (c : string) (data : Doc.t) : M string := λ w,
  match db w with
  | Some store =>
      let docs := collection store c in
      if fresh_id (Doc._id data) docs
      then (Return (Doc._id data), set_db (Some (<[c := docs ++ [data]]> store)) w)
      else (Throw (mkErr (Some "11000") "E11000 duplicate key error"), w)
  | None => (Throw (Error "Client must be connected before running operations"), w)
  end.

(** The driver: [database.listCollections().toArray()], names only. *)
Definition listCollections : M (list string) := λ w,
  match db w with
  | Some store => (Return ((map_to_list store).*1), w)
  | None => (Throw (Error "Client must be connected before running operations"), w)
  end.

Definition getDB : M unit := λ w,
  match db w with
  | Some _ => (Return tt, w)
  | None => (Throw (Error "Database not connected. Call connectDB() first."), w)
  end.

Definition writeDB (collection : string) (data : Doc.t) : M string :=
  try_catch
    (_ ← getDB;
     result ← insertOne collection data;
     mret result)
    (λ error, throw error).

Definition readDB (collection : string) (query : Query) : M (list Doc.t) :=
  try_catch
    (_ ← getDB;
     result ← find collection query;
     mret result)
    (λ error, throw error).

(** [docs] without the first document that [q] selects; [None] when
    it selects none. *)
Fixpoint remove_first (q : Query) (docs : list Doc.t) : option (list Doc.t) :=
  match docs with
  | [] => None
  | d :: rest =>
      if matches q d then Some rest else cons d <$> remove_first q rest
  end.

(** The driver: [database.collection(c).deleteOne(q)], for its
    [deletedCount]. *)
Definition deleteOne (c : string) (q : Query) : M Z := λ w,
  match db w with
  | Some store =>
      match remove_first q (collection store c) with
      | Some docs => (Return 1, set_db (Some (<[c := docs]> store)) w)
      | None => (Return 0, w)
      end
  | None => (Throw (Error "Client must be connected before running operations"), w)
  end.

Definition deleteDB (collection : string) (query : Query) : M Z :=
  try_catch
    (_ ← getDB;
     result ← deleteOne collection query;
     mret result)
    (λ error, throw error).

(** What [checkDBHealth] resolves to: [{ status: 'healthy', timestamp }]
    or [{ status: 'unhealthy', error, timestamp }]. *)
Inductive Health :=
| Healthy (timestamp : Z)
| Unhealthy (error : string) (timestamp : Z).

Section Health.

(** The driver: [database.admin().ping()], whatever the server does. *)
Variable admin_ping : M unit.

Definition checkDBHealth : M Health :=
  try_catch
    (_ ← getDB;
     _ ← admin_ping;
     t ← now;
     mret (Healthy t))
    (λ error,
       t ← now;
       mret (Unhealthy (message error) t)).

End Health.

End Database.

(** ** services/imageGenerationService.js *)

Module ImageGenerationService.

Record InlineData := { data : string; mimeType : string }.

(** What [generateImage] and [generateImageFromText] resolve to:
    [{ success: true, images, message, geminiResponse }] or
    [{ success: false, error, errorType, suggestion? }]. *)
Inductive Result :=
| Success (images : list InlineData) (message geminiResponse : string)
| Failure (error errorType : string) (suggestion : option string).

Definition success (r : Result) : bool :=
  match r with
  | Success _ _ _ => true
  | Failure _ _ _ => false
  end.

Definition errorType_of (r : Result) : option string :=
  match r with
  | Success _ _ _ => None
  | Failure _ t _ => Some t
  end.

Definition dquote : string := String "034"%char "".

Definition modelPriority (task : string) : option (list string) :=
  if String.eqb task "image" then
    Some ["gemini-2.0-flash-preview-image-generation"; "gemini-1.5-flash";
          "gemini-1.5-pro"; "gemini-pro"]
  else if String.eqb task "text" then
    Some ["gemini-1.5-flash"; "gemini-1.5-pro"; "gemini-pro"]
  else None.

(** [this.genAI.getGenerativeModel({ model: modelName })], for the
    exception it may raise; the handle itself is the model's name. *)
Definition getGenerativeModel (modelName : string) : M unit := λ w,
  match sdk_error w modelName with
  | None => (Return tt, w)
  | Some e => (Throw e, w)
  end.

(** The [for (const modelName of models)] loop, whose body returns
    from a [try] and continues from its [catch], and the fallback
    after it. *)
Fixpoint firstAvailable (models : list string) : M string :=
  match models with
  | [] => mret "gemini-pro"
  | modelName :: rest =>
      try_catch
        (_ ← getGenerativeModel modelName;
         mret modelName)
        (λ error, firstAvailable rest)
  end.

Definition getBestAvailableModel (task : string) : M string :=
  let models := default [ "gemini-1.5-flash"; "gemini-1.5-pro"; "gemini-pro" ]
                  (modelPriority task) in
  firstAvailable models.

(** [model.generateContent(parts, ...)], [await result.response] and
    [response.text()]. *)
Definition generateContent (modelName : string) (parts : list Part) : M string :=
  _ ← emit (ProviderCall modelName parts);
  reply ← gets (λ w, provider w modelName parts);
  match reply with
  | Responds text => mret text
  | RespondsWithoutText e => throw e
  | Rejects e => throw e
  end.

Definition requireApiKey : M unit :=
  key ← gets GEMINI_API_KEY;
  match Js.truthy key with
  | Some _ => mret tt
  | None => throw (Error "GEMINI_API_KEY is not set in environment variables")
  end.

(** The [try] block of [generateImage]. *)
Definition generateImage_try (prompt referenceImageBase64 mimeType : string) : M Result :=
  _ ← emit (GatewayCall "generateImage");
  _ ← requireApiKey;
  modelName ← getBestAvailableModel "image";
  _ ← getGenerativeModel modelName;
  let parts :=
    [ TextPart ("Generate an image based on this prompt: " +:+ dquote +:+ prompt +:+ dquote
                +:+ ". Use the provided reference image as a style guide or inspiration.");
      InlineDataPart referenceImageBase64 mimeType ] in
  text ← generateContent modelName parts;
  mret (Success [ {| data := referenceImageBase64; mimeType := mimeType |} ]
          "Image processed with Gemini AI" text).

(** The [catch (error)] block of [generateImage]. *)
Definition generateImage_catch (error : Err) : Result :=
  if Js.includes "429" (message error) || Js.includes "quota" (message error) then
    Failure ("Quota exceeded: " +:+ message error
             +:+ ". Please check your billing and quota limits.")
      "QUOTA_EXCEEDED"
      (Some "Please set up billing in Google AI Studio or wait for quota reset.")
  else if Js.includes "404" (message error) || Js.includes "not found" (message error) then
    Failure ("Model not found: " +:+ message error)
      "MODEL_NOT_FOUND"
      (Some "Please check available models or contact support.")
  else
    Failure ("Image generation failed: " +:+ message error) "UNKNOWN_ERROR" None.

Definition generateImage (prompt referenceImageBase64 mimeType : string) : M Result :=
  try_catch (generateImage_try prompt referenceImageBase64 mimeType)
    (λ error, mret (generateImage_catch error)).

(** The [try] block of [generateImageFromText]. *)
Definition generateImageFromText_try (prompt : string) : M Result :=
  _ ← emit (GatewayCall "generateImageFromText");
  _ ← requireApiKey;
  modelName ← getBestAvailableModel "text";
  _ ← getGenerativeModel modelName;
  let parts :=
    [ TextPart ("Generate an image based on this prompt: " +:+ dquote +:+ prompt +:+ dquote
                +:+ ". Create a detailed description of what the image should look like.") ] in
  text ← generateContent modelName parts;
  mret (Success [ {| data := "text-generated-description"; mimeType := "text/plain" |} ]
          "Text-to-image description generated with Gemini AI" text).

(** The [catch (error)] block of [generateImageFromText]. *)
Definition generateImageFromText_catch (error : Err) : Result :=
  if Js.includes "429" (message error) || Js.includes "quota" (message error) then
    Failure ("Quota exceeded: " +:+ message error
             +:+ ". Please check your billing and quota limits.")
      "QUOTA_EXCEEDED"
      (Some "Please set up billing in Google AI Studio or wait for quota reset.")
  else if Js.includes "404" (message error) || Js.includes "not found" (message error) then
    Failure ("Model not found: " +:+ message error)
      "MODEL_NOT_FOUND"
      (Some "Please check available models or contact support.")
  else
    Failure ("Text-to-image generation failed: " +:+ message error) "UNKNOWN_ERROR" None.

Definition generateImageFromText (prompt : string) : M Result :=
  try_catch (generateImageFromText_try prompt)
    (λ error, mret (generateImageFromText_catch error)).

(** What [listModels] resolves to: [{ success: true, message, models }]
    or [{ success: false, error }]. *)
Inductive ModelsResult :=
| Models (models : list string)
| NoModels (error : string).

(** What [testConnection] resolves to: [{ success: true, message,
    service, testResponse, availableModels }] or
    [{ success: false, error }]. *)
Inductive ConnectionResult :=
| Ready (testResponse : string) (availableModels : list string)
| NotReady (error : string).


Section Models.

(** The SDK: [this.genAI.listModels()], whatever it does. *)
Variable sdk_listModels : M (list string).

Definition listModels : M ModelsResult :=
  try_catch
    (key ← gets GEMINI_API_KEY;
     match Js.truthy key with
     | None => mret (NoModels "GEMINI_API_KEY is not set in environment variables")
     | Some _ =>
         models ← sdk_listModels;
         mret (Models models)
     end)
    (λ error, mret (NoModels (message error))).

Definition testConnection : M ConnectionResult :=
  try_catch
    (key ← gets GEMINI_API_KEY;
     match Js.truthy key with
     | None => mret (NotReady "GEMINI_API_KEY is not set in environment variables")
     | Some _ =>
         modelsResult ← listModels;
         match modelsResult with
         | NoModels error => mret (NotReady error)
         | Models models =>
             modelName ← getBestAvailableModel "text";
             _ ← getGenerativeModel modelName;
             text ← generateContent modelName
                      [ TextPart "Hello, this is a test connection." ];
             mret (Ready text models)
         end
     end)
    (λ error, mret (NotReady (message error))).

End Models.

End ImageGenerationService.

(** ** controllers/geminiController.js *)

Module GeminiController.

Import Database.

(** The first lines of [generateImage]: [promptId], [referenceImage]
    and [mimeType] as read from a JSON or a form-data request. *)
Definition readRequest (req : Request) : option string * option string * string :=
  if match Js.truthy (content_type req) with
     | Some ct => Js.includes "application/json" ct
     | None => false
     end
  then
    (body req !! "promptId", body req !! "referenceImage",
     default "image/jpeg" (body req !! "mimeType"))
  else
    let promptId := Js.or (body req !! "promptId") (body req !! "promptid") in
    let mimeType := Js.or_default (body req !! "mimeType") "image/jpeg" in
    match files req with
    | file :: _ =>
        (promptId, Some (Js.toBase64 (buffer file)),
         Js.or_default (Some (mem_mimetype file)) mimeType)
    | [] => (promptId, body req !! "referenceImage", mimeType)
    end.

Definition sampleImage (allImages : list Doc.t) : Json :=
  match allImages with
  | d :: _ => JObj [ ("promptId", opt_str (Doc.promptId d));
                     ("promptName", JStr (Doc.promptName d)) ]
  | [] => JNull
  end.

Definition internalServerError (error : Err) : M Response :=
  mret (mkResponse 500
    (JObj [ ("success", JBool false);
            ("message", JStr "Internal server error");
            ("error", JStr (message error)) ])).

(** POST /api/gemini/generate *)
Definition generateImage (req : Request) : M Response :=
  try_catch
    (let '(promptId, referenceImage, mimeType) := readRequest req in
     match Js.truthy promptId with
     | None =>
         mret (mkResponse 400
           (JObj [ ("success", JBool false);
                   ("message", JStr "promptId is required");
                   ("received", body_json req) ]))
     | Some promptId =>
     match Js.truthy referenceImage with
     | None =>
         mret (mkResponse 400
           (JObj [ ("success", JBool false);
                   ("message", JStr "referenceImage is required") ]))
     | Some referenceImage =>
         _ ← getDB;
         collections ← listCollections;
         existingImages ← readDB "images" (Q_promptId promptId);
         match existingImages with
         | [] =>
             allImages ← readDB "images" Q_all;
             mret (mkResponse 404
               (JObj [ ("success", JBool false);
                       ("message", JStr "No prompt found with the provided promptId");
                       ("debug", JObj
                          [ ("searchedFor", JStr promptId);
                            ("totalImages", JNum (Z.of_nat (length allImages)));
                            ("collections", JArr (JStr <$> collections));
                            ("sampleImage", sampleImage allImages) ]) ]))
         | promptData :: _ =>
             let promptText := Doc.prompt promptData in
             let promptName := Doc.promptName promptData in
             imageResult ←
               ImageGenerationService.generateImage promptText referenceImage mimeType;
             match imageResult with
             | ImageGenerationService.Failure error _ _ =>
                 mret (mkResponse 500
                   (JObj [ ("success", JBool false);
                           ("message", JStr "Image generation failed");
                           ("error", JStr error) ]))
             | ImageGenerationService.Success images _ _ =>
                 id ← uuidv4;
                 match images with
                 | [] => throw (Error "Cannot read properties of undefined (reading 'inlineData')")
                 | image0 :: _ =>
                     t ← now;
                     let imageData := {|
                       Doc._id := id;
                       Doc.promptId := Some promptId;
                       Doc.promptName := promptName;
                       Doc.prompt := promptText;
                       Doc.base64Image := ImageGenerationService.data image0;
                       Doc.originalName := "ai-generated-image.jpg";
                       Doc.size := Js.length (ImageGenerationService.data image0);
                       Doc.mimetype := "image/jpeg";
                       Doc.uploadedAt := None;
                       Doc.createdAt := IsoString t;
                       Doc.updatedAt := None;
                       Doc.type := Some "generated"
                     |} in
                     _ ← writeDB "generated_images" imageData;
                     mret (mkResponse 200
                       (JObj [ ("success", JBool true);
                               ("message", JStr "Image generated successfully");
                               ("data", JObj
                                  [ ("imageId", JStr (Doc._id imageData));
                                    ("promptId", JStr promptId);
                                    ("promptName", JStr promptName);
                                    ("base64Image", JStr (Doc.base64Image imageData));
                                    ("createdAt", stamp_json (Doc.createdAt imageData)) ]) ]))
                 end
             end
         end
     end
     end)
    internalServerError.

(** POST /api/gemini/generate-text *)
Definition generateImageFromText (req : Request) : M Response :=
  try_catch
    (match Js.truthy (body req !! "prompt") with
     | None =>
         mret (mkResponse 400
           (JObj [ ("success", JBool false);
                   ("message", JStr "prompt is required") ]))
     | Some prompt =>
         imageResult ← ImageGenerationService.generateImageFromText prompt;
         match imageResult with
         | ImageGenerationService.Failure error _ _ =>
             mret (mkResponse 500
               (JObj [ ("success", JBool false);
                       ("message", JStr "Image generation failed");
                       ("error", JStr error) ]))
         | ImageGenerationService.Success images _ _ =>
             id ← uuidv4;
             match images with
             | [] => throw (Error "Cannot read properties of undefined (reading 'inlineData')")
             | image0 :: _ =>
                 t ← now;
                 let imageData := {|
                   Doc._id := id;
                   Doc.promptId := None;
                   Doc.promptName := "Text Prompt";
                   Doc.prompt := prompt;
                   Doc.base64Image := ImageGenerationService.data image0;
                   Doc.originalName := "ai-text-generated-image.jpg";
                   Doc.size := Js.length (ImageGenerationService.data image0);
                   Doc.mimetype := "image/jpeg";
                   Doc.uploadedAt := None;
                   Doc.createdAt := IsoString t;
                   Doc.updatedAt := None;
                   Doc.type := Some "generated"
                 |} in
                 _ ← writeDB "generated_images" imageData;
                 mret (mkResponse 200
                   (JObj [ ("success", JBool true);
                           ("message", JStr "Image generated successfully from text");
                           ("data", JObj
                              [ ("imageId", JStr (Doc._id imageData));
                                ("prompt", JStr prompt);
                                ("base64Image", JStr (Doc.base64Image imageData));
                                ("createdAt", stamp_json (Doc.createdAt imageData)) ]) ]))
             end
         end
     end)
    internalServerError.

(** An element of [uniquePrompts]. *)
Record PromptEntry := {
  entry_id : string;
  entry_promptName : string;
  entry_prompt : string;
  entry_createdAt : Stamp
}.

(** The body of [images.forEach(img => ...)] on the pair
    [(uniquePrompts, seenPrompts)]. *)
Definition visit (acc : list PromptEntry * gset string) (img : Doc.t) :
    list PromptEntry * gset string :=
  let '(uniquePrompts, seenPrompts) := acc in
  match Js.truthy (Doc.promptId img) with
  | Some id =>
      if decide (id ∈ seenPrompts) then acc
      else
        (uniquePrompts ++ [ {| entry_id := id;
                               entry_promptName := Doc.promptName img;
                               entry_prompt := Doc.prompt img;
                               entry_createdAt := Doc.createdAt img |} ],
         seenPrompts ∪ {[ id ]})
  | None => acc
  end.

Definition uniquePrompts (images : list Doc.t) : list PromptEntry :=
  (fold_left visit images ([], ∅)).1.

Definition entry_json (e : PromptEntry) : Json :=
  JObj [ ("id", JStr (entry_id e));
         ("promptName", JStr (entry_promptName e));
         ("prompt", JStr (entry_prompt e));
         ("createdAt", stamp_json (entry_createdAt e)) ].

(** GET /api/gemini/prompts *)
Definition getPrompts (req : Request) : M Response :=
  try_catch
    (images ← readDB "images" Q_all;
     mret (mkResponse 200
       (JObj [ ("success", JBool true);
               ("message", JStr "Prompts retrieved successfully");
               ("data", JArr (entry_json <$> uniquePrompts images)) ])))
    (λ error,
       mret (mkResponse 500
         (JObj [ ("success", JBool false);
                 ("message", JStr "Failed to fetch prompts");
                 ("error", JStr (message error)) ]))).

(** A stored document as the driver hands it back. *)
Definition doc_json (d : Doc.t) : Json :=
  JObj ([ ("_id", JStr (Doc._id d));
          ("promptId", opt_str (Doc.promptId d));
          ("promptName", JStr (Doc.promptName d));
          ("prompt", JStr (Doc.prompt d));
          ("base64Image", JStr (Doc.base64Image d));
          ("originalName", JStr (Doc.originalName d));
          ("size", JNum (Doc.size d));
          ("mimetype", JStr (Doc.mimetype d)) ]
        ++ match Doc.uploadedAt d with
           | Some t => [ ("uploadedAt", stamp_json t) ]
           | None => []
           end
        ++ [ ("createdAt", stamp_json (Doc.createdAt d)) ]
        ++ match Doc.updatedAt d with
           | Some t => [ ("updatedAt", stamp_json t) ]
           | None => []
           end
        ++ match Doc.type d with
           | Some t => [ ("type", JStr t) ]
           | None => []
           end).

(** GET /api/gemini/generated-images *)
Definition getGeneratedImages (req : Request) : M Response :=
  try_catch
    (generatedImages ← readDB "generated_images" Q_all;
     mret (mkResponse 200
       (JObj [ ("success", JBool true);
               ("message", JStr "Generated images retrieved successfully");
               ("data", JArr (doc_json <$> generatedImages));
               ("count", JNum (Z.of_nat (length generatedImages))) ])))
    (λ error,
       mret (mkResponse 500
         (JObj [ ("success", JBool false);
                 ("message", JStr "Failed to fetch generated images");
                 ("error", JStr (message error)) ]))).

Section Connection.

Variable sdk_listModels : M (list string).

(** GET /api/gemini/test *)
Definition testConnection (req : Request) : M Response :=
  try_catch
    (isConnected ← ImageGenerationService.testConnection sdk_listModels;
     if Js.object_truthy isConnected then
       mret (mkResponse 200
         (JObj [ ("success", JBool true);
                 ("message", JStr "Gemini API connection successful") ]))
     else
       mret (mkResponse 500
         (JObj [ ("success", JBool false);
                 ("message", JStr "Gemini API connection failed") ])))
    (λ error,
       mret (mkResponse 500
         (JObj [ ("success", JBool false);
                 ("message", JStr "Failed to test Gemini connection");
                 ("error", JStr (message error)) ]))).



End Connection.

End GeminiController.

(** ** controllers/uploadImage&promts.js *)

Module UploadController.

Import Database.

(** [fs.readFileSync(path)] *)
Definition readFileSync (path : string) : M (list byte) := λ w,
  match fs w !! path with
  | Some bytes => (Return bytes, w)
  | None => (Throw (mkErr (Some "ENOENT") "ENOENT: no such file or directory"), w)
  end.

(** [fs.unlinkSync(path)] *)
Definition unlinkSync (path : string) : M unit := λ w,
  match fs w !! path with
  | Some _ => (Return tt, set_fs (delete path (fs w)) w)
  | None => (Throw (mkErr (Some "ENOENT") "ENOENT: no such file or directory"), w)
  end.

(** [uploadImage] from "Prepare data for database" on. *)
Definition saveImage (promptId promptName prompt base64DataUrl originalName : string)
    (size : Z) (mimetype : string) : M Response :=
  id ← uuidv4;
  uploadedAt ← now;
  createdAt ← now;
  updatedAt ← now;
  let imageData := {|
    Doc._id := id;
    Doc.promptId := Some promptId;
    Doc.promptName := promptName;
    Doc.prompt := prompt;
    Doc.base64Image := base64DataUrl;
    Doc.originalName := originalName;
    Doc.size := size;
    Doc.mimetype := mimetype;
    Doc.uploadedAt := Some (DateObject uploadedAt);
    Doc.createdAt := DateObject createdAt;
    Doc.updatedAt := Some (DateObject updatedAt);
    Doc.type := None
  |} in
  try_catch
    (_ ← writeDB "images" imageData;
     mret (mkResponse 201
       (JObj [ ("success", JBool true);
               ("message", JStr "Image uploaded and converted to base64 successfully");
               ("data", JObj
                  [ ("id", JStr (Doc._id imageData));
                    ("promptId", opt_str (Doc.promptId imageData));
                    ("promptName", JStr (Doc.promptName imageData));
                    ("prompt", JStr (Doc.prompt imageData));
                    ("originalName", JStr (Doc.originalName imageData));
                    ("size", JNum (Doc.size imageData));
                    ("mimetype", JStr (Doc.mimetype imageData));
                    ("uploadedAt", JDate uploadedAt) ]) ])))
    (λ error,
       mret (mkResponse 500
         (JObj [ ("success", JBool false);
                 ("message", JStr "Failed to save image to database");
                 ("error", JStr "DATABASE_SAVE_ERROR") ]))).

Definition validationError : Response :=
  mkResponse 400
    (JObj [ ("success", JBool false);
            ("message", JStr "Missing required fields: promptId, promptName, and prompt are required");
            ("error", JStr "VALIDATION_ERROR") ]).

(** POST /api/images/upload *)
Definition uploadImage (req : Request) : M Response :=
  try_catch
    (let aiImage := body req !! "aiImage" in
     match Js.truthy (body req !! "promptId"),
           Js.truthy (body req !! "promptName"),
           Js.truthy (body req !! "prompt") with
     | Some promptId, Some promptName, Some prompt =>
         match file req with
         | Some f =>
             imageBuffer ← readFileSync (path f);
             let base64ImageData := Js.toBase64 imageBuffer in
             let base64DataUrl := "data:" +:+ disk_mimetype f +:+ ";base64," +:+ base64ImageData in
             _ ← unlinkSync (path f);
             saveImage promptId promptName prompt base64DataUrl
               (originalname f) (disk_size f) (disk_mimetype f)
         | None =>
             match Js.truthy aiImage with
             | None =>
                 mret (mkResponse 400
                   (JObj [ ("success", JBool false);
                           ("message", JStr "No image data provided (either file upload or base64)");
                           ("error", JStr "NO_IMAGE_ERROR") ]))
             | Some aiImage =>
                 saveImage promptId promptName prompt aiImage "uploaded-image" 0 "image/jpeg"
             end
         end
     | _, _, _ => mret validationError
     end)
    (λ error,
       if match code error with
          | Some c => String.eqb c "LIMIT_FILE_SIZE"
          | None => false
          end
       then
         mret (mkResponse 400
           (JObj [ ("success", JBool false);
                   ("message", JStr "File too large. Maximum size is 10MB");
                   ("error", JStr "FILE_SIZE_ERROR") ]))
       else if Js.includes "Only image files" (message error) then
         mret (mkResponse 400
           (JObj [ ("success", JBool false);
                   ("message", JStr (message error));
                   ("error", JStr "INVALID_FILE_TYPE") ]))
       else
         mret (mkResponse 500
           (JObj [ ("success", JBool false);
                   ("message", JStr "Internal server error during upload");
                   ("error", JStr "UPLOAD_ERROR") ]))).

(** The fields both read handlers return for a stored image;
    [JSON.stringify] drops an [undefined] [uploadedAt]. *)
Definition image_json (image : Doc.t) : Json :=
  JObj ([ ("id", JStr (Doc._id image));
          ("promptId", opt_str (Doc.promptId image));
          ("promptName", JStr (Doc.promptName image));
          ("prompt", JStr (Doc.prompt image));
          ("base64Image", JStr (Doc.base64Image image));
          ("originalName", JStr (Doc.originalName image));
          ("size", JNum (Doc.size image));
          ("mimetype", JStr (Doc.mimetype image)) ]
        ++ match Doc.uploadedAt image with
           | Some t => [ ("uploadedAt", stamp_json t) ]
           | None => []
           end).

(** GET /api/images/:id, with [id] the route parameter [req.params.id]. *)
Definition getImageById (id : string) (req : Request) : M Response :=
  try_catch
    (images ← readDB "images" (Q_id id);
     match images with
     | [] =>
         mret (mkResponse 404
           (JObj [ ("success", JBool false);
                   ("message", JStr "Image not found");
                   ("error", JStr "NOT_FOUND") ]))
     | image :: _ =>
         mret (mkResponse 200
           (JObj [ ("success", JBool true);
                   ("message", JStr "Image retrieved successfully");
                   ("data", image_json image) ]))
     end)
    (λ error,
       mret (mkResponse 500
         (JObj [ ("success", JBool false);
                 ("message", JStr "Error retrieving image");
                 ("error", JStr "RETRIEVE_ERROR") ]))).

(** GET /api/images/prompt/:promptId, with [promptId] the route
    parameter [req.params.promptId]. *)
Definition getImagesByPromptId (promptId : option string) (req : Request) : M Response :=
  try_catch
    (match Js.truthy promptId with
     | None =>
         mret (mkResponse 400
           (JObj [ ("success", JBool false);
                   ("message", JStr "promptId parameter is required");
                   ("error", JStr "MISSING_PARAMETER") ]))
     | Some promptId =>
         images ← readDB "images" (Q_promptId promptId);
         match images with
         | [] =>
             mret (mkResponse 404
               (JObj [ ("success", JBool false);
                       ("message", JStr "No images found for the provided promptId");
                       ("error", JStr "NOT_FOUND") ]))
         | _ :: _ =>
             let imageList := image_json <$> images in
             mret (mkResponse 200
               (JObj [ ("success", JBool true);
                       ("message", JStr "Images retrieved successfully by promptId");
                       ("data", JArr imageList);
                       ("count", JNum (Z.of_nat (length imageList))) ]))
         end
     end)
    (λ error,
       mret (mkResponse 500
         (JObj [ ("success", JBool false);
                 ("message", JStr "Error retrieving images by promptId");
                 ("error", JStr "RETRIEVE_ERROR") ]))).

(** GET /api/images *)
Definition getAllImages (req : Request) : M Response :=
  try_catch
    (images ← readDB "images" Q_all;
     mret (mkResponse 200
       (JObj [ ("success", JBool true);
               ("message", JStr "Images retrieved successfussy");
               ("promptId", JArr ((λ img, opt_str (Doc.promptId img)) <$> images));
               ("aiImage", JArr ((λ img, JStr (Doc.base64Image img)) <$> images));
               ("count", JNum (Z.of_nat (length images))) ])))
    (λ error,
       mret (mkResponse 500
         (JObj [ ("success", JBool false);
                 ("message", JStr "Error retrieving images");
                 ("error", JStr "RETRIEVE_ERROR") ]))).

(** DELETE /api/images/:id, with [id] the route parameter. *)
Definition deleteImage (id : string) (req : Request) : M Response :=
  try_catch
    (deletedCount ← deleteDB "images" (Q_id id);
     if Z.eqb deletedCount 0 then
       mret (mkResponse 404
         (JObj [ ("success", JBool false);
                 ("message", JStr "Image not found");
                 ("error", JStr "NOT_FOUND") ]))
     else
       mret (mkResponse 200
         (JObj [ ("success", JBool true);
                 ("message", JStr "Image deleted successfully") ])))
    (λ error,
       mret (mkResponse 500
         (JObj [ ("success", JBool false);
                 ("message", JStr "Error deleting image");
                 ("error", JStr "DELETE_ERROR") ]))).

End UploadController.

(** ** app.js *)

Module App.

Definition health_json (h : Database.Health) : Json :=
  match h with
  | Database.Healthy t =>
      JObj [ ("status", JStr "healthy"); ("timestamp", JDate t) ]
  | Database.Unhealthy error t =>
      JObj [ ("status", JStr "unhealthy"); ("error", JStr error);
             ("timestamp", JDate t) ]
  end.

Section Health.

Variable admin_ping : M unit.

(** GET /health, with [uptime] the number [process.uptime()] gives. *)
Definition health (uptime : Json) (req : Request) : M Response :=
  try_catch
    (dbHealth ← Database.checkDBHealth admin_ping;
     t ← now;
     mret (mkResponse 200
       (JObj [ ("status", JStr "OK");
               ("timestamp", JDate t);
               ("uptime", uptime);
               ("database", health_json dbHealth) ])))
    (λ error,
       t ← now;
       mret (mkResponse 500
         (JObj [ ("status", JStr "ERROR");
                 ("timestamp", JDate t);
                 ("uptime", uptime);
                 ("database", JObj [ ("status", JStr "unhealthy");
                                     ("error", JStr (message error)) ]) ]))).

End Health.

(** The catch-all after the routes. *)
Definition notFound (req : Request) : M Response :=
  mret (mkResponse 404
    (JObj [ ("success", JBool false);
            ("message", JStr "Route not found");
            ("error", JStr "NOT_FOUND") ])).

End App.

(** ** Vocabulary of the specification *)

(** [needle] occurs in [hay] as a substring. *)
Definition contains (needle hay : string) : Prop :=
  ∃ pre post, hay = pre +:+ needle +:+ post.

(** The failure kinds of the Model Gateway and the [errorType] string
    each one is reported as. *)
Inductive FailureKind := QuotaExceeded | ModelNotFound | Unknown.

Definition errorType_code (k : FailureKind) : string :=
  match k with
  | QuotaExceeded => "QUOTA_EXCEEDED"
  | ModelNotFound => "MODEL_NOT_FOUND"
  | Unknown => "UNKNOWN_ERROR"
  end.

(** The classification as the specification words it: quota on "429"
    or "quota"; otherwise model-not-found on "404" or "not found";
    otherwise unknown. *)
Definition classifies (m : string) (k : FailureKind) : Prop :=
  match k with
  | QuotaExceeded => contains "429" m ∨ contains "quota" m
  | ModelNotFound =>
      ¬ (contains "429" m ∨ contains "quota" m) ∧
      (contains "404" m ∨ contains "not found" m)
  | Unknown =>
      ¬ (contains "429" m ∨ contains "quota" m) ∧
      ¬ (contains "404" m ∨ contains "not found" m)
  end.

(** Entry [e] of the prompt list was made from the record at position
    [i] of [images], and no earlier record has its [promptId]. *)
Definition first_record (images : list Doc.t) (i : nat)
    (e : GeminiController.PromptEntry) : Prop :=
  ∃ img,
    images !! i = Some img ∧
    Js.truthy (Doc.promptId img) = Some (GeminiController.entry_id e) ∧
    GeminiController.entry_promptName e = Doc.promptName img ∧
    GeminiController.entry_prompt e = Doc.prompt img ∧
    GeminiController.entry_createdAt e = Doc.createdAt img ∧
    ∀ j img', (j < i)%nat → images !! j = Some img' →
              Js.truthy (Doc.promptId img') ≠ Some (GeminiController.entry_id e).

(** The invariant of the [forEach] of [getPrompts] once it has visited
    [images]: [seenPrompts] holds the ids of [uniquePrompts], which are
    distinct; the entries were made from first records, at increasing
    positions; every truthy [promptId] visited has been seen. *)
Definition scanned (images : list Doc.t)
    (acc : list GeminiController.PromptEntry * gset string) : Prop :=
  (∀ p, p ∈ acc.2 ↔ p ∈ GeminiController.entry_id <$> acc.1) ∧
  NoDup (GeminiController.entry_id <$> acc.1) ∧
  (∃ idxs, StronglySorted lt idxs ∧
           Forall (λ i, (i < length images)%nat) idxs ∧
           Forall2 (first_record images) idxs acc.1) ∧
  (∀ i img p, images !! i = Some img →
              Js.truthy (Doc.promptId img) = Some p → p ∈ acc.2) ∧
  (length acc.1 ≤ length images)%nat.

(** The response a run ended with, if it did not throw. *)
Definition returned {A} (run : Outcome A * World) : option A :=
  match run.1 with
  | Return a => Some a
  | Throw _ => None
  end.

(** [resp.data.key] of a response. *)
Definition data_field (key : string) (resp : Response) : option Json :=
  field "data" (json resp) ≫= field key.

(** ** A concrete deployment, for the scenarios of the specification *)

Module Scenario.

Definition sunset : Doc.t := {|
  Doc._id := "img-1";
  Doc.promptId := Some "p1";
  Doc.promptName := "Sunset";
  Doc.prompt := "a sunset over mountains";
  Doc.base64Image := "WA==";
  Doc.originalName := "uploaded-image";
  Doc.size := 0;
  Doc.mimetype := "image/jpeg";
  Doc.uploadedAt := Some (DateObject 1000);
  Doc.createdAt := DateObject 1000;
  Doc.updatedAt := Some (DateObject 1000);
  Doc.type := None
|}.

(** A second upload under the same [promptId], with another name. *)
Definition dusk : Doc.t := {|
  Doc._id := "img-2";
  Doc.promptId := Some "p1";
  Doc.promptName := "Dusk";
  Doc.prompt := "dusk over the sea";
  Doc.base64Image := "Wg==";
  Doc.originalName := "uploaded-image";
  Doc.size := 0;
  Doc.mimetype := "image/jpeg";
  Doc.uploadedAt := Some (DateObject 2000);
  Doc.createdAt := DateObject 2000;
  Doc.updatedAt := Some (DateObject 2000);
  Doc.type := None
|}.

Definition forest : Doc.t := {|
  Doc._id := "img-3";
  Doc.promptId := Some "p2";
  Doc.promptName := "Forest";
  Doc.prompt := "a forest in the fog";
  Doc.base64Image := "Rg==";
  Doc.originalName := "uploaded-image";
  Doc.size := 0;
  Doc.mimetype := "image/jpeg";
  Doc.uploadedAt := Some (DateObject 3000);
  Doc.createdAt := DateObject 3000;
  Doc.updatedAt := Some (DateObject 3000);
  Doc.type := None
|}.

Definition store : gmap string (list Doc.t) :=
  {[ "images" := [sunset; dusk; forest] ]}.

(** The [n]-th UUID drawn: "uuid-" followed by [n] marks. *)
Definition uuids (n : nat) : string :=
  "uuid-" +:+ string_of_list_ascii (repeat "i"%char n).

(** A connected process with a credential, whose provider answers
    every call with [reply]. *)
Definition world (reply : ProviderReply) : World := {|
  db := Some store;
  GEMINI_API_KEY := Some "test-key";
  fs := ∅;
  sdk_error := λ _, None;
  provider := λ _ _, reply;
  uuid_source := uuids;
  uuid_drawn := 0;
  clock_source := λ n, 1700000000000 + Z.of_nat n;
  clock_read := 0;
  trace := []
|}.

(** A request with a JSON body of string fields. *)
Definition json_request (fields : list (string * string)) : Request := {|
  content_type := Some "application/json";
  body := list_to_map fields;
  files := [];
  file := None
|}.

(** A multipart upload of the bytes "Man" as image/png, which multer
    wrote to disk before the handler runs. *)
Definition file_request : Request := {|
  content_type := Some "multipart/form-data";
  body := {[ "promptId" := "p1"; "promptName" := "Sunset";
             "prompt" := "a sunset over mountains" ]};
  files := [];
  file := Some {| path := "uploads/aiImage-1.png";
                  originalname := "man.png";
                  disk_mimetype := "image/png";
                  disk_size := 3 |}
|}.

Definition file_world : World :=
  set_fs {[ "uploads/aiImage-1.png" := [Byte.x4d; Byte.x61; Byte.x6e] ]}
    (world (Responds "ok")).

End Scenario.

(** [req] with [promptId] set to [p] in its body. *)
Definition with_promptId (p : string) (req : Request) : Request := {|
  content_type := content_type req;
  body := <["promptId" := p]> (body req);
  files := files req;
  file := file req
|}.

(** The request is read as JSON: its content type mentions
    application/json. *)
Definition is_json (req : Request) : bool :=
  match Js.truthy (content_type req) with
  | Some ct => Js.includes "application/json" ct
  | None => false
  end.

(** [j.k1.k2...] for the keys of [keys]. *)
Fixpoint at_path (keys : list string) (j : Json) : option Json :=
  match keys with
  | [] => Some j
  | k :: rest =>
      match field k j with
      | Some j' => at_path rest j'
      | None => None
      end
  end.

(** The record [saveImage] stores when it runs in world [w]: the next
    UUID and the next three readings of the clock. *)
Definition upload_record (w : World)
    (promptId promptName prompt base64DataUrl originalName : string)
    (size : Z) (mimetype : string) : Doc.t := {|
  Doc._id := uuid_source w (uuid_drawn w);
  Doc.promptId := Some promptId;
  Doc.promptName := promptName;
  Doc.prompt := prompt;
  Doc.base64Image := base64DataUrl;
  Doc.originalName := originalName;
  Doc.size := size;
  Doc.mimetype := mimetype;
  Doc.uploadedAt := Some (DateObject (clock_source w (clock_read w)));
  Doc.createdAt := DateObject (clock_source w (S (clock_read w)));
  Doc.updatedAt := Some (DateObject (clock_source w (S (S (clock_read w)))));
  Doc.type := None
|}.

(** How a run of [saveImage] from [w] ended in [resp] and [w']: the
    record was appended to [images] and 201 returns its identity, or
    the insert failed and 500 says so. *)
Definition saved (record : Doc.t) (w : World) (resp : Response) (w' : World) : Prop :=
  (status resp = 201 ∧
   data_field "id" resp = Some (JStr (Doc._id record)) ∧
   data_field "base64Image" resp = None ∧
   ∃ store,
     db w = Some store ∧
     Database.fresh_id (Doc._id record) (Database.collection store "images") = true ∧
     db w' = Some (<["images" := Database.collection store "images" ++ [record]]> store)) ∨
  (resp = mkResponse 500
     (JObj [ ("success", JBool false);
             ("message", JStr "Failed to save image to database");
             ("error", JStr "DATABASE_SAVE_ERROR") ]) ∧
   db w' = db w).

(** No two documents of [docs] share an [_id]. *)
Definition unique_ids (docs : list Doc.t) : Prop := NoDup (Doc._id <$> docs).

(** * Properties *)

(** ** Running the primitives *)

Section Running.

Import Database.

Lemma bind_run {A B} (m : M A) (k : A → M B) (w : World) :
  (m ≫= k) w =
  match m w with
  | (Return a, w') => k a w'
  | (Throw e, w') => (Throw e, w')
  end.
Proof. reflexivity. Qed.

Lemma try_catch_run {A} (body : M A) (handler : Err → M A) (w : World) :
  try_catch body handler w =
  match body w with
  | (Return a, w') => (Return a, w')
  | (Throw e, w') => handler e w'
  end.
Proof. reflexivity. Qed.

Lemma getDB_connected w store :
  db w = Some store → getDB w = (Return tt, w).
Proof. unfold getDB. by intros ->. Qed.

Lemma getDB_disconnected w :
  db w = None →
  getDB w = (Throw (Error "Database not connected. Call connectDB() first."), w).
Proof. unfold getDB. by intros ->. Qed.

Lemma listCollections_connected w store :
  db w = Some store → listCollections w = (Return ((map_to_list store).*1), w).
Proof. unfold listCollections. by intros ->. Qed.

Lemma readDB_connected w store c q :
  db w = Some store → readDB c q w = (Return (select store c q), w).
Proof.
  intros Hdb. unfold readDB. rewrite try_catch_run, bind_run.
  rewrite (getDB_connected w store Hdb). cbv beta iota.
  rewrite bind_run. unfold find. by rewrite Hdb.
Qed.

Lemma readDB_disconnected w c q :
  db w = None →
  readDB c q w = (Throw (Error "Database not connected. Call connectDB() first."), w).
Proof.
  intros Hdb. unfold readDB. rewrite try_catch_run, bind_run.
  by rewrite (getDB_disconnected w Hdb).
Qed.

(** A lookup that returns documents ran against a connected store,
    returned its selection and changed nothing. *)
Lemma readDB_returns w c q docs w' :
  readDB c q w = (Return docs, w') →
  ∃ store, db w = Some store ∧ docs = select store c q ∧ w' = w.
Proof.
  intros Hrun. destruct (db w) as [store|] eqn:Hdb.
  - rewrite (readDB_connected w store c q Hdb) in Hrun.
    exists store. by simplify_eq.
  - rewrite (readDB_disconnected w c q Hdb) in Hrun. discriminate.
Qed.

Lemma writeDB_connected w store c data :
  db w = Some store →
  writeDB c data w =
  if fresh_id (Doc._id data) (collection store c)
  then (Return (Doc._id data),
        set_db (Some (<[c := collection store c ++ [data]]> store)) w)
  else (Throw (mkErr (Some "11000") "E11000 duplicate key error"), w).
Proof.
  intros Hdb. unfold writeDB. rewrite try_catch_run, bind_run.
  rewrite (getDB_connected w store Hdb). cbv beta iota.
  rewrite bind_run. unfold insertOne. rewrite Hdb. cbv zeta.
  by destruct (fresh_id _ _).
Qed.

Lemma writeDB_disconnected w c data :
  db w = None →
  writeDB c data w =
  (Throw (Error "Database not connected. Call connectDB() first."), w).
Proof.
  intros Hdb. unfold writeDB. rewrite try_catch_run, bind_run.
  by rewrite (getDB_disconnected w Hdb).
Qed.

End Running.

(** ** The gateway *)

Section Gateway.

Import ImageGenerationService.

Lemma emit_run e w : emit e w = (Return tt, set_trace (e :: trace w) w).
Proof. reflexivity. Qed.

Lemma requireApiKey_run w :
  requireApiKey w =
  match Js.truthy (GEMINI_API_KEY w) with
  | Some _ => (Return tt, w)
  | None => (Throw (Error "GEMINI_API_KEY is not set in environment variables"), w)
  end.
Proof. unfold requireApiKey. rewrite bind_run. cbn. by destruct (Js.truthy _). Qed.

Lemma generateContent_run modelName parts w :
  generateContent modelName parts w =
  match provider w modelName parts with
  | Responds text =>
      (Return text, set_trace (ProviderCall modelName parts :: trace w) w)
  | RespondsWithoutText e | Rejects e =>
      (Throw e, set_trace (ProviderCall modelName parts :: trace w) w)
  end.
Proof.
  unfold generateContent. rewrite bind_run, emit_run. cbv beta iota.
  rewrite bind_run. cbn. by destruct (provider w modelName parts).
Qed.

(** Model selection never throws and changes nothing. *)
Lemma firstAvailable_run models w :
  ∃ modelName, firstAvailable models w = (Return modelName, w).
Proof.
  induction models as [|m models IH]; simpl.
  - by exists "gemini-pro".
  - rewrite try_catch_run, bind_run. unfold getGenerativeModel.
    destruct (sdk_error w m); [exact IH | by exists m].
Qed.

Lemma getBestAvailableModel_run task w :
  ∃ modelName, getBestAvailableModel task w = (Return modelName, w).
Proof. apply firstAvailable_run. Qed.

(** The [try] block of [generateImage] touches nothing but the trace,
    and when it returns, it returns the reference image it was given. *)
Lemma generateImage_try_run prompt img mime w :
  ∃ evs,
    (∃ text, generateImage_try prompt img mime w =
       (Return (Success [ {| data := img; mimeType := mime |} ]
                  "Image processed with Gemini AI" text),
        set_trace (evs ++ GatewayCall "generateImage" :: trace w) w)) ∨
    (∃ e, generateImage_try prompt img mime w =
       (Throw e, set_trace (evs ++ GatewayCall "generateImage" :: trace w) w)).
Proof.
  unfold generateImage_try. rewrite bind_run, emit_run. cbv beta iota.
  set (w0 := set_trace (GatewayCall "generateImage" :: trace w) w).
  rewrite bind_run, requireApiKey_run.
  destruct (Js.truthy (GEMINI_API_KEY w0)).
  2:{ exists []. right. eexists. reflexivity. }
  cbv beta iota. rewrite bind_run.
  destruct (getBestAvailableModel_run "image" w0) as [m ->].
  cbv beta iota. rewrite bind_run. unfold getGenerativeModel.
  destruct (sdk_error w0 m).
  { exists []. right. eexists. reflexivity. }
  cbv beta iota. rewrite bind_run, generateContent_run.
  match goal with |- context [provider w0 ?m ?p] =>
    exists [ProviderCall m p]; destruct (provider w0 m p)
  end; [left | right | right]; eexists; reflexivity.
Qed.

Lemma generateImageFromText_try_run prompt w :
  ∃ evs,
    (∃ text, generateImageFromText_try prompt w =
       (Return (Success [ {| data := "text-generated-description";
                             mimeType := "text/plain" |} ]
                  "Text-to-image description generated with Gemini AI" text),
        set_trace (evs ++ GatewayCall "generateImageFromText" :: trace w) w)) ∨
    (∃ e, generateImageFromText_try prompt w =
       (Throw e, set_trace (evs ++ GatewayCall "generateImageFromText" :: trace w) w)).
Proof.
  unfold generateImageFromText_try. rewrite bind_run, emit_run. cbv beta iota.
  set (w0 := set_trace (GatewayCall "generateImageFromText" :: trace w) w).
  rewrite bind_run, requireApiKey_run.
  destruct (Js.truthy (GEMINI_API_KEY w0)).
  2:{ exists []. right. eexists. reflexivity. }
  cbv beta iota. rewrite bind_run.
  destruct (getBestAvailableModel_run "text" w0) as [m ->].
  cbv beta iota. rewrite bind_run. unfold getGenerativeModel.
  destruct (sdk_error w0 m).
  { exists []. right. eexists. reflexivity. }
  cbv beta iota. rewrite bind_run, generateContent_run.
  match goal with |- context [provider w0 ?m ?p] =>
    exists [ProviderCall m p]; destruct (provider w0 m p)
  end; [left | right | right]; eexists; reflexivity.
Qed.

Lemma generateImage_catch_fails e : success (generateImage_catch e) = false.
Proof. unfold generateImage_catch. by repeat case_match. Qed.

Lemma generateImageFromText_catch_fails e :
  success (generateImageFromText_catch e) = false.
Proof. unfold generateImageFromText_catch. by repeat case_match. Qed.

(** [generateImage] never throws: it resolves to a success carrying
    the reference image, or to a classified failure. *)
Lemma generateImage_run prompt img mime w :
  ∃ evs r,
    generateImage prompt img mime w =
      (Return r, set_trace (evs ++ GatewayCall "generateImage" :: trace w) w) ∧
    ((∃ text, r = Success [ {| data := img; mimeType := mime |} ]
                    "Image processed with Gemini AI" text) ∨
     (∃ e w1, generateImage_try prompt img mime w = (Throw e, w1) ∧
              r = generateImage_catch e)).
Proof.
  unfold generateImage. 
  destruct (generateImage_try_run prompt img mime w) as (evs & [[text Hrun] | [e Hrun]]);
    exists evs; rewrite try_catch_run, Hrun; eexists; split; try reflexivity.
  - left. by exists text.
  - right. by exists e, (set_trace (evs ++ GatewayCall "generateImage" :: trace w) w).
Qed.

Lemma generateImageFromText_run prompt w :
  ∃ evs r,
    generateImageFromText prompt w =
      (Return r, set_trace (evs ++ GatewayCall "generateImageFromText" :: trace w) w) ∧
    ((∃ text, r = Success [ {| data := "text-generated-description";
                                mimeType := "text/plain" |} ]
                    "Text-to-image description generated with Gemini AI" text) ∨
     (∃ e w1, generateImageFromText_try prompt w = (Throw e, w1) ∧
              r = generateImageFromText_catch e)).
Proof.
  unfold generateImageFromText.
  destruct (generateImageFromText_try_run prompt w) as (evs & [[text Hrun] | [e Hrun]]);
    exists evs; rewrite try_catch_run, Hrun; eexists; split; try reflexivity.
  - left. by exists text.
  - right. by exists e, (set_trace (evs ++ GatewayCall "generateImageFromText" :: trace w) w).
Qed.

End Gateway.

(** ** Substrings *)

Section Substrings.

Lemma append_cons (c : ascii) (s t : string) :
  String c s +:+ t = String c (s +:+ t).
Proof. reflexivity. Qed.

Lemma prefix_iff (n h : string) :
  String.prefix n h = true ↔ ∃ post, h = n +:+ post.
Proof.
  revert h. induction n as [|a n IH]; intros h.
  - destruct h; split; eauto.
  - destruct h as [|b h].
    + split; [discriminate | intros [post Hpost]; discriminate].
    + unfold String.prefix; fold String.prefix.
      setoid_rewrite append_cons.
      destruct (ascii_dec a b) as [->|Hne].
      * rewrite IH. split; intros [post Hpost]; exists post; congruence.
      * split; [discriminate | intros [post Hpost]; congruence].
Qed.

Lemma includes_unfold (n h : string) :
  Js.includes n h =
  String.prefix n h ||
  match h with
  | EmptyString => false
  | String _ rest => Js.includes n rest
  end.
Proof. by destruct h. Qed.

(** [includes] decides substring occurrence. *)
Lemma includes_iff (n h : string) :
  Js.includes n h = true ↔ contains n h.
Proof.
  unfold contains. induction h as [|c h IH]; rewrite includes_unfold.
  - rewrite orb_false_r, prefix_iff. split.
    + intros [post Hpost]. by exists "", post.
    + intros ([|c pre] & post & Hpost); [by exists post | discriminate].
  - rewrite orb_true_iff, prefix_iff, IH. split.
    + intros [[post Hpost] | (pre & post & Hpost)].
      * by exists "", post.
      * exists (String c pre), post. by rewrite append_cons, Hpost.
    + intros ([|c' pre] & post & Hpost).
      * left. by exists post.
      * right. exists pre, post. rewrite append_cons in Hpost. congruence.
Qed.

Lemma includes_false_iff (n h : string) :
  Js.includes n h = false ↔ ¬ contains n h.
Proof. rewrite <- includes_iff. by destruct (Js.includes n h). Qed.

End Substrings.

(** ** Failure classification *)

Section Classification.

Import ImageGenerationService.

Lemma classifies_total m : ∃ k, classifies m k.
Proof.
  destruct (Js.includes "429" m || Js.includes "quota" m) eqn:Hq;
    [| destruct (Js.includes "404" m || Js.includes "not found" m) eqn:Hn].
  - exists QuotaExceeded. simpl. rewrite <- !includes_iff. by apply orb_true_iff.
  - exists ModelNotFound. simpl. rewrite <- !includes_iff, <- !orb_true_iff.
    by rewrite Hq, Hn.
  - exists Unknown. simpl. rewrite <- !includes_iff, <- !orb_true_iff.
    by rewrite Hq, Hn.
Qed.

Lemma classifies_functional m k1 k2 : classifies m k1 → classifies m k2 → k1 = k2.
Proof. destruct k1, k2; simpl; tauto. Qed.

Lemma generateImage_catch_classifies e k :
  classifies (message e) k →
  errorType_of (generateImage_catch e) = Some (errorType_code k).
Proof.
  unfold generateImage_catch.
  destruct k; simpl; rewrite <- !includes_iff, <- !orb_true_iff.
  - by intros ->.
  - intros [Hq Hn]. apply not_true_is_false in Hq. by rewrite Hq, Hn.
  - intros [Hq Hn]. apply not_true_is_false in Hq, Hn. by rewrite Hq, Hn.
Qed.

Lemma generateImageFromText_catch_classifies e k :
  classifies (message e) k →
  errorType_of (generateImageFromText_catch e) = Some (errorType_code k).
Proof.
  unfold generateImageFromText_catch.
  destruct k; simpl; rewrite <- !includes_iff, <- !orb_true_iff.
  - by intros ->.
  - intros [Hq Hn]. apply not_true_is_false in Hq. by rewrite Hq, Hn.
  - intros [Hq Hn]. apply not_true_is_false in Hq, Hn. by rewrite Hq, Hn.
Qed.

End Classification.

(** ** Running the handlers *)

Lemma ret_run {A} (a : A) (w : World) : (mret a : M A) w = (Return a, w).
Proof. reflexivity. Qed.

Lemma uuidv4_run w :
  uuidv4 w =
  (Return (uuid_source w (uuid_drawn w)), set_uuid_drawn (S (uuid_drawn w)) w).
Proof. reflexivity. Qed.

Lemma now_run w :
  now w =
  (Return (clock_source w (clock_read w)), set_clock_read (S (clock_read w)) w).
Proof. reflexivity. Qed.

Ltac run_in H :=
  repeat first
    [ rewrite bind_run in H
    | rewrite try_catch_run in H
    | rewrite ret_run in H
    | rewrite uuidv4_run in H
    | rewrite now_run in H
    | progress cbv [throw GeminiController.internalServerError] in H
    | progress cbv beta iota in H ].

Ltac run :=
  repeat first
    [ rewrite bind_run
    | rewrite try_catch_run
    | rewrite ret_run
    | rewrite uuidv4_run
    | rewrite now_run
    | progress cbv [throw GeminiController.internalServerError]
    | progress cbv beta iota ].

Section Generate.

Import Database.

(** A success of the gateway's [generateImage] carries exactly the
    reference image it was called with. *)
Lemma gateway_success_echoes prompt img mime w images msg text w1 :
  ImageGenerationService.generateImage prompt img mime w =
    (Return (ImageGenerationService.Success images msg text), w1) →
  images = [ {| ImageGenerationService.data := img;
                ImageGenerationService.mimeType := mime |} ].
Proof.
  intros Hrun.
  destruct (generateImage_run prompt img mime w) as (evs & r & Hsvc & Hr).
  rewrite Hsvc in Hrun. destruct Hr as [[text' ->] | (e & w2 & _ & ->)].
  - by simplify_eq.
  - pose proof (generateImage_catch_fails e) as Hfail.
    injection Hrun as Hr _. rewrite Hr in Hfail. discriminate.
Qed.

(** What a run of [generateImage] that answers 200 went through. *)
Lemma generateImage_ok req w resp w' :
  GeminiController.generateImage req w = (Return resp, w') →
  status resp = 200 →
  ∃ promptId0 referenceImage0 mimeType promptId referenceImage store first rest evs text,
    let artifact := {|
      Doc._id := uuid_source w (uuid_drawn w);
      Doc.promptId := Some promptId;
      Doc.promptName := Doc.promptName first;
      Doc.prompt := Doc.prompt first;
      Doc.base64Image := referenceImage;
      Doc.originalName := "ai-generated-image.jpg";
      Doc.size := Js.length referenceImage;
      Doc.mimetype := "image/jpeg";
      Doc.uploadedAt := None;
      Doc.createdAt := IsoString (clock_source w (clock_read w));
      Doc.updatedAt := None;
      Doc.type := Some "generated"
    |} in
    GeminiController.readRequest req = (promptId0, referenceImage0, mimeType) ∧
    Js.truthy promptId0 = Some promptId ∧
    Js.truthy referenceImage0 = Some referenceImage ∧
    db w = Some store ∧
    select store "images" (Q_promptId promptId) = first :: rest ∧
    ImageGenerationService.generateImage (Doc.prompt first) referenceImage mimeType w =
      (Return (ImageGenerationService.Success
         [ {| ImageGenerationService.data := referenceImage;
              ImageGenerationService.mimeType := mimeType |} ]
         "Image processed with Gemini AI" text),
       set_trace (evs ++ GatewayCall "generateImage" :: trace w) w) ∧
    fresh_id (Doc._id artifact) (collection store "generated_images") = true ∧
    db w' = Some (<["generated_images" :=
                     collection store "generated_images" ++ [artifact]]> store) ∧
    trace w' = evs ++ GatewayCall "generateImage" :: trace w ∧
    resp = mkResponse 200
      (JObj [ ("success", JBool true);
              ("message", JStr "Image generated successfully");
              ("data", JObj
                 [ ("imageId", JStr (Doc._id artifact));
                   ("promptId", JStr promptId);
                   ("promptName", JStr (Doc.promptName first));
                   ("base64Image", JStr referenceImage);
                   ("createdAt", JDate (clock_source w (clock_read w))) ]) ]).
Proof.
  intros Hrun Hst. unfold GeminiController.generateImage in Hrun.
  rewrite try_catch_run in Hrun.
  destruct (GeminiController.readRequest req) as [[p0 r0] mime].
  destruct (Js.truthy p0) as [pid|] eqn:Hp.
  2:{ run_in Hrun. by simplify_eq. }
  destruct (Js.truthy r0) as [img|] eqn:Hr.
  2:{ run_in Hrun. by simplify_eq. }
  destruct (db w) as [store|] eqn:Hdb.
  2:{ rewrite bind_run, (getDB_disconnected w Hdb) in Hrun. run_in Hrun. by simplify_eq. }
  rewrite bind_run, (getDB_connected w store Hdb) in Hrun. cbv beta iota in Hrun.
  rewrite bind_run, (listCollections_connected w store Hdb) in Hrun. cbv beta iota in Hrun.
  rewrite bind_run, (readDB_connected w store _ _ Hdb) in Hrun. cbv beta iota in Hrun.
  destruct (select store "images" (Q_promptId pid)) as [|first rest] eqn:Hsel.
  { rewrite bind_run, (readDB_connected w store _ _ Hdb) in Hrun.
    run_in Hrun. by simplify_eq. }
  rewrite bind_run in Hrun.
  destruct (generateImage_run (Doc.prompt first) img mime w) as (evs & r & Hsvc & Hr').
  rewrite Hsvc in Hrun. cbv beta iota in Hrun.
  destruct Hr' as [[text ->] | (e & w1 & Htry & ->)].
  2:{ pose proof (generateImage_catch_fails e) as Hfail.
      destruct (ImageGenerationService.generateImage_catch e); [discriminate|].
      run_in Hrun. by simplify_eq. }
  run_in Hrun.
  erewrite writeDB_connected in Hrun by exact Hdb.
  cbn [Doc._id] in Hrun.
  destruct (fresh_id _ _) eqn:Hfresh in Hrun.
  2:{ run_in Hrun. by simplify_eq. }
  run_in Hrun. simplify_eq.
  exists p0, r0, mime, pid, img, store, first, rest, evs, text.
  cbn. by repeat split.
Qed.

(** C1. When the request carries a [promptId] and a reference image
    and the lookup of that [promptId] in [images] returns no record,
    POST /generate answers 404 with the not-found envelope
    ([success: false] and the message "No prompt found with the
    provided promptId") and leaves the world as it was: the trace has
    no new gateway or provider call and the store has no new document. *)
Theorem generate_unknown_promptId_not_found
    req w promptId0 referenceImage0 mimeType promptId referenceImage :
  GeminiController.readRequest req = (promptId0, referenceImage0, mimeType) →
  Js.truthy promptId0 = Some promptId →
  Js.truthy referenceImage0 = Some referenceImage →
  readDB "images" (Q_promptId promptId) w = (Return [], w) →
  ∃ resp w',
    GeminiController.generateImage req w = (Return resp, w') ∧
    status resp = 404 ∧
    field "success" (json resp) = Some (JBool false) ∧
    field "message" (json resp) =
      Some (JStr "No prompt found with the provided promptId") ∧
    trace w' = trace w ∧
    db w' = db w ∧
    w' = w.
Proof.
  intros Hreq Hp Hr Hlookup.
  apply readDB_returns in Hlookup as (store & Hdb & Hsel & _).
  unfold GeminiController.generateImage. rewrite Hreq, try_catch_run, Hp, Hr.
  rewrite bind_run, (getDB_connected w store Hdb). cbv beta iota.
  rewrite bind_run, (listCollections_connected w store Hdb). cbv beta iota.
  rewrite bind_run, (readDB_connected w store _ _ Hdb), <- Hsel. cbv beta iota.
  rewrite bind_run, (readDB_connected w store _ _ Hdb). run.
  eexists _, w. by repeat split.
Qed.

(** C1, on the scenario of the specification: [promptId = "ghost"]. *)
Lemma generate_unknown_promptId_not_found_witness :
  ∃ resp w',
    GeminiController.generateImage
      (Scenario.json_request [("promptId", "ghost"); ("referenceImage", "WQ==")])
      (Scenario.world (Responds "ok")) = (Return resp, w') ∧
    status resp = 404 ∧
    field "success" (json resp) = Some (JBool false) ∧
    field "message" (json resp) =
      Some (JStr "No prompt found with the provided promptId") ∧
    trace w' = trace (Scenario.world (Responds "ok")) ∧
    db w' = db (Scenario.world (Responds "ok")) ∧
    w' = Scenario.world (Responds "ok").
Proof.
  apply (generate_unknown_promptId_not_found
           (Scenario.json_request [("promptId", "ghost"); ("referenceImage", "WQ==")])
           (Scenario.world (Responds "ok"))
           (Some "ghost") (Some "WQ==") "image/jpeg" "ghost" "WQ==");
    reflexivity.
Defined.

(** C2. A run of POST /generate that answers 200 inserted exactly one
    document: [generated_images] is what it was with one artifact
    appended, every other collection is untouched, and the artifact's
    [promptName] and [prompt] are those of the first record the lookup
    of the request's [promptId] in [images] returned. *)
Theorem generate_inserts_one_artifact_of_first_match req w resp w' :
  GeminiController.generateImage req w = (Return resp, w') →
  status resp = 200 →
  ∃ promptId store first rest artifact,
    Js.truthy (GeminiController.readRequest req).1.1 = Some promptId ∧
    db w = Some store ∧
    readDB "images" (Q_promptId promptId) w = (Return (first :: rest), w) ∧
    db w' = Some (<["generated_images" :=
                     collection store "generated_images" ++ [artifact]]> store) ∧
    Doc.promptName artifact = Doc.promptName first ∧
    Doc.prompt artifact = Doc.prompt first ∧
    Doc.promptId artifact = Some promptId ∧
    Doc.type artifact = Some "generated" ∧
    data_field "imageId" resp = Some (JStr (Doc._id artifact)) ∧
    data_field "promptName" resp = Some (JStr (Doc.promptName first)).
Proof.
  intros Hrun Hst.
  destruct (generateImage_ok req w resp w' Hrun Hst)
    as (p0 & r0 & mime & pid & img & store & first & rest & evs & text & H).
  cbv zeta in H.
  destruct H as (Hreq & Hp & Hr & Hdb & Hsel & Hsvc & Hfresh & Hdb' & Htr & ->).
  eexists pid, store, first, rest, _.
  rewrite Hreq, (readDB_connected w store _ _ Hdb), Hsel.
  split_and!; first [exact Hp | exact Hdb | exact Hdb' | reflexivity].
Qed.

(** C2, on the scenario of the specification: two records share
    [promptId = "p1"]. *)
Lemma generate_inserts_one_artifact_of_first_match_witness :
  ∃ resp w',
    GeminiController.generateImage
      (Scenario.json_request [("promptId", "p1"); ("referenceImage", "WQ==")])
      (Scenario.world (Responds "ok")) = (Return resp, w') ∧
    status resp = 200 ∧
    ∃ promptId store first rest artifact,
      Js.truthy (GeminiController.readRequest
        (Scenario.json_request [("promptId", "p1"); ("referenceImage", "WQ==")])).1.1
        = Some promptId ∧
      db (Scenario.world (Responds "ok")) = Some store ∧
      readDB "images" (Q_promptId promptId) (Scenario.world (Responds "ok")) =
        (Return (first :: rest), Scenario.world (Responds "ok")) ∧
      db w' = Some (<["generated_images" :=
                       collection store "generated_images" ++ [artifact]]> store) ∧
      Doc.promptName artifact = Doc.promptName first ∧
      Doc.prompt artifact = Doc.prompt first ∧
      Doc.promptId artifact = Some promptId ∧
      Doc.type artifact = Some "generated" ∧
      data_field "imageId" resp = Some (JStr (Doc._id artifact)) ∧
      data_field "promptName" resp = Some (JStr (Doc.promptName first)).
Proof.
  eexists _, _. split; [reflexivity|]. split; [reflexivity|].
  apply (generate_inserts_one_artifact_of_first_match
           (Scenario.json_request [("promptId", "p1"); ("referenceImage", "WQ==")])
           (Scenario.world (Responds "ok")));
    reflexivity.
Defined.

(** "Sunset" was inserted before "Dusk" under "p1", and wins. *)
Example generate_first_inserted_wins :
  db (GeminiController.generateImage
        (Scenario.json_request [("promptId", "p1"); ("referenceImage", "WQ==")])
        (Scenario.world (Responds "ok"))).2 =
  Some (<["generated_images" := [ {|
          Doc._id := "uuid-";
          Doc.promptId := Some "p1";
          Doc.promptName := "Sunset";
          Doc.prompt := "a sunset over mountains";
          Doc.base64Image := "WQ==";
          Doc.originalName := "ai-generated-image.jpg";
          Doc.size := 4;
          Doc.mimetype := "image/jpeg";
          Doc.uploadedAt := None;
          Doc.createdAt := IsoString 1700000000000;
          Doc.updatedAt := None;
          Doc.type := Some "generated" |} ]]> Scenario.store).
Proof. vm_compute. reflexivity. Qed.

(** C3. The gateway's success result carries the reference image it
    was called with as its only image, and a run of POST /generate
    that answers 200 returns that same string, the request's reference
    image, as [base64Image] and persists it in the artifact. *)
Theorem generate_echoes_reference_image :
  (∀ prompt img mime w images msg text w1,
     ImageGenerationService.generateImage prompt img mime w =
       (Return (ImageGenerationService.Success images msg text), w1) →
     images = [ {| ImageGenerationService.data := img;
                   ImageGenerationService.mimeType := mime |} ]) ∧
  (∀ req w resp w',
     GeminiController.generateImage req w = (Return resp, w') →
     status resp = 200 →
     ∃ referenceImage store artifact,
       Js.truthy (GeminiController.readRequest req).1.2 = Some referenceImage ∧
       data_field "base64Image" resp = Some (JStr referenceImage) ∧
       db w = Some store ∧
       db w' = Some (<["generated_images" :=
                        collection store "generated_images" ++ [artifact]]> store) ∧
       Doc.base64Image artifact = referenceImage).
Proof.
  split.
  - intros prompt img mime w images msg text w1. apply gateway_success_echoes.
  - intros req w resp w' Hrun Hst.
    destruct (generateImage_ok req w resp w' Hrun Hst)
      as (p0 & r0 & mime & pid & img & store & first & rest & evs & text & H).
    cbv zeta in H.
    destruct H as (Hreq & Hp & Hr & Hdb & Hsel & Hsvc & Hfresh & Hdb' & Htr & ->).
    eexists img, store, _. rewrite Hreq.
    split_and!; first [exact Hr | exact Hdb | exact Hdb' | reflexivity].
Qed.

(** C3, on a multipart request: the uploaded bytes "Man" come back as
    their base64 text "TWFu". *)
Lemma generate_echoes_reference_image_witness :
  ∃ resp w',
    GeminiController.generateImage
      {| content_type := Some "multipart/form-data";
         body := {[ "promptid" := "p1" ]};
         files := [ {| buffer := [Byte.x4d; Byte.x61; Byte.x6e];
                       mem_mimetype := "image/png" |} ];
         file := None |}
      (Scenario.world (Responds "ok")) = (Return resp, w') ∧
    status resp = 200 ∧
    data_field "base64Image" resp = Some (JStr "TWFu") ∧
    ∃ referenceImage store artifact,
      Js.truthy (Some (Js.toBase64 [Byte.x4d; Byte.x61; Byte.x6e])) = Some referenceImage ∧
      data_field "base64Image" resp = Some (JStr referenceImage) ∧
      db (Scenario.world (Responds "ok")) = Some store ∧
      db w' = Some (<["generated_images" :=
                       collection store "generated_images" ++ [artifact]]> store) ∧
      Doc.base64Image artifact = referenceImage.
Proof.
  eexists _, _. split; [reflexivity|]. split; [reflexivity|]. split; [reflexivity|].
  apply (proj2 generate_echoes_reference_image
           {| content_type := Some "multipart/form-data";
              body := {[ "promptid" := "p1" ]};
              files := [ {| buffer := [Byte.x4d; Byte.x61; Byte.x6e];
                            mem_mimetype := "image/png" |} ];
              file := None |}
           (Scenario.world (Responds "ok")));
    reflexivity.
Defined.

(** C5. At the scenario of the specification ([promptId = "ghost"], no
    matching record), POST /generate answers 404 with [success] and
    [message] only: the payload has no [error] field, while GET
    /images/prompt/ghost of the upload controller answers its 404 with
    [error: "NOT_FOUND"].  A gateway failure is answered 500 with the
    human-readable text of the failure as [error], and the
    [errorType] code the gateway computed is not in the payload. *)
Theorem generate_failures_carry_no_error_code :
  let w := Scenario.world (Rejects (Error "429 Too Many Requests")) in
  let ghost := Scenario.json_request [("promptId", "ghost"); ("referenceImage", "WQ==")] in
  let p1 := Scenario.json_request [("promptId", "p1"); ("referenceImage", "WQ==")] in
  (∃ resp, GeminiController.generateImage ghost w = (Return resp, w) ∧
           status resp = 404 ∧
           field "error" (json resp) = None) ∧
  (∃ resp, UploadController.getImagesByPromptId (Some "ghost") ghost w = (Return resp, w) ∧
           status resp = 404 ∧
           field "error" (json resp) = Some (JStr "NOT_FOUND")) ∧
  (∃ resp w', GeminiController.generateImage p1 w = (Return resp, w') ∧
              status resp = 500 ∧
              field "error" (json resp) =
                Some (JStr "Quota exceeded: 429 Too Many Requests. Please check your billing and quota limits.") ∧
              field "message" (json resp) = Some (JStr "Image generation failed") ∧
              ImageGenerationService.errorType_of
                (ImageGenerationService.generateImage_catch
                   (Error "429 Too Many Requests")) = Some "QUOTA_EXCEEDED") ∧
  (∃ resp, GeminiController.generateImage (Scenario.json_request []) w = (Return resp, w) ∧
           status resp = 400 ∧
           field "error" (json resp) = None).
Proof.
  repeat split; eexists; try eexists; repeat split; reflexivity.
Qed.

End Generate.

Section GenerateFromText.

Import Database.

(** A success of the gateway's [generateImageFromText] carries the
    placeholder, typed as plain text. *)
Lemma gateway_text_success_placeholder prompt w images msg text w1 :
  ImageGenerationService.generateImageFromText prompt w =
    (Return (ImageGenerationService.Success images msg text), w1) →
  images = [ {| ImageGenerationService.data := "text-generated-description";
                ImageGenerationService.mimeType := "text/plain" |} ].
Proof.
  intros Hrun.
  destruct (generateImageFromText_run prompt w) as (evs & r & Hsvc & Hr).
  rewrite Hsvc in Hrun. destruct Hr as [[text' ->] | (e & w2 & _ & ->)].
  - by simplify_eq.
  - pose proof (generateImageFromText_catch_fails e) as Hfail.
    injection Hrun as Hr _. rewrite Hr in Hfail. discriminate.
Qed.

(** What a run of [generateImageFromText] that answers 200 went through. *)
Lemma generateImageFromText_ok req w resp w' :
  GeminiController.generateImageFromText req w = (Return resp, w') →
  status resp = 200 →
  ∃ prompt store evs text,
    let artifact := {|
      Doc._id := uuid_source w (uuid_drawn w);
      Doc.promptId := None;
      Doc.promptName := "Text Prompt";
      Doc.prompt := prompt;
      Doc.base64Image := "text-generated-description";
      Doc.originalName := "ai-text-generated-image.jpg";
      Doc.size := Js.length "text-generated-description";
      Doc.mimetype := "image/jpeg";
      Doc.uploadedAt := None;
      Doc.createdAt := IsoString (clock_source w (clock_read w));
      Doc.updatedAt := None;
      Doc.type := Some "generated"
    |} in
    Js.truthy (body req !! "prompt") = Some prompt ∧
    db w = Some store ∧
    ImageGenerationService.generateImageFromText prompt w =
      (Return (ImageGenerationService.Success
         [ {| ImageGenerationService.data := "text-generated-description";
              ImageGenerationService.mimeType := "text/plain" |} ]
         "Text-to-image description generated with Gemini AI" text),
       set_trace (evs ++ GatewayCall "generateImageFromText" :: trace w) w) ∧
    fresh_id (Doc._id artifact) (collection store "generated_images") = true ∧
    db w' = Some (<["generated_images" :=
                     collection store "generated_images" ++ [artifact]]> store) ∧
    trace w' = evs ++ GatewayCall "generateImageFromText" :: trace w ∧
    resp = mkResponse 200
      (JObj [ ("success", JBool true);
              ("message", JStr "Image generated successfully from text");
              ("data", JObj
                 [ ("imageId", JStr (Doc._id artifact));
                   ("prompt", JStr prompt);
                   ("base64Image", JStr "text-generated-description");
                   ("createdAt", JDate (clock_source w (clock_read w))) ]) ]).
Proof.
  intros Hrun Hst. unfold GeminiController.generateImageFromText in Hrun.
  rewrite try_catch_run in Hrun.
  destruct (Js.truthy (body req !! "prompt")) as [prompt|] eqn:Hp.
  2:{ run_in Hrun. by simplify_eq. }
  rewrite bind_run in Hrun.
  destruct (generateImageFromText_run prompt w) as (evs & r & Hsvc & Hr').
  rewrite Hsvc in Hrun. cbv beta iota in Hrun.
  destruct Hr' as [[text ->] | (e & w1 & Htry & ->)].
  2:{ pose proof (generateImageFromText_catch_fails e) as Hfail.
      destruct (ImageGenerationService.generateImageFromText_catch e); [discriminate|].
      run_in Hrun. by simplify_eq. }
  run_in Hrun.
  destruct (db w) as [store|] eqn:Hdb.
  2:{ erewrite writeDB_disconnected in Hrun by exact Hdb. run_in Hrun. by simplify_eq. }
  erewrite writeDB_connected in Hrun by exact Hdb.
  cbn [Doc._id] in Hrun.
  destruct (fresh_id _ _) eqn:Hfresh in Hrun.
  2:{ run_in Hrun. by simplify_eq. }
  run_in Hrun. simplify_eq.
  exists prompt, store, evs, text.
  cbn. by repeat split.
Qed.

(** C6. A run of POST /generate-text that answers 200 persisted one
    artifact whose [promptId] is null and whose [promptName] is
    "Text Prompt", and the response returns that artifact by its
    identity, prompt text, image data and creation time; [promptId]
    and [promptName] are fields of the artifact, not of the payload. *)
Theorem generate_text_artifact_is_text_prompt req w resp w' :
  GeminiController.generateImageFromText req w = (Return resp, w') →
  status resp = 200 →
  ∃ store artifact,
    db w = Some store ∧
    db w' = Some (<["generated_images" :=
                     collection store "generated_images" ++ [artifact]]> store) ∧
    Doc.promptId artifact = None ∧
    Doc.promptName artifact = "Text Prompt" ∧
    data_field "imageId" resp = Some (JStr (Doc._id artifact)) ∧
    data_field "prompt" resp = Some (JStr (Doc.prompt artifact)) ∧
    data_field "base64Image" resp = Some (JStr (Doc.base64Image artifact)) ∧
    data_field "createdAt" resp = Some (stamp_json (Doc.createdAt artifact)) ∧
    data_field "promptId" resp = None ∧
    data_field "promptName" resp = None.
Proof.
  intros Hrun Hst.
  destruct (generateImageFromText_ok req w resp w' Hrun Hst)
    as (prompt & store & evs & text & H).
  cbv zeta in H. destruct H as (Hp & Hdb & Hsvc & Hfresh & Hdb' & Htr & ->).
  eexists store, _.
  split_and!; first [exact Hdb | exact Hdb' | reflexivity].
Qed.

Lemma generate_text_artifact_is_text_prompt_witness :
  ∃ resp w',
    GeminiController.generateImageFromText
      (Scenario.json_request [("prompt", "a lighthouse at night")])
      (Scenario.world (Responds "A tall lighthouse.")) = (Return resp, w') ∧
    status resp = 200 ∧
    ∃ store artifact,
      db (Scenario.world (Responds "A tall lighthouse.")) = Some store ∧
      db w' = Some (<["generated_images" :=
                       collection store "generated_images" ++ [artifact]]> store) ∧
      Doc.promptId artifact = None ∧
      Doc.promptName artifact = "Text Prompt" ∧
      data_field "imageId" resp = Some (JStr (Doc._id artifact)) ∧
      data_field "prompt" resp = Some (JStr (Doc.prompt artifact)) ∧
      data_field "base64Image" resp = Some (JStr (Doc.base64Image artifact)) ∧
      data_field "createdAt" resp = Some (stamp_json (Doc.createdAt artifact)) ∧
      data_field "promptId" resp = None ∧
      data_field "promptName" resp = None.
Proof.
  eexists _, _. split; [reflexivity|]. split; [reflexivity|].
  apply (generate_text_artifact_is_text_prompt
           (Scenario.json_request [("prompt", "a lighthouse at night")])
           (Scenario.world (Responds "A tall lighthouse.")));
    reflexivity.
Defined.

(** C7. When [prompt] is absent from the body or is the empty string,
    POST /generate-text answers 400 with [success: false] and the
    message "prompt is required", and leaves the world as it was: no
    gateway or provider call in the trace, no document inserted. *)
Theorem generate_text_requires_prompt req w :
  body req !! "prompt" = None ∨ body req !! "prompt" = Some "" →
  ∃ resp w',
    GeminiController.generateImageFromText req w = (Return resp, w') ∧
    status resp = 400 ∧
    field "success" (json resp) = Some (JBool false) ∧
    field "message" (json resp) = Some (JStr "prompt is required") ∧
    trace w' = trace w ∧
    db w' = db w ∧
    w' = w.
Proof.
  intros Hprompt.
  assert (Js.truthy (body req !! "prompt") = None) as Hp
    by (destruct Hprompt as [-> | ->]; reflexivity).
  unfold GeminiController.generateImageFromText.
  rewrite try_catch_run, Hp. run.
  eexists _, w. by repeat split.
Qed.

(** C7, on the scenario of the specification: the empty string. *)
Lemma generate_text_requires_prompt_witness :
  ∃ resp w',
    GeminiController.generateImageFromText
      (Scenario.json_request [("prompt", "")])
      (Scenario.world (Responds "ok")) = (Return resp, w') ∧
    status resp = 400 ∧
    field "success" (json resp) = Some (JBool false) ∧
    field "message" (json resp) = Some (JStr "prompt is required") ∧
    trace w' = trace (Scenario.world (Responds "ok")) ∧
    db w' = db (Scenario.world (Responds "ok")) ∧
    w' = Scenario.world (Responds "ok").
Proof.
  apply (generate_text_requires_prompt
           (Scenario.json_request [("prompt", "")])
           (Scenario.world (Responds "ok"))).
  right. reflexivity.
Defined.

(** C10. A run of POST /generate-text that answers 200 persisted an
    artifact whose image data is the placeholder string
    "text-generated-description" and whose [mimetype] is "image/jpeg",
    although the gateway result of that run types the placeholder as
    "text/plain". *)
Theorem generate_text_persists_placeholder req w resp w' :
  GeminiController.generateImageFromText req w = (Return resp, w') →
  status resp = 200 →
  ∃ prompt store artifact msg text w1,
    Js.truthy (body req !! "prompt") = Some prompt ∧
    ImageGenerationService.generateImageFromText prompt w =
      (Return (ImageGenerationService.Success
         [ {| ImageGenerationService.data := "text-generated-description";
              ImageGenerationService.mimeType := "text/plain" |} ] msg text), w1) ∧
    db w = Some store ∧
    db w' = Some (<["generated_images" :=
                     collection store "generated_images" ++ [artifact]]> store) ∧
    Doc.base64Image artifact = "text-generated-description" ∧
    Doc.mimetype artifact = "image/jpeg" ∧
    data_field "base64Image" resp = Some (JStr "text-generated-description").
Proof.
  intros Hrun Hst.
  destruct (generateImageFromText_ok req w resp w' Hrun Hst)
    as (prompt & store & evs & text & H).
  cbv zeta in H. destruct H as (Hp & Hdb & Hsvc & Hfresh & Hdb' & Htr & ->).
  eexists prompt, store, _, _, text, _.
  split_and!; first [exact Hp | exact Hsvc | exact Hdb | exact Hdb' | reflexivity].
Qed.

Lemma generate_text_persists_placeholder_witness :
  ∃ resp w',
    GeminiController.generateImageFromText
      (Scenario.json_request [("prompt", "a lighthouse at night")])
      (Scenario.world (Responds "A tall lighthouse.")) = (Return resp, w') ∧
    status resp = 200 ∧
    ∃ prompt store artifact msg text w1,
      Js.truthy (body (Scenario.json_request [("prompt", "a lighthouse at night")])
                   !! "prompt") = Some prompt ∧
      ImageGenerationService.generateImageFromText prompt
        (Scenario.world (Responds "A tall lighthouse.")) =
        (Return (ImageGenerationService.Success
           [ {| ImageGenerationService.data := "text-generated-description";
                ImageGenerationService.mimeType := "text/plain" |} ] msg text), w1) ∧
      db (Scenario.world (Responds "A tall lighthouse.")) = Some store ∧
      db w' = Some (<["generated_images" :=
                       collection store "generated_images" ++ [artifact]]> store) ∧
      Doc.base64Image artifact = "text-generated-description" ∧
      Doc.mimetype artifact = "image/jpeg" ∧
      data_field "base64Image" resp = Some (JStr "text-generated-description").
Proof.
  eexists _, _. split; [reflexivity|]. split; [reflexivity|].
  apply (generate_text_persists_placeholder
           (Scenario.json_request [("prompt", "a lighthouse at night")])
           (Scenario.world (Responds "A tall lighthouse.")));
    reflexivity.
Defined.

End GenerateFromText.

Section ClassifiedFailures.

Import ImageGenerationService.

(** Every failure the gateway reports comes from an error thrown in
    its [try] block, and is classified from that error's message. *)
Lemma gateway_failure_has_cause prompt img mime w r w1 :
  generateImage prompt img mime w = (Return r, w1) →
  success r = false →
  ∃ e k, generateImage_try prompt img mime w = (Throw e, w1) ∧
         classifies (message e) k ∧
         errorType_of r = Some (errorType_code k).
Proof.
  intros Hrun Hfail.
  destruct (generateImage_run prompt img mime w) as (evs & r' & Hsvc & Hr).
  rewrite Hsvc in Hrun. simplify_eq.
  destruct Hr as [[text ->] | (e & w2 & Htry & ->)]; [discriminate|].
  destruct (classifies_total (message e)) as [k Hk].
  exists e, k. split_and!; [| done | by apply generateImage_catch_classifies].
  rewrite Htry. f_equal.
  unfold generateImage in Hsvc. rewrite try_catch_run, Htry, ret_run in Hsvc.
  by simplify_eq.
Qed.

(** C4. When the [try] block of a gateway operation throws an error
    whose message contains "429" or "quota", the operation resolves to
    a failure with [errorType] "QUOTA_EXCEEDED"; when the message
    contains neither but contains "404" or "not found", to
    "MODEL_NOT_FOUND"; otherwise to "UNKNOWN_ERROR".  This holds for
    [generateImage] and for [generateImageFromText]. *)
Theorem gateway_failure_classification e k :
  classifies (message e) k →
  (∀ prompt img mime w w1,
     generateImage_try prompt img mime w = (Throw e, w1) →
     ∃ r, generateImage prompt img mime w = (Return r, w1) ∧
          success r = false ∧
          errorType_of r = Some (errorType_code k)) ∧
  (∀ prompt w w1,
     generateImageFromText_try prompt w = (Throw e, w1) →
     ∃ r, generateImageFromText prompt w = (Return r, w1) ∧
          success r = false ∧
          errorType_of r = Some (errorType_code k)).
Proof.
  intros Hk. split.
  - intros prompt img mime w w1 Htry. exists (generateImage_catch e).
    unfold generateImage. rewrite try_catch_run, Htry.
    split_and!; [reflexivity | apply generateImage_catch_fails
                | by apply generateImage_catch_classifies].
  - intros prompt w w1 Htry. exists (generateImageFromText_catch e).
    unfold generateImageFromText. rewrite try_catch_run, Htry.
    split_and!; [reflexivity | apply generateImageFromText_catch_fails
                | by apply generateImageFromText_catch_classifies].
Qed.

(** C4, on a provider that rejects with an HTTP 429 message. *)
Lemma gateway_failure_classification_witness :
  classifies "[429 Too Many Requests] Resource has been exhausted" QuotaExceeded ∧
  (∃ r, generateImage "a sunset over mountains" "WQ==" "image/jpeg"
          (Scenario.world
             (Rejects (Error "[429 Too Many Requests] Resource has been exhausted"))) =
          (Return r,
           (generateImage_try "a sunset over mountains" "WQ==" "image/jpeg"
              (Scenario.world
                 (Rejects (Error "[429 Too Many Requests] Resource has been exhausted")))).2) ∧
        success r = false ∧
        errorType_of r = Some "QUOTA_EXCEEDED") ∧
  (∃ r, generateImageFromText "a lighthouse at night"
          (Scenario.world
             (Rejects (Error "[429 Too Many Requests] Resource has been exhausted"))) =
          (Return r,
           (generateImageFromText_try "a lighthouse at night"
              (Scenario.world
                 (Rejects (Error "[429 Too Many Requests] Resource has been exhausted")))).2) ∧
        success r = false ∧
        errorType_of r = Some "QUOTA_EXCEEDED").
Proof.
  assert (classifies "[429 Too Many Requests] Resource has been exhausted" QuotaExceeded)
    as Hk by (left; exists "[", " Too Many Requests] Resource has been exhausted";
              reflexivity).
  split; [exact Hk|].
  pose proof (gateway_failure_classification
                (Error "[429 Too Many Requests] Resource has been exhausted")
                QuotaExceeded Hk) as [Href Htext].
  split.
  - apply (Href "a sunset over mountains" "WQ==" "image/jpeg"). reflexivity.
  - apply (Htext "a lighthouse at night"). reflexivity.
Defined.

(** The three kinds on concrete messages, through the code. *)
Example classification_examples :
  errorType_of (generateImage_catch (Error "You exceeded your current quota")) =
    Some "QUOTA_EXCEEDED" ∧
  errorType_of (generateImage_catch (Error "[404 Not Found] models/gemini-pro is not found")) =
    Some "MODEL_NOT_FOUND" ∧
  errorType_of (generateImage_catch (Error "404 after 429")) = Some "QUOTA_EXCEEDED" ∧
  errorType_of (generateImageFromText_catch
                  (Error "GEMINI_API_KEY is not set in environment variables")) =
    Some "UNKNOWN_ERROR".
Proof. repeat split. Qed.

End ClassifiedFailures.

(** ** The prompt list *)

Section Prompts.

Import Database GeminiController.

Lemma first_record_snoc images img i e :
  (i < length images)%nat →
  first_record images i e → first_record (images ++ [img]) i e.
Proof.
  intros Hi (img0 & Hlook & Hkey & Hn & Hp & Hc & Hfirst).
  exists img0. split_and!; try done.
  - by rewrite lookup_app_l.
  - intros j img' Hj Hlook'. rewrite lookup_app_l in Hlook' by lia. eauto.
Qed.

Lemma scanned_nil : scanned [] ([], ∅).
Proof.
  split_and!; simpl.
  - intros p. split; intros Hp.
    + by apply not_elem_of_empty in Hp.
    + by apply not_elem_of_nil in Hp.
  - constructor.
  - exists []. split_and!; constructor.
  - intros i img p Hlook. by rewrite lookup_nil in Hlook.
  - lia.
Qed.

(** One iteration of the [forEach] keeps the invariant. *)
Lemma scanned_visit images acc img :
  scanned images acc → scanned (images ++ [img]) (visit acc img).
Proof.
  destruct acc as [out seen].
  intros (Hseen & Hnodup & (idxs & Hsorted & Hbound & Hrec) & Hall & Hlen).
  simpl in *.
  assert (Forall2 (first_record (images ++ [img])) idxs out) as Hrec'.
  { clear -Hbound Hrec.
    induction Hrec; inversion Hbound; subst; constructor;
      eauto using first_record_snoc. }
  assert (Forall (λ i, (i < length (images ++ [img]))%nat) idxs) as Hbound'.
  { eapply Forall_impl; [exact Hbound|]. intros i Hi. cbv beta in Hi |- *.
    rewrite length_app. simpl. lia. }
  assert (∀ i d p, (images ++ [img]) !! i = Some d →
                   Js.truthy (Doc.promptId d) = Some p →
                   p ∈ seen ∨ d = img) as Hall'.
  { intros i d p Hlook Hkey.
    apply lookup_app_Some in Hlook as [Hlook | [Hge Hlook]].
    - left. eauto.
    - right. by apply list_lookup_singleton_Some in Hlook as [_ ->]. }
  assert (length out ≤ length (images ++ [img]))%nat as Hlen'.
  { rewrite length_app. simpl. lia. }
  unfold visit. destruct (Js.truthy (Doc.promptId img)) as [id|] eqn:Hkey.
  - destruct (decide (id ∈ seen)) as [Hin | Hnotin].
    + split_and!; simpl; try done.
      * by exists idxs.
      * intros i d p Hlook Hk.
        destruct (Hall' i d p Hlook Hk) as [? | ->]; [done | congruence].
    + split_and!; simpl.
      * intros p. rewrite fmap_app, elem_of_app, elem_of_union, Hseen. simpl.
        by rewrite elem_of_singleton, list_elem_of_singleton.
      * rewrite fmap_app. simpl. apply NoDup_app.
        split_and!; [done | | apply NoDup_singleton].
        intros p Hp Hp'. apply list_elem_of_singleton in Hp' as ->.
        by apply Hseen in Hp.
      * exists (idxs ++ [length images]). split_and!.
        -- clear -Hsorted Hbound. induction Hsorted; simpl.
           ++ repeat constructor.
           ++ inversion Hbound; subst. constructor; [eauto|].
              apply Forall_app. split; [done|]. by constructor.
        -- apply Forall_app. split; [done|]. constructor; [|constructor].
           rewrite length_app. simpl. lia.
        -- apply Forall2_app; [done|]. constructor; [|constructor].
           exists img. simpl. split_and!; try done.
           ++ rewrite lookup_app_r by lia. by rewrite Nat.sub_diag.
           ++ intros j d Hj Hlook Hk. rewrite lookup_app_l in Hlook by lia.
              apply Hnotin. eauto.
      * intros i d p Hlook Hk. apply elem_of_union.
        destruct (Hall' i d p Hlook Hk) as [? | ->]; [by left|].
        right. apply elem_of_singleton. congruence.
      * rewrite !length_app. simpl. lia.
  - split_and!; simpl; try done.
    + by exists idxs.
    + intros i d p Hlook Hk.
      destruct (Hall' i d p Hlook Hk) as [? | ->]; [done | congruence].
Qed.

Lemma scanned_fold images : scanned images (fold_left visit images ([], ∅)).
Proof.
  induction images as [|img images IH] using rev_ind.
  - apply scanned_nil.
  - rewrite fold_left_app. simpl. by apply scanned_visit.
Qed.

Lemma select_all store c : select store c Q_all = collection store c.
Proof.
  unfold select. induction (collection store c) as [|d docs IH]; simpl; congruence.
Qed.

(** C8. On a connected store, GET /prompts answers 200 with a list
    that has at most one entry per [promptId] (the ids are pairwise
    distinct and the list is no longer than [images]), one for every
    [promptId] some record carries, in the order of first appearance:
    the entries were made from records at strictly increasing
    positions, each the first record with its [promptId], and each
    entry carries that record's [promptName] and [prompt]. *)
Theorem list_prompts_first_seen req w store :
  db w = Some store →
  ∃ out idxs,
    getPrompts req w =
      (Return (mkResponse 200
         (JObj [ ("success", JBool true);
                 ("message", JStr "Prompts retrieved successfully");
                 ("data", JArr (entry_json <$> out)) ])), w) ∧
    out = uniquePrompts (collection store "images") ∧
    NoDup (entry_id <$> out) ∧
    (length out ≤ length (collection store "images"))%nat ∧
    (∀ p, p ∈ entry_id <$> out ↔
          ∃ img, img ∈ collection store "images" ∧
                 Js.truthy (Doc.promptId img) = Some p) ∧
    StronglySorted lt idxs ∧
    Forall2 (first_record (collection store "images")) idxs out.
Proof.
  intros Hdb.
  destruct (scanned_fold (collection store "images"))
    as (Hseen & Hnodup & (idxs & Hsorted & Hbound & Hrec) & Hall & Hlen).
  exists (uniquePrompts (collection store "images")), idxs.
  split_and!; try done.
  - unfold getPrompts. rewrite try_catch_run, bind_run.
    rewrite (readDB_connected w store _ _ Hdb), select_all. by run.
  - intros p. split.
    + intros Hp. apply list_elem_of_fmap in Hp as (e & -> & He).
      apply list_elem_of_lookup in He as [n He].
      destruct (Forall2_lookup_r _ _ _ _ _ Hrec He)
        as (i & _ & img & Hlook & Hkey & _).
      exists img. split; [|done]. apply list_elem_of_lookup. eauto.
    + intros (img & Himg & Hkey). apply Hseen.
      apply list_elem_of_lookup in Himg as [i Hlook]. eauto.
Qed.

(** C8, on the scenario: three records, two distinct ids. *)
Lemma list_prompts_first_seen_witness :
  ∃ out idxs,
    getPrompts (Scenario.json_request []) (Scenario.world (Responds "ok")) =
      (Return (mkResponse 200
         (JObj [ ("success", JBool true);
                 ("message", JStr "Prompts retrieved successfully");
                 ("data", JArr (entry_json <$> out)) ])),
       Scenario.world (Responds "ok")) ∧
    out = uniquePrompts (collection Scenario.store "images") ∧
    NoDup (entry_id <$> out) ∧
    (length out ≤ length (collection Scenario.store "images"))%nat ∧
    (∀ p, p ∈ entry_id <$> out ↔
          ∃ img, img ∈ collection Scenario.store "images" ∧
                 Js.truthy (Doc.promptId img) = Some p) ∧
    StronglySorted lt idxs ∧
    Forall2 (first_record (collection Scenario.store "images")) idxs out.
Proof.
  apply (list_prompts_first_seen (Scenario.json_request [])
           (Scenario.world (Responds "ok")) Scenario.store).
  reflexivity.
Defined.

Example list_prompts_scenario :
  entry_promptName <$> uniquePrompts [Scenario.sunset; Scenario.dusk; Scenario.forest] =
  ["Sunset"; "Forest"].
Proof. reflexivity. Qed.

(** Records without a usable [promptId] are passed over. *)
Example list_prompts_skips_falsy_ids :
  uniquePrompts
    [ {| Doc._id := "a"; Doc.promptId := None; Doc.promptName := "n";
         Doc.prompt := "t"; Doc.base64Image := ""; Doc.originalName := "";
         Doc.size := 0; Doc.mimetype := ""; Doc.uploadedAt := None;
         Doc.createdAt := DateObject 0; Doc.updatedAt := None; Doc.type := None |};
      {| Doc._id := "b"; Doc.promptId := Some ""; Doc.promptName := "n";
         Doc.prompt := "t"; Doc.base64Image := ""; Doc.originalName := "";
         Doc.size := 0; Doc.mimetype := ""; Doc.uploadedAt := None;
         Doc.createdAt := DateObject 0; Doc.updatedAt := None; Doc.type := None |} ]
  = [].
Proof. reflexivity. Qed.

End Prompts.

(** ** Upload and read back *)

Section Upload.
Import Database UploadController.

Lemma fresh_id_select id docs :
  fresh_id id docs = true → List.filter (matches (Q_id id)) docs = [].
Proof.
  unfold fresh_id. induction docs as [|d docs IH]; simpl; [done|].
  destruct (Doc._id d =? id)%string; simpl; [done | exact IH].
Qed.

Lemma collection_insert (store : gmap string (list Doc.t)) c docs :
  collection (<[c := docs]> store) c = docs.
Proof. unfold collection. by rewrite lookup_insert_eq. Qed.

(** What [saveImage] does when it answers 201. *)
Lemma saveImage_created promptId promptName prompt base64DataUrl originalName size mimetype
    w resp w' :
  saveImage promptId promptName prompt base64DataUrl originalName size mimetype w =
    (Return resp, w') →
  status resp = 201 →
  ∃ store image,
    db w = Some store ∧
    db w' = Some (<["images" := collection store "images" ++ [image]]> store) ∧
    fresh_id (Doc._id image) (collection store "images") = true ∧
    data_field "id" resp = Some (JStr (Doc._id image)) ∧
    Doc.base64Image image = base64DataUrl ∧
    Doc.promptId image = Some promptId.
Proof.
  intros Hrun Hst. unfold saveImage in Hrun. run_in Hrun.
  destruct (db w) as [store|] eqn:Hdb.
  2:{ erewrite writeDB_disconnected in Hrun by exact Hdb. run_in Hrun. by simplify_eq. }
  erewrite writeDB_connected in Hrun by exact Hdb.
  cbn [Doc._id] in Hrun.
  destruct (fresh_id _ _) eqn:Hfresh in Hrun.
  2:{ run_in Hrun. by simplify_eq. }
  run_in Hrun. simplify_eq.
  eexists store, _. split_and!; [done | reflexivity | exact Hfresh | reflexivity..].
Qed.

(** What a run of [uploadImage] that answers 201 went through. *)
Lemma uploadImage_created req w resp w' :
  uploadImage req w = (Return resp, w') →
  status resp = 201 →
  ∃ store image,
    db w = Some store ∧
    db w' = Some (<["images" := collection store "images" ++ [image]]> store) ∧
    fresh_id (Doc._id image) (collection store "images") = true ∧
    data_field "id" resp = Some (JStr (Doc._id image)) ∧
    match file req with
    | Some f =>
        ∃ bytes, fs w !! path f = Some bytes ∧
                 Doc.base64Image image =
                   "data:" +:+ disk_mimetype f +:+ ";base64," +:+ Js.toBase64 bytes
    | None => body req !! "aiImage" = Some (Doc.base64Image image)
    end.
Proof.
  intros Hrun Hst. unfold uploadImage in Hrun. rewrite try_catch_run in Hrun.
  destruct (Js.truthy (body req !! "promptId")) as [promptId|];
    [destruct (Js.truthy (body req !! "promptName")) as [promptName|];
      [destruct (Js.truthy (body req !! "prompt")) as [prompt|] |] |].
  2-4: by (run_in Hrun; simplify_eq).
  destruct (file req) as [f|].
  - rewrite bind_run in Hrun. unfold readFileSync at 1 in Hrun.
    destruct (fs w !! path f) as [bytes|] eqn:Hfile.
    2:{ run_in Hrun. repeat case_match; run_in Hrun; by simplify_eq. }
    cbv beta iota in Hrun. rewrite bind_run in Hrun.
    unfold unlinkSync at 1 in Hrun. rewrite Hfile in Hrun. cbv beta iota in Hrun.
    destruct (saveImage _ _ _ _ _ _ _ _) as [[r|e] w2] eqn:Hsave.
    2:{ repeat case_match; run_in Hrun; by simplify_eq. }
    simplify_eq.
    destruct (saveImage_created _ _ _ _ _ _ _ _ _ _ Hsave Hst)
      as (store & image & Hdb & Hdb' & Hfresh & Hid & Himg & _).
    exists store, image. split_and!; try done. by exists bytes.
  - destruct (Js.truthy (body req !! "aiImage")) as [aiImage|] eqn:Hai.
    2:{ run_in Hrun. by simplify_eq. }
    destruct (saveImage _ _ _ _ _ _ _ _) as [[r|e] w2] eqn:Hsave.
    2:{ repeat case_match; run_in Hrun; by simplify_eq. }
    simplify_eq.
    destruct (saveImage_created _ _ _ _ _ _ _ _ _ _ Hsave Hst)
      as (store & image & Hdb & Hdb' & Hfresh & Hid & Himg & _).
    exists store, image. split_and!; try done.
    rewrite Himg. unfold Js.truthy in Hai. by repeat case_match; simplify_eq.
Qed.

(** C9. A run of POST /images/upload that answers 201 stored one
    record and returned its identity; GET /images/:id with that
    identity, issued next, answers 200 with the [base64Image] of the
    stored record, character for character.  The stored image data is
    the [aiImage] string of the body, or, for a file upload, the data
    URL of the base64 text of the file's bytes. *)
Theorem upload_then_get_by_id_round_trip req w resp w' :
  uploadImage req w = (Return resp, w') →
  status resp = 201 →
  ∃ store stored,
    db w = Some store ∧
    db w' = Some (<["images" := collection store "images" ++ [stored]]> store) ∧
    data_field "id" resp = Some (JStr (Doc._id stored)) ∧
    match file req with
    | Some f =>
        ∃ bytes, fs w !! path f = Some bytes ∧
                 Doc.base64Image stored =
                   "data:" +:+ disk_mimetype f +:+ ";base64," +:+ Js.toBase64 bytes
    | None => body req !! "aiImage" = Some (Doc.base64Image stored)
    end ∧
    ∀ req', ∃ resp',
      getImageById (Doc._id stored) req' w' = (Return resp', w') ∧
      status resp' = 200 ∧
      data_field "base64Image" resp' = Some (JStr (Doc.base64Image stored)).
Proof.
  intros Hrun Hst.
  destruct (uploadImage_created req w resp w' Hrun Hst)
    as (store & stored & Hdb & Hdb' & Hfresh & Hid & Himg).
  exists store, stored. split_and!; try done.
  intros req'. unfold getImageById. rewrite try_catch_run, bind_run.
  rewrite (readDB_connected w' _ _ _ Hdb'). unfold select.
  rewrite collection_insert, List.filter_app, (fresh_id_select _ _ Hfresh).
  cbn [List.filter matches app]. rewrite String.eqb_refl. run.
  eexists. split_and!; reflexivity.
Qed.
(** C9, on the scenario of the specification: a base64 upload. *)
Lemma upload_then_get_by_id_round_trip_witness :
  ∃ resp w',
    uploadImage
      (Scenario.json_request
         [("promptId", "p1"); ("promptName", "Sunset");
          ("prompt", "a sunset over mountains"); ("aiImage", "WA==")])
      (Scenario.world (Responds "ok")) = (Return resp, w') ∧
    status resp = 201 ∧
    ∃ store stored,
      db (Scenario.world (Responds "ok")) = Some store ∧
      db w' = Some (<["images" := collection store "images" ++ [stored]]> store) ∧
      data_field "id" resp = Some (JStr (Doc._id stored)) ∧
      Some "WA==" = Some (Doc.base64Image stored) ∧
      ∀ req', ∃ resp',
        getImageById (Doc._id stored) req' w' = (Return resp', w') ∧
        status resp' = 200 ∧
        data_field "base64Image" resp' = Some (JStr (Doc.base64Image stored)).
Proof.
  eexists _, _. split; [reflexivity|]. split; [reflexivity|].
  apply (upload_then_get_by_id_round_trip
           (Scenario.json_request
              [("promptId", "p1"); ("promptName", "Sunset");
               ("prompt", "a sunset over mountains"); ("aiImage", "WA==")])
           (Scenario.world (Responds "ok")));
    reflexivity.
Defined.

(** A file upload reads back as the data URL of the file's base64
    text, and the uploaded file is removed from disk. *)
Example upload_file_then_get_by_id :
  let run := uploadImage Scenario.file_request Scenario.file_world in
  status <$> returned run = Some 201 ∧
  fs run.2 !! "uploads/aiImage-1.png" = None ∧
  returned (getImageById "uuid-" Scenario.file_request run.2)
    ≫= data_field "base64Image" = Some (JStr "data:image/png;base64,TWFu").
Proof. vm_compute. repeat split. Qed.

End Upload.

Section GenerateOutcomes.
Import Database.

Lemma generateImage_after_lookup req w p0 r0 mime pid img store first rest :
  GeminiController.readRequest req = (p0, r0, mime) →
  Js.truthy p0 = Some pid →
  Js.truthy r0 = Some img →
  db w = Some store →
  select store "images" (Q_promptId pid) = first :: rest →
  ∃ evs r,
    ImageGenerationService.generateImage (Doc.prompt first) img mime w =
      (Return r, set_trace (evs ++ GatewayCall "generateImage" :: trace w) w) ∧
    ∃ resp w',
      GeminiController.generateImage req w = (Return resp, w') ∧
      trace w' = evs ++ GatewayCall "generateImage" :: trace w ∧
      match r with
      | ImageGenerationService.Failure error _ _ =>
          resp = mkResponse 500
            (JObj [ ("success", JBool false);
                    ("message", JStr "Image generation failed");
                    ("error", JStr error) ]) ∧
          w' = set_trace (evs ++ GatewayCall "generateImage" :: trace w) w
      | ImageGenerationService.Success _ _ _ =>
          (status resp = 200 ∧
           fresh_id (uuid_source w (uuid_drawn w))
             (collection store "generated_images") = true ∧
           ∃ artifact,
             db w' = Some (<["generated_images" :=
                              collection store "generated_images" ++ [artifact]]> store)) ∨
          (resp = mkResponse 500
             (JObj [ ("success", JBool false);
                     ("message", JStr "Internal server error");
                     ("error", JStr "E11000 duplicate key error") ]) ∧
           fresh_id (uuid_source w (uuid_drawn w))
             (collection store "generated_images") = false ∧
           db w' = db w)
      end.
Proof.
  intros Hreq Hp Hr Hdb Hsel.
  destruct (generateImage_run (Doc.prompt first) img mime w) as (evs & r & Hsvc & Hr').
  exists evs, r. split; [exact Hsvc|].
  unfold GeminiController.generateImage. rewrite Hreq, try_catch_run, Hp, Hr.
  rewrite bind_run, (getDB_connected w store Hdb). cbv beta iota.
  rewrite bind_run, (listCollections_connected w store Hdb). cbv beta iota.
  rewrite bind_run, (readDB_connected w store _ _ Hdb), Hsel. cbv beta iota.
  rewrite bind_run, Hsvc. cbv beta iota.
  destruct Hr' as [[text ->] | (e & w1 & Htry & ->)].
  - run. erewrite writeDB_connected by exact Hdb. cbn [Doc._id].
    destruct (fresh_id _ _) eqn:Hfresh.
    + run. eexists _, _. split; [reflexivity|]. split; [reflexivity|].
      left. split_and!; [reflexivity | reflexivity |]. eexists. reflexivity.
    + run. eexists _, _. split; [reflexivity|]. split; [reflexivity|].
      right. split_and!; reflexivity.
  - pose proof (generateImage_catch_fails e) as Hfail.
    destruct (ImageGenerationService.generateImage_catch e); [discriminate|].
    run. eexists _, _. split; [reflexivity|]. split; [reflexivity|]. by split.
Qed.

End GenerateOutcomes.

Section GenerateEdges.
Import Database.

(** Every way a run of [generateImage] can go, by status. *)
Lemma generateImage_cases req w :
  ∃ resp w',
    GeminiController.generateImage req w = (Return resp, w') ∧
    ((status resp = 400 ∧ w' = w) ∨
     (status resp = 404 ∧ w' = w) ∨
     (status resp = 500 ∧ db w' = db w) ∨
     (status resp = 200 ∧
      ∃ store artifact,
        db w = Some store ∧
        fresh_id (Doc._id artifact) (collection store "generated_images") = true ∧
        db w' = Some (<["generated_images" :=
                         collection store "generated_images" ++ [artifact]]> store))).
Proof.
  destruct (GeminiController.readRequest req) as [[p0 r0] mime] eqn:Hreq.
  destruct (Js.truthy p0) as [pid|] eqn:Hp.
  2:{ unfold GeminiController.generateImage. rewrite Hreq, try_catch_run, Hp. run.
      eexists _, _. split; [reflexivity|]. left. by split. }
  destruct (Js.truthy r0) as [img|] eqn:Hr.
  2:{ unfold GeminiController.generateImage. rewrite Hreq, try_catch_run, Hp, Hr. run.
      eexists _, _. split; [reflexivity|]. left. by split. }
  destruct (db w) as [store|] eqn:Hdb.
  2:{ unfold GeminiController.generateImage. rewrite Hreq, try_catch_run, Hp, Hr.
      rewrite bind_run, (getDB_disconnected w Hdb). run.
      eexists _, _. split; [reflexivity|]. right. right. left. by split. }
  destruct (select store "images" (Q_promptId pid)) as [|first rest] eqn:Hsel.
  { unfold GeminiController.generateImage. rewrite Hreq, try_catch_run, Hp, Hr.
    rewrite bind_run, (getDB_connected w store Hdb). cbv beta iota.
    rewrite bind_run, (listCollections_connected w store Hdb). cbv beta iota.
    rewrite bind_run, (readDB_connected w store _ _ Hdb), Hsel. cbv beta iota.
    rewrite bind_run, (readDB_connected w store _ _ Hdb). run.
    eexists _, _. split; [reflexivity|]. right. left. by split. }
  destruct (generateImage_after_lookup req w p0 r0 mime pid img store first rest
              Hreq Hp Hr Hdb Hsel)
    as (evs & r & Hsvc & resp & w' & Hrun & Htr & Hr').
  exists resp, w'. split; [exact Hrun|].
  destruct r as [images msg text | error t s].
  - destruct Hr' as [(Hst & Hfresh & artifact & Hdb') | (-> & _ & Hdb')].
    + right. right. right. split; [exact Hst|].
      destruct (generateImage_ok req w resp w' Hrun Hst)
        as (? & ? & ? & ? & ? & store' & ? & ? & ? & ? & H).
      cbv zeta in H. destruct H as (_ & _ & _ & Hdb2 & _ & _ & Hfresh' & Hdb2' & _).
      rewrite Hdb in Hdb2. injection Hdb2 as <-.
      eexists store, _. split_and!; [reflexivity | exact Hfresh' | exact Hdb2'].
    + right. right. left. split; [reflexivity|]. by rewrite Hdb', Hdb.
  - destruct Hr' as [-> ->]. right. right. left. split; [reflexivity|].
    by rewrite <- Hdb.
Qed.

(** X1. POST /generate always answers, with 200, 400, 404 or 500.  A
    400 or a 404 leaves the world as it was; a 500 leaves the store as
    it was; only a 200 changes the store, by one document appended to
    [generated_images].  No run changes the [images] collection. *)
Theorem generate_outcomes req w :
  ∃ resp w',
    GeminiController.generateImage req w = (Return resp, w') ∧
    ((status resp = 400 ∧ w' = w) ∨
     (status resp = 404 ∧ w' = w) ∨
     (status resp = 500 ∧ db w' = db w) ∨
     (status resp = 200 ∧
      ∃ store artifact,
        db w = Some store ∧
        db w' = Some (<["generated_images" :=
                         collection store "generated_images" ++ [artifact]]> store))) ∧
    (∀ store store', db w = Some store → db w' = Some store' →
                     collection store' "images" = collection store "images").
Proof.
  destruct (generateImage_cases req w) as (resp & w' & Hrun & Hcases).
  exists resp, w'. split; [exact Hrun|]. split.
  - destruct Hcases as [H | [H | [H | (Hst & store & artifact & Hdb & _ & Hdb')]]];
      [by left | by right; left | by right; right; left |].
    right. right. right. split; [exact Hst|]. by exists store, artifact.
  - intros store store' Hdb Hdb'.
    destruct Hcases as [[_ ->] | [[_ ->] | [[_ Heq] | (_ & st & artifact & Hst & _ & Hst')]]].
    + congruence.
    + congruence.
    + congruence.
    + simplify_eq. unfold collection at 1. by rewrite lookup_insert_ne.
Qed.

(** X2. A request without a usable [promptId], or with one but without
    a usable reference image, is answered 400 before anything else
    happens: the world is unchanged.  [promptId] is checked first, and
    only its message echoes the received body. *)
Theorem generate_rejects_missing_fields req w promptId0 referenceImage0 mimeType :
  GeminiController.readRequest req = (promptId0, referenceImage0, mimeType) →
  Js.truthy promptId0 = None ∨ Js.truthy referenceImage0 = None →
  ∃ resp,
    GeminiController.generateImage req w = (Return resp, w) ∧
    status resp = 400 ∧
    field "success" (json resp) = Some (JBool false) ∧
    match Js.truthy promptId0 with
    | None =>
        field "message" (json resp) = Some (JStr "promptId is required") ∧
        field "received" (json resp) = Some (body_json req)
    | Some _ =>
        field "message" (json resp) = Some (JStr "referenceImage is required") ∧
        field "received" (json resp) = None
    end.
Proof.
  intros Hreq Hmissing.
  unfold GeminiController.generateImage. rewrite Hreq, try_catch_run.
  destruct (Js.truthy promptId0) as [pid|] eqn:Hp.
  - destruct Hmissing as [? | Hr]; [discriminate|]. rewrite Hr. run.
    eexists. by split_and!.
  - run. eexists. by split_and!.
Qed.

End GenerateEdges.

Section GenerateFailures.
Import Database.

Lemma truthy_Some v s : Js.truthy v = Some s → v = Some s ∧ s ≠ "".
Proof.
  destruct v as [s'|]; simpl; [|discriminate].
  destruct (String.eqb_spec s' ""); [discriminate|]. intros [= ->]. by split.
Qed.

Lemma truthy_id s : s ≠ "" → Js.truthy (Some s) = Some s.
Proof. intros Hs. simpl. by destruct (String.eqb_spec s ""). Qed.

(** X3. In a request that is not JSON, the lower-case field [promptid]
    stands in for a missing or empty [promptId]: the request is handled
    exactly as the one with [promptId] set to that value.  A JSON
    request gets no such fallback: without [promptId] it is answered
    400 whatever [promptid] holds. *)
Theorem generate_promptid_alias req w p :
  Js.truthy (body req !! "promptId") = None →
  Js.truthy (body req !! "promptid") = Some p →
  if is_json req
  then ∃ resp, GeminiController.generateImage req w = (Return resp, w) ∧
               status resp = 400 ∧
               field "message" (json resp) = Some (JStr "promptId is required")
  else GeminiController.generateImage req w =
       GeminiController.generateImage (with_promptId p req) w.
Proof.
  intros Hnone Halias.
  destruct (truthy_Some _ _ Halias) as [Hlow Hp].
  destruct (is_json req) eqn:Hjson.
  - assert (GeminiController.readRequest req =
            (body req !! "promptId", body req !! "referenceImage",
             default "image/jpeg" (body req !! "mimeType"))) as Hread.
    { unfold GeminiController.readRequest. unfold is_json in Hjson. by rewrite Hjson. }
    unfold GeminiController.generateImage. rewrite Hread, try_catch_run.
    cbv beta iota. rewrite Hnone. run.
    eexists. by split_and!.
  - assert (Js.or (body req !! "promptId") (body req !! "promptid") = Some p) as Hor.
    { unfold Js.or. by rewrite Hnone. }
    assert (Js.or (Some p) (body req !! "promptid") = Some p) as Hor'.
    { unfold Js.or. by rewrite (truthy_id p Hp). }
    assert (∃ r m, GeminiController.readRequest req = (Some p, r, m) ∧
                   GeminiController.readRequest (with_promptId p req) = (Some p, r, m))
      as (r & m & Hread & Hread').
    { unfold GeminiController.readRequest. unfold is_json in Hjson.
      cbn [with_promptId content_type body files]. rewrite Hjson.
      rewrite lookup_insert_eq, !lookup_insert_ne by done.
      rewrite Hor, Hor'. destruct (files req); eexists _, _; split; reflexivity. }
    unfold GeminiController.generateImage. rewrite Hread, Hread', !try_catch_run.
    cbv beta iota. by rewrite (truthy_id p Hp).
Qed.

Lemma generate_promptid_alias_witness :
  GeminiController.generateImage
    {| content_type := Some "application/x-www-form-urlencoded";
       body := {[ "promptid" := "p1"; "referenceImage" := "WQ==" ]};
       files := []; file := None |}
    (Scenario.world (Responds "ok")) =
  GeminiController.generateImage
    (with_promptId "p1"
       {| content_type := Some "application/x-www-form-urlencoded";
          body := {[ "promptid" := "p1"; "referenceImage" := "WQ==" ]};
          files := []; file := None |})
    (Scenario.world (Responds "ok")).
Proof.
  apply (generate_promptid_alias
           {| content_type := Some "application/x-www-form-urlencoded";
              body := {[ "promptid" := "p1"; "referenceImage" := "WQ==" ]};
              files := []; file := None |}
           (Scenario.world (Responds "ok")) "p1"); reflexivity.
Defined.

(** X4. With no database connection, a valid POST /generate is
    answered 500 "Internal server error" with the message of [getDB],
    and the world is unchanged: the gateway is not called. *)
Theorem generate_without_connection req w promptId0 referenceImage0 mimeType
    promptId referenceImage :
  GeminiController.readRequest req = (promptId0, referenceImage0, mimeType) →
  Js.truthy promptId0 = Some promptId →
  Js.truthy referenceImage0 = Some referenceImage →
  db w = None →
  ∃ resp,
    GeminiController.generateImage req w = (Return resp, w) ∧
    status resp = 500 ∧
    field "message" (json resp) = Some (JStr "Internal server error") ∧
    field "error" (json resp) =
      Some (JStr "Database not connected. Call connectDB() first.").
Proof.
  intros Hreq Hp Hr Hdb.
  unfold GeminiController.generateImage. rewrite Hreq, try_catch_run, Hp, Hr.
  rewrite bind_run, (getDB_disconnected w Hdb). run.
  eexists. by split_and!.
Qed.

Lemma generate_without_connection_witness :
  ∃ resp,
    GeminiController.generateImage
      (Scenario.json_request [("promptId", "p1"); ("referenceImage", "WQ==")])
      (set_db None (Scenario.world (Responds "ok"))) =
      (Return resp, set_db None (Scenario.world (Responds "ok"))) ∧
    status resp = 500 ∧
    field "message" (json resp) = Some (JStr "Internal server error") ∧
    field "error" (json resp) =
      Some (JStr "Database not connected. Call connectDB() first.").
Proof.
  apply (generate_without_connection
           (Scenario.json_request [("promptId", "p1"); ("referenceImage", "WQ==")])
           (set_db None (Scenario.world (Responds "ok")))
           (Some "p1") (Some "WQ==") "image/jpeg" "p1" "WQ=="); reflexivity.
Defined.

(** X5. When the gateway reports a failure, POST /generate answers 500
    "Image generation failed" with the failure's text as [error]; no
    identity is drawn and the store is unchanged. *)
Theorem generate_gateway_failure_stores_nothing req w promptId0 referenceImage0 mimeType
    promptId referenceImage store first rest error errorType suggestion w1 :
  GeminiController.readRequest req = (promptId0, referenceImage0, mimeType) →
  Js.truthy promptId0 = Some promptId →
  Js.truthy referenceImage0 = Some referenceImage →
  db w = Some store →
  select store "images" (Q_promptId promptId) = first :: rest →
  ImageGenerationService.generateImage (Doc.prompt first) referenceImage mimeType w =
    (Return (ImageGenerationService.Failure error errorType suggestion), w1) →
  GeminiController.generateImage req w =
    (Return (mkResponse 500
       (JObj [ ("success", JBool false);
               ("message", JStr "Image generation failed");
               ("error", JStr error) ])), w1) ∧
  db w1 = db w ∧
  uuid_drawn w1 = uuid_drawn w.
Proof.
  intros Hreq Hp Hr Hdb Hsel Hsvc.
  destruct (generateImage_after_lookup req w _ _ _ _ _ store first rest
              Hreq Hp Hr Hdb Hsel)
    as (evs & r & Hsvc' & resp & w' & Hrun & Htr & Hr').
  rewrite Hsvc in Hsvc'. simplify_eq. destruct Hr' as [-> ->].
  by split_and!.
Qed.

Lemma generate_gateway_failure_stores_nothing_witness :
  ∃ error w1,
    GeminiController.generateImage
      (Scenario.json_request [("promptId", "p1"); ("referenceImage", "WQ==")])
      (Scenario.world (Rejects (Error "429 Too Many Requests"))) =
      (Return (mkResponse 500
         (JObj [ ("success", JBool false);
                 ("message", JStr "Image generation failed");
                 ("error", JStr error) ])), w1) ∧
    db w1 = db (Scenario.world (Rejects (Error "429 Too Many Requests"))) ∧
    uuid_drawn w1 = uuid_drawn (Scenario.world (Rejects (Error "429 Too Many Requests"))).
Proof.
  eexists _, _.
  eapply (generate_gateway_failure_stores_nothing
            (Scenario.json_request [("promptId", "p1"); ("referenceImage", "WQ==")])
            (Scenario.world (Rejects (Error "429 Too Many Requests")))
            (Some "p1") (Some "WQ==") "image/jpeg" "p1" "WQ=="
            Scenario.store Scenario.sunset [Scenario.dusk]);
    reflexivity.
Defined.

End GenerateFailures.

Section GenerateTextEdges.
Import Database.

Lemma generate_rejects_missing_fields_witness :
  ∃ resp,
    GeminiController.generateImage
      (Scenario.json_request [("promptId", "p1")])
      (Scenario.world (Responds "ok")) = (Return resp, Scenario.world (Responds "ok")) ∧
    status resp = 400 ∧
    field "success" (json resp) = Some (JBool false) ∧
    field "message" (json resp) = Some (JStr "referenceImage is required") ∧
    field "received" (json resp) = None.
Proof.
  apply (generate_rejects_missing_fields
           (Scenario.json_request [("promptId", "p1")])
           (Scenario.world (Responds "ok")) (Some "p1") None "image/jpeg").
  - reflexivity.
  - right. reflexivity.
Defined.

(** A run of [generateImageFromText] on a usable prompt: the gateway
    is called first, the store is looked at only afterwards. *)
Lemma generateImageFromText_after_validation req w prompt :
  Js.truthy (body req !! "prompt") = Some prompt →
  ∃ evs r,
    ImageGenerationService.generateImageFromText prompt w =
      (Return r, set_trace (evs ++ GatewayCall "generateImageFromText" :: trace w) w) ∧
    ∃ resp w',
      GeminiController.generateImageFromText req w = (Return resp, w') ∧
      trace w' = evs ++ GatewayCall "generateImageFromText" :: trace w ∧
      match r with
      | ImageGenerationService.Failure error _ _ =>
          resp = mkResponse 500
            (JObj [ ("success", JBool false);
                    ("message", JStr "Image generation failed");
                    ("error", JStr error) ]) ∧
          w' = set_trace (evs ++ GatewayCall "generateImageFromText" :: trace w) w
      | ImageGenerationService.Success _ _ _ =>
          match db w with
          | None =>
              resp = mkResponse 500
                (JObj [ ("success", JBool false);
                        ("message", JStr "Internal server error");
                        ("error", JStr "Database not connected. Call connectDB() first.") ]) ∧
              db w' = None
          | Some store =>
              (status resp = 200 ∧
               fresh_id (uuid_source w (uuid_drawn w))
                 (collection store "generated_images") = true ∧
               ∃ artifact,
                 db w' = Some (<["generated_images" :=
                                  collection store "generated_images" ++ [artifact]]> store)) ∨
              (resp = mkResponse 500
                 (JObj [ ("success", JBool false);
                         ("message", JStr "Internal server error");
                         ("error", JStr "E11000 duplicate key error") ]) ∧
               fresh_id (uuid_source w (uuid_drawn w))
                 (collection store "generated_images") = false ∧
               db w' = Some store)
          end
      end.
Proof.
  intros Hp.
  destruct (generateImageFromText_run prompt w) as (evs & r & Hsvc & Hr').
  exists evs, r. split; [exact Hsvc|].
  unfold GeminiController.generateImageFromText. rewrite try_catch_run, Hp.
  rewrite bind_run, Hsvc. cbv beta iota.
  destruct Hr' as [[text ->] | (e & w1 & Htry & ->)].
  - run. destruct (db w) as [store|] eqn:Hdb.
    + erewrite writeDB_connected by exact Hdb. cbn [Doc._id].
      destruct (fresh_id _ _) eqn:Hfresh.
      * run. eexists _, _. split; [reflexivity|]. split; [reflexivity|].
        left. split_and!; [reflexivity | reflexivity |]. eexists. reflexivity.
      * run. eexists _, _. split; [reflexivity|]. split; [reflexivity|].
        right. split_and!; [reflexivity | reflexivity | exact Hdb].
    + erewrite writeDB_disconnected by exact Hdb. run.
      eexists _, _. split; [reflexivity|]. split; [reflexivity|].
      split; [reflexivity | exact Hdb].
  - pose proof (generateImageFromText_catch_fails e) as Hfail.
    destruct (ImageGenerationService.generateImageFromText_catch e); [discriminate|].
    run. eexists _, _. split; [reflexivity|]. split; [reflexivity|]. by split.
Qed.

(** Every way a run of [generateImageFromText] can go, by status. *)
Lemma generateImageFromText_cases req w :
  ∃ resp w',
    GeminiController.generateImageFromText req w = (Return resp, w') ∧
    ((status resp = 400 ∧ w' = w) ∨
     (status resp = 500 ∧ db w' = db w) ∨
     (status resp = 200 ∧
      ∃ store artifact,
        db w = Some store ∧
        fresh_id (Doc._id artifact) (collection store "generated_images") = true ∧
        db w' = Some (<["generated_images" :=
                         collection store "generated_images" ++ [artifact]]> store))).
Proof.
  destruct (Js.truthy (body req !! "prompt")) as [prompt|] eqn:Hp.
  2:{ unfold GeminiController.generateImageFromText. rewrite try_catch_run, Hp. run.
      eexists _, _. split; [reflexivity|]. left. by split. }
  destruct (generateImageFromText_after_validation req w prompt Hp)
    as (evs & r & Hsvc & resp & w' & Hrun & Htr & Hr').
  exists resp, w'. split; [exact Hrun|].
  destruct r as [images msg text | error t s].
  - destruct (db w) as [store|] eqn:Hdb.
    + destruct Hr' as [(Hst & _ & artifact & Hdb') | (-> & _ & Hdb')].
      * right. right. split; [exact Hst|].
        destruct (generateImageFromText_ok req w resp w' Hrun Hst)
          as (? & store' & ? & ? & H).
        cbv zeta in H. destruct H as (_ & Hdb2 & _ & Hfresh' & Hdb2' & _).
        rewrite Hdb in Hdb2. injection Hdb2 as <-.
        eexists store, _. split_and!; [reflexivity | exact Hfresh' | exact Hdb2'].
      * right. left. by split.
    + destruct Hr' as [-> Hdb']. right. left. by split.
  - destruct Hr' as [-> ->]. right. left. by split.
Qed.

(** X6. POST /generate-text always answers, with 200, 400 or 500.  A
    400 leaves the world as it was, a 500 leaves the store as it was,
    and only a 200 changes the store, by one document appended to
    [generated_images]; no run changes the [images] collection. *)
Theorem generate_text_outcomes req w :
  ∃ resp w',
    GeminiController.generateImageFromText req w = (Return resp, w') ∧
    ((status resp = 400 ∧ w' = w) ∨
     (status resp = 500 ∧ db w' = db w) ∨
     (status resp = 200 ∧
      ∃ store artifact,
        db w = Some store ∧
        db w' = Some (<["generated_images" :=
                         collection store "generated_images" ++ [artifact]]> store))) ∧
    (∀ store store', db w = Some store → db w' = Some store' →
                     collection store' "images" = collection store "images").
Proof.
  destruct (generateImageFromText_cases req w) as (resp & w' & Hrun & Hcases).
  exists resp, w'. split; [exact Hrun|]. split.
  - destruct Hcases as [H | [H | (Hst & store & artifact & Hdb & _ & Hdb')]];
      [by left | by right; left |].
    right. right. split; [exact Hst|]. by exists store, artifact.
  - intros store store' Hdb Hdb'.
    destruct Hcases as [[_ ->] | [[_ Heq] | (_ & st & artifact & Hst & _ & Hst')]].
    + congruence.
    + congruence.
    + simplify_eq. unfold collection at 1. by rewrite lookup_insert_ne.
Qed.

(** X7. With no database connection, POST /generate-text with a
    usable prompt still calls the gateway, and is answered 500 either
    way: the gateway's failure, or "Internal server error" with the
    message of [getDB] when the gateway succeeded and its result could
    not be stored. *)
Theorem generate_text_without_connection req w prompt :
  Js.truthy (body req !! "prompt") = Some prompt →
  db w = None →
  ∃ resp w',
    GeminiController.generateImageFromText req w = (Return resp, w') ∧
    status resp = 500 ∧
    db w' = None ∧
    GatewayCall "generateImageFromText" ∈ trace w' ∧
    (∀ images msg text w1,
       ImageGenerationService.generateImageFromText prompt w =
         (Return (ImageGenerationService.Success images msg text), w1) →
       field "error" (json resp) =
         Some (JStr "Database not connected. Call connectDB() first.")).
Proof.
  intros Hp Hdb.
  destruct (generateImageFromText_after_validation req w prompt Hp)
    as (evs & r & Hsvc & resp & w' & Hrun & Htr & Hr').
  exists resp, w'. split; [exact Hrun|].
  assert (GatewayCall "generateImageFromText" ∈ trace w') as Hin.
  { rewrite Htr. apply elem_of_app. right. by left. }
  destruct r as [images msg text | error t s].
  - rewrite Hdb in Hr'. destruct Hr' as [-> Hdb']. by split_and!.
  - destruct Hr' as [-> ->]. split_and!; try done.
    intros images msg text w1 Hsvc'. rewrite Hsvc in Hsvc'. discriminate.
Qed.

Lemma generate_text_without_connection_witness :
  ∃ resp w',
    GeminiController.generateImageFromText
      (Scenario.json_request [("prompt", "a lighthouse at night")])
      (set_db None (Scenario.world (Responds "A tall lighthouse."))) = (Return resp, w') ∧
    status resp = 500 ∧
    db w' = None ∧
    GatewayCall "generateImageFromText" ∈ trace w' ∧
    (∀ images msg text w1,
       ImageGenerationService.generateImageFromText "a lighthouse at night"
         (set_db None (Scenario.world (Responds "A tall lighthouse."))) =
         (Return (ImageGenerationService.Success images msg text), w1) →
       field "error" (json resp) =
         Some (JStr "Database not connected. Call connectDB() first.")).
Proof.
  apply (generate_text_without_connection
           (Scenario.json_request [("prompt", "a lighthouse at night")])
           (set_db None (Scenario.world (Responds "A tall lighthouse.")))
           "a lighthouse at night"); reflexivity.
Defined.

End GenerateTextEdges.

Section GatewayMore.
Import ImageGenerationService.

Lemma append_assoc (a b c : string) : (a +:+ b) +:+ c = a +:+ b +:+ c.
Proof. induction a as [|x a IH]; [done | by rewrite !append_cons, IH]. Qed.

Lemma append_empty_r (a : string) : a +:+ "" = a.
Proof. induction a as [|x a IH]; [done | by rewrite append_cons, IH]. Qed.



(** X9. Without a credential ([GEMINI_API_KEY] unset or empty) both
    gateway operations resolve to a failure of type "UNKNOWN_ERROR"
    that names the missing variable and has no suggestion, and the
    provider is not called. *)
Theorem gateway_without_credential prompt img mime w :
  Js.truthy (GEMINI_API_KEY w) = None →
  generateImage prompt img mime w =
    (Return (Failure
       "Image generation failed: GEMINI_API_KEY is not set in environment variables"
       "UNKNOWN_ERROR" None),
     set_trace (GatewayCall "generateImage" :: trace w) w) ∧
  generateImageFromText prompt w =
    (Return (Failure
       "Text-to-image generation failed: GEMINI_API_KEY is not set in environment variables"
       "UNKNOWN_ERROR" None),
     set_trace (GatewayCall "generateImageFromText" :: trace w) w).
Proof.
  intros Hkey. split.
  - unfold generateImage, generateImage_try.
    rewrite try_catch_run, bind_run, emit_run. cbv beta iota.
    rewrite bind_run, requireApiKey_run.
    change (GEMINI_API_KEY (set_trace _ w)) with (GEMINI_API_KEY w). rewrite Hkey.
    reflexivity.
  - unfold generateImageFromText, generateImageFromText_try.
    rewrite try_catch_run, bind_run, emit_run. cbv beta iota.
    rewrite bind_run, requireApiKey_run.
    change (GEMINI_API_KEY (set_trace _ w)) with (GEMINI_API_KEY w). rewrite Hkey.
    reflexivity.
Qed.

Lemma gateway_without_credential_witness :
  generateImage "a sunset over mountains" "WQ==" "image/jpeg"
    (mkWorld (Some Scenario.store) (Some "") ∅ (λ _, None) (λ _ _, Responds "ok")
       Scenario.uuids 0 (λ _, 0) 0 []) =
    (Return (Failure
       "Image generation failed: GEMINI_API_KEY is not set in environment variables"
       "UNKNOWN_ERROR" None),
     set_trace [GatewayCall "generateImage"]
       (mkWorld (Some Scenario.store) (Some "") ∅ (λ _, None) (λ _ _, Responds "ok")
          Scenario.uuids 0 (λ _, 0) 0 [])) ∧
  generateImageFromText "a sunset over mountains"
    (mkWorld (Some Scenario.store) (Some "") ∅ (λ _, None) (λ _ _, Responds "ok")
       Scenario.uuids 0 (λ _, 0) 0 []) =
    (Return (Failure
       "Text-to-image generation failed: GEMINI_API_KEY is not set in environment variables"
       "UNKNOWN_ERROR" None),
     set_trace [GatewayCall "generateImageFromText"]
       (mkWorld (Some Scenario.store) (Some "") ∅ (λ _, None) (λ _ _, Responds "ok")
          Scenario.uuids 0 (λ _, 0) 0 [])).
Proof.
  apply (gateway_without_credential "a sunset over mountains" "WQ==" "image/jpeg"
           (mkWorld (Some Scenario.store) (Some "") ∅ (λ _, None) (λ _ _, Responds "ok")
              Scenario.uuids 0 (λ _, 0) 0 [])).
  reflexivity.
Defined.

(** The failure text of either catch block embeds the message of the
    error, and a remediation hint comes with every kind but unknown. *)
Lemma catch_carries_message e :
  match generateImage_catch e, generateImageFromText_catch e with
  | Failure error t s, Failure error' t' s' =>
      contains (message e) error ∧ contains (message e) error' ∧
      t' = t ∧ s' = s ∧
      (s = None ↔ t = "UNKNOWN_ERROR")
  | _, _ => False
  end.
Proof.
  unfold generateImage_catch, generateImageFromText_catch.
  destruct (Js.includes "429" (message e) || Js.includes "quota" (message e));
    [| destruct (Js.includes "404" (message e) || Js.includes "not found" (message e))];
    split_and!;
    first
      [ done
      | split; discriminate
      | by exists "Quota exceeded: ", ". Please check your billing and quota limits."
      | exists "Model not found: ", ""; by rewrite append_empty_r
      | exists "Image generation failed: ", ""; by rewrite append_empty_r
      | exists "Text-to-image generation failed: ", ""; by rewrite append_empty_r ].
Qed.

End GatewayMore.

Section GatewayEffects.
Import ImageGenerationService.

Lemma generateImage_try_effects prompt img mime w :
  ∃ evs,
    (evs = [] ∨
     ∃ modelName text,
       evs = [ProviderCall modelName [TextPart text; InlineDataPart img mime]] ∧
       contains prompt text) ∧
    ((∃ text, generateImage_try prompt img mime w =
        (Return (Success [ {| data := img; mimeType := mime |} ]
                   "Image processed with Gemini AI" text),
         set_trace (evs ++ GatewayCall "generateImage" :: trace w) w) ∧ evs ≠ []) ∨
     (∃ e, generateImage_try prompt img mime w =
        (Throw e, set_trace (evs ++ GatewayCall "generateImage" :: trace w) w))).
Proof.
  unfold generateImage_try. rewrite bind_run, emit_run. cbv beta iota.
  set (w0 := set_trace (GatewayCall "generateImage" :: trace w) w).
  rewrite bind_run, requireApiKey_run.
  destruct (Js.truthy (GEMINI_API_KEY w0)).
  2:{ exists []. split; [by left|]. right. eexists. reflexivity. }
  cbv beta iota. rewrite bind_run.
  destruct (getBestAvailableModel_run "image" w0) as [m ->].
  cbv beta iota. rewrite bind_run. unfold getGenerativeModel.
  destruct (sdk_error w0 m).
  { exists []. split; [by left|]. right. eexists. reflexivity. }
  cbv beta iota. rewrite bind_run, generateContent_run.
  match goal with |- context [provider w0 ?m ?p] =>
    exists [ProviderCall m p]; split;
      [right; eexists _, _; split; [reflexivity|] | destruct (provider w0 m p)]
  end.
  - exists ("Generate an image based on this prompt: " +:+ dquote),
           (dquote +:+ ". Use the provided reference image as a style guide or inspiration.").
    by rewrite append_assoc.
  - left. eexists. split; [reflexivity | done].
  - right. eexists. reflexivity.
  - right. eexists. reflexivity.
Qed.

Lemma generateImageFromText_try_effects prompt w :
  ∃ evs,
    (evs = [] ∨
     ∃ modelName text,
       evs = [ProviderCall modelName [TextPart text]] ∧ contains prompt text) ∧
    ((∃ text, generateImageFromText_try prompt w =
        (Return (Success [ {| data := "text-generated-description";
                              mimeType := "text/plain" |} ]
                   "Text-to-image description generated with Gemini AI" text),
         set_trace (evs ++ GatewayCall "generateImageFromText" :: trace w) w) ∧
             evs ≠ []) ∨
     (∃ e, generateImageFromText_try prompt w =
        (Throw e, set_trace (evs ++ GatewayCall "generateImageFromText" :: trace w) w))).
Proof.
  unfold generateImageFromText_try. rewrite bind_run, emit_run. cbv beta iota.
  set (w0 := set_trace (GatewayCall "generateImageFromText" :: trace w) w).
  rewrite bind_run, requireApiKey_run.
  destruct (Js.truthy (GEMINI_API_KEY w0)).
  2:{ exists []. split; [by left|]. right. eexists. reflexivity. }
  cbv beta iota. rewrite bind_run.
  destruct (getBestAvailableModel_run "text" w0) as [m ->].
  cbv beta iota. rewrite bind_run. unfold getGenerativeModel.
  destruct (sdk_error w0 m).
  { exists []. split; [by left|]. right. eexists. reflexivity. }
  cbv beta iota. rewrite bind_run, generateContent_run.
  match goal with |- context [provider w0 ?m ?p] =>
    exists [ProviderCall m p]; split;
      [right; eexists _, _; split; [reflexivity|] | destruct (provider w0 m p)]
  end.
  - exists ("Generate an image based on this prompt: " +:+ dquote),
           (dquote +:+ ". Create a detailed description of what the image should look like.").
    by rewrite append_assoc.
  - left. eexists. split; [reflexivity | done].
  - right. eexists. reflexivity.
  - right. eexists. reflexivity.
Qed.

(** X10. The gateway's [generateImage] never throws and changes
    nothing but the trace.  It calls the provider at most once, with a
    text part that embeds the prompt and an inline part that carries
    the reference image and its MIME type; a success made that call. *)
Theorem gateway_calls_provider_at_most_once prompt img mime w :
  ∃ r evs,
    generateImage prompt img mime w =
      (Return r, set_trace (evs ++ GatewayCall "generateImage" :: trace w) w) ∧
    (evs = [] ∨
     ∃ modelName text,
       evs = [ProviderCall modelName [TextPart text; InlineDataPart img mime]] ∧
       contains prompt text) ∧
    (success r = true → evs ≠ []).
Proof.
  destruct (generateImage_try_effects prompt img mime w)
    as (evs & Hevs & [(text & Hrun & Hne) | (e & Hrun)]).
  - eexists _, evs. unfold generateImage. rewrite try_catch_run, Hrun.
    by split_and!.
  - exists (generateImage_catch e), evs. unfold generateImage.
    rewrite try_catch_run, Hrun. split_and!; [done | done |].
    by rewrite generateImage_catch_fails.
Qed.

(** X11. Every failure the gateway reports embeds the message of the
    error that caused it, and comes with a suggestion unless its type
    is "UNKNOWN_ERROR". *)
Theorem gateway_failure_carries_message error errorType suggestion :
  (∀ prompt img mime w w1,
     generateImage prompt img mime w =
       (Return (Failure error errorType suggestion), w1) →
     ∃ e, generateImage_try prompt img mime w = (Throw e, w1) ∧
          contains (message e) error ∧
          (suggestion = None ↔ errorType = "UNKNOWN_ERROR")) ∧
  (∀ prompt w w1,
     generateImageFromText prompt w =
       (Return (Failure error errorType suggestion), w1) →
     ∃ e, generateImageFromText_try prompt w = (Throw e, w1) ∧
          contains (message e) error ∧
          (suggestion = None ↔ errorType = "UNKNOWN_ERROR")).
Proof.
  split.
  - intros prompt img mime w w1 Hrun.
    destruct (generateImage_run prompt img mime w) as (evs & r & Hsvc & Hr).
    unfold generateImage in Hsvc, Hrun. rewrite try_catch_run in Hsvc, Hrun.
    destruct Hr as [[text ->] | (e & w2 & Htry & ->)].
    + rewrite Hsvc in Hrun. discriminate.
    + rewrite Htry in Hrun, Hsvc. rewrite ret_run in Hrun. exists e.
      pose proof (catch_carries_message e) as Hc.
      destruct (generateImage_catch e), (generateImageFromText_catch e); try done.
      destruct Hc as (Hc & _ & _ & _ & Hs). simplify_eq. by split_and!.
  - intros prompt w w1 Hrun.
    destruct (generateImageFromText_run prompt w) as (evs & r & Hsvc & Hr).
    unfold generateImageFromText in Hsvc, Hrun. rewrite try_catch_run in Hsvc, Hrun.
    destruct Hr as [[text ->] | (e & w2 & Htry & ->)].
    + rewrite Hsvc in Hrun. discriminate.
    + rewrite Htry in Hrun, Hsvc. rewrite ret_run in Hrun. exists e.
      pose proof (catch_carries_message e) as Hc.
      destruct (generateImage_catch e), (generateImageFromText_catch e); try done.
      destruct Hc as (_ & Hc & -> & -> & Hs). simplify_eq. by split_and!.
Qed.

Lemma gateway_failure_carries_message_witness :
  ∃ e,
    generateImage_try "a sunset over mountains" "WQ==" "image/jpeg"
      (Scenario.world (Rejects (Error "404 models/gemini-pro is not found"))) =
      (Throw e,
       (generateImage "a sunset over mountains" "WQ==" "image/jpeg"
          (Scenario.world (Rejects (Error "404 models/gemini-pro is not found")))).2) ∧
    contains (message e) "Model not found: 404 models/gemini-pro is not found" ∧
    (Some "Please check available models or contact support." = None ↔
     "MODEL_NOT_FOUND" = "UNKNOWN_ERROR").
Proof.
  apply (proj1 (gateway_failure_carries_message
                  "Model not found: 404 models/gemini-pro is not found"
                  "MODEL_NOT_FOUND"
                  (Some "Please check available models or contact support."))
           "a sunset over mountains" "WQ==" "image/jpeg"
           (Scenario.world (Rejects (Error "404 models/gemini-pro is not found")))).
  reflexivity.
Defined.

End GatewayEffects.

Section Connection.
Import Database.

Variable sdk_listModels : M (list string).

(** The service's [testConnection] never throws; without a credential
    it reports so and calls nothing. *)
Lemma service_testConnection_returns w :
  ∃ c w',
    ImageGenerationService.testConnection sdk_listModels w = (Return c, w') ∧
    (Js.truthy (GEMINI_API_KEY w) = None →
     c = ImageGenerationService.NotReady
           "GEMINI_API_KEY is not set in environment variables" ∧
     w' = w).
Proof.
  unfold ImageGenerationService.testConnection. rewrite try_catch_run.
  match goal with |- context [match ?body w with _ => _ end] =>
    destruct (body w) as [[c|e] w1] eqn:Hbody
  end.
  - exists c, w1. split; [reflexivity|]. intros Hkey.
    rewrite bind_run in Hbody. cbn in Hbody. rewrite Hkey in Hbody.
    rewrite ret_run in Hbody. by simplify_eq.
  - rewrite ret_run. eexists _, w1. split; [reflexivity|]. intros Hkey.
    rewrite bind_run in Hbody. cbn in Hbody. rewrite Hkey in Hbody.
    rewrite ret_run in Hbody. discriminate.
Qed.

(** X12. GET /test answers 200 "Gemini API connection successful" in
    every world, whatever the service's test found: the service
    resolves to an object in every case, and the handler only tests
    that object for truthiness.  Without a credential the world is
    left as it was. *)
Theorem test_connection_always_succeeds req w :
  ∃ w',
    GeminiController.testConnection sdk_listModels req w =
      (Return (mkResponse 200
         (JObj [ ("success", JBool true);
                 ("message", JStr "Gemini API connection successful") ])), w') ∧
    (Js.truthy (GEMINI_API_KEY w) = None → w' = w).
Proof.
  destruct (service_testConnection_returns w) as (c & w' & Hrun & Hkey).
  exists w'. unfold GeminiController.testConnection.
  rewrite try_catch_run, bind_run, Hrun. cbv beta iota.
  unfold Js.object_truthy. rewrite ret_run. split; [reflexivity|].
  intros H. by destruct (Hkey H).
Qed.


End Connection.

Section Artifacts.
Import Database.

(** X14. After a run of POST /generate that answered 200, GET
    /generated-images lists the documents that were there before,
    followed by the new artifact, and counts one more; the artifact
    listed last has the identity the generate response returned. *)
Theorem generate_then_list_artifacts req w resp w' :
  GeminiController.generateImage req w = (Return resp, w') →
  status resp = 200 →
  ∃ store artifact,
    db w = Some store ∧
    data_field "imageId" resp = Some (JStr (Doc._id artifact)) ∧
    ∀ req',
      GeminiController.getGeneratedImages req' w' =
        (Return (mkResponse 200
           (JObj [ ("success", JBool true);
                   ("message", JStr "Generated images retrieved successfully");
                   ("data", JArr (GeminiController.doc_json <$>
                                    collection store "generated_images" ++ [artifact]));
                   ("count", JNum (Z.of_nat (length (collection store "generated_images"))
                                   + 1)) ])), w').
Proof.
  intros Hrun Hst.
  destruct (generateImage_ok req w resp w' Hrun Hst)
    as (p0 & r0 & mime & pid & img & store & first & rest & evs & text & H).
  cbv zeta in H.
  destruct H as (Hreq & Hp & Hr & Hdb & Hsel & Hsvc & Hfresh & Hdb' & Htr & ->).
  eexists store, _. split_and!; [exact Hdb | reflexivity |].
  intros req'. unfold GeminiController.getGeneratedImages.
  rewrite try_catch_run, bind_run, (readDB_connected w' _ _ _ Hdb'), select_all.
  rewrite collection_insert. run. rewrite length_app, Nat2Z.inj_add. reflexivity.
Qed.

Lemma generate_then_list_artifacts_witness :
  ∃ resp w',
    GeminiController.generateImage
      (Scenario.json_request [("promptId", "p1"); ("referenceImage", "WQ==")])
      (Scenario.world (Responds "ok")) = (Return resp, w') ∧
    status resp = 200 ∧
    ∃ store artifact,
      db (Scenario.world (Responds "ok")) = Some store ∧
      data_field "imageId" resp = Some (JStr (Doc._id artifact)) ∧
      ∀ req',
        GeminiController.getGeneratedImages req' w' =
          (Return (mkResponse 200
             (JObj [ ("success", JBool true);
                     ("message", JStr "Generated images retrieved successfully");
                     ("data", JArr (GeminiController.doc_json <$>
                                      collection store "generated_images" ++ [artifact]));
                     ("count", JNum (Z.of_nat (length (collection store "generated_images"))
                                     + 1)) ])), w').
Proof.
  eexists _, _. split; [reflexivity|]. split; [reflexivity|].
  apply (generate_then_list_artifacts
           (Scenario.json_request [("promptId", "p1"); ("referenceImage", "WQ==")])
           (Scenario.world (Responds "ok")));
    reflexivity.
Defined.

End Artifacts.

Section UploadMore.
Import Database UploadController.

Lemma saveImage_run promptId promptName prompt base64DataUrl originalName size mimetype w :
  ∃ resp w',
    saveImage promptId promptName prompt base64DataUrl originalName size mimetype w =
      (Return resp, w') ∧
    fs w' = fs w ∧ trace w' = trace w ∧
    saved (upload_record w promptId promptName prompt base64DataUrl originalName
             size mimetype) w resp w'.
Proof.
  unfold saveImage, saved. run.
  destruct (db w) as [store|] eqn:Hdb.
  - erewrite writeDB_connected by exact Hdb. cbn [Doc._id].
    destruct (fresh_id _ _) eqn:Hfresh.
    + run. eexists _, _. split; [reflexivity|]. split_and!; [reflexivity..|].
      left. split_and!; [reflexivity..|]. exists store. by split_and!.
    + run. eexists _, _. split; [reflexivity|]. split_and!; [reflexivity..|].
      right. by split_and!.
  - erewrite writeDB_disconnected by exact Hdb. run.
    eexists _, _. split; [reflexivity|]. split_and!; [reflexivity..|].
    right. by split_and!.
Qed.

Lemma enoent_is_no_filter_error :
  Js.includes "Only image files" "ENOENT: no such file or directory" = false.
Proof. reflexivity. Qed.

(** Every way a run of [uploadImage] can go. *)
Lemma uploadImage_cases req w :
  ∃ resp w',
    uploadImage req w = (Return resp, w') ∧
    trace w' = trace w ∧
    match Js.truthy (body req !! "promptId"),
          Js.truthy (body req !! "promptName"),
          Js.truthy (body req !! "prompt") with
    | Some promptId, Some promptName, Some prompt =>
        match file req with
        | Some f =>
            match fs w !! path f with
            | Some bytes =>
                fs w' = delete (path f) (fs w) ∧
                saved (upload_record w promptId promptName prompt
                         ("data:" +:+ disk_mimetype f +:+ ";base64," +:+ Js.toBase64 bytes)
                         (originalname f) (disk_size f) (disk_mimetype f))
                  w resp w'
            | None =>
                resp = mkResponse 500
                  (JObj [ ("success", JBool false);
                          ("message", JStr "Internal server error during upload");
                          ("error", JStr "UPLOAD_ERROR") ]) ∧
                w' = w
            end
        | None =>
            match Js.truthy (body req !! "aiImage") with
            | Some aiImage =>
                fs w' = fs w ∧
                saved (upload_record w promptId promptName prompt aiImage
                         "uploaded-image" 0 "image/jpeg") w resp w'
            | None =>
                resp = mkResponse 400
                  (JObj [ ("success", JBool false);
                          ("message",
                           JStr "No image data provided (either file upload or base64)");
                          ("error", JStr "NO_IMAGE_ERROR") ]) ∧
                w' = w
            end
        end
    | _, _, _ => resp = validationError ∧ w' = w
    end.
Proof.
  unfold uploadImage. rewrite try_catch_run.
  destruct (Js.truthy (body req !! "promptId")) as [promptId|];
    [destruct (Js.truthy (body req !! "promptName")) as [promptName|];
      [destruct (Js.truthy (body req !! "prompt")) as [prompt|] |] |].
  2-4: by (run; eexists _, _; split; [reflexivity|]).
  destruct (file req) as [f|].
  - rewrite bind_run. unfold readFileSync at 1.
    destruct (fs w !! path f) as [bytes|] eqn:Hfile.
    + cbv beta iota. rewrite bind_run. unfold unlinkSync at 1. rewrite Hfile.
      cbv beta iota.
      destruct (saveImage_run promptId promptName prompt
                  ("data:" +:+ disk_mimetype f +:+ ";base64," +:+ Js.toBase64 bytes)
                  (originalname f) (disk_size f) (disk_mimetype f)
                  (set_fs (delete (path f) (fs w)) w))
        as (resp & w' & -> & Hfs & Htr & Hsaved).
      exists resp, w'. split; [reflexivity|]. split_and!; [exact Htr | exact Hfs |].
      exact Hsaved.
    + cbv beta iota. cbn [code message]. rewrite enoent_is_no_filter_error.
      cbn. run. eexists _, _. by split_and!.
  - destruct (Js.truthy (body req !! "aiImage")) as [aiImage|].
    + destruct (saveImage_run promptId promptName prompt aiImage
                  "uploaded-image" 0 "image/jpeg" w)
        as (resp & w' & -> & Hfs & Htr & Hsaved).
      exists resp, w'. by split_and!.
    + run. eexists _, _. by split_and!.
Qed.

End UploadMore.

Section UploadOutcomes.
Import Database UploadController.

(** X15. POST /images/upload always answers, with 201, 400 or 500, and
    never calls the gateway.  A 400 leaves the world as it was, a 500
    leaves the store as it was, and a 201 appended exactly one record
    to [images], whose identity the response returns; the response
    never carries the image data. *)
Theorem upload_outcomes req w :
  ∃ resp w',
    uploadImage req w = (Return resp, w') ∧
    trace w' = trace w ∧
    data_field "base64Image" resp = None ∧
    ((status resp = 400 ∧ w' = w) ∨
     (status resp = 500 ∧ db w' = db w) ∨
     (status resp = 201 ∧
      ∃ store record,
        db w = Some store ∧
        db w' = Some (<["images" := collection store "images" ++ [record]]> store) ∧
        data_field "id" resp = Some (JStr (Doc._id record)))).
Proof.
  destruct (uploadImage_cases req w) as (resp & w' & Hrun & Htr & Hcase).
  exists resp, w'. split; [exact Hrun|]. split; [exact Htr|].
  assert (resp = validationError ∧ w' = w → 
          data_field "base64Image" resp = None ∧
          ((status resp = 400 ∧ w' = w) ∨
           (status resp = 500 ∧ db w' = db w) ∨
           (status resp = 201 ∧
            ∃ store record,
              db w = Some store ∧
              db w' = Some (<["images" := collection store "images" ++ [record]]> store) ∧
              data_field "id" resp = Some (JStr (Doc._id record))))) as Hinvalid.
  { intros [-> ->]. split; [reflexivity|]. left. by split. }
  assert (∀ record,
          saved record w resp w' →
          data_field "base64Image" resp = None ∧
          ((status resp = 400 ∧ w' = w) ∨
           (status resp = 500 ∧ db w' = db w) ∨
           (status resp = 201 ∧
            ∃ store record,
              db w = Some store ∧
              db w' = Some (<["images" := collection store "images" ++ [record]]> store) ∧
              data_field "id" resp = Some (JStr (Doc._id record))))) as Hsaved.
  { intros record [(Hst & Hid & Hnone & store & Hdb & _ & Hdb') | [-> Hdb']].
    - split; [exact Hnone|]. right. right. split; [exact Hst|]. by exists store, record.
    - split; [reflexivity|]. right. left. by split. }
  repeat case_match; try (by apply Hinvalid).
  - destruct Hcase as [_ Hs]. by apply (Hsaved _ Hs).
  - destruct Hcase as [-> ->]. split; [reflexivity|]. right. left. by split.
  - destruct Hcase as [_ Hs]. by apply (Hsaved _ Hs).
  - destruct Hcase as [-> ->]. split; [reflexivity|]. left. by split.
Qed.

End UploadOutcomes.

Section UploadEdges.
Import Database UploadController.

(** X16. An upload that lacks [promptId], [promptName] or [prompt] is
    answered 400 "VALIDATION_ERROR" and the world is unchanged: in
    particular a file that was already written to disk for this
    request stays there. *)
Theorem upload_rejects_missing_fields req w :
  Js.truthy (body req !! "promptId") = None ∨
  Js.truthy (body req !! "promptName") = None ∨
  Js.truthy (body req !! "prompt") = None →
  ∃ resp,
    uploadImage req w = (Return resp, w) ∧
    status resp = 400 ∧
    field "error" (json resp) = Some (JStr "VALIDATION_ERROR").
Proof.
  intros Hmissing.
  destruct (uploadImage_cases req w) as (resp & w' & Hrun & _ & Hcase).
  assert (resp = validationError ∧ w' = w) as [-> ->].
  { destruct Hmissing as [H | [H | H]]; rewrite H in Hcase;
      repeat case_match; exact Hcase. }
  exists validationError. by split_and!.
Qed.

Lemma upload_rejects_missing_fields_witness :
  ∃ resp,
    uploadImage
      {| content_type := Some "multipart/form-data";
         body := {[ "promptId" := "p1"; "promptName" := "Sunset" ]};
         files := []; file := file Scenario.file_request |}
      Scenario.file_world = (Return resp, Scenario.file_world) ∧
    status resp = 400 ∧
    field "error" (json resp) = Some (JStr "VALIDATION_ERROR").
Proof.
  apply (upload_rejects_missing_fields
           {| content_type := Some "multipart/form-data";
              body := {[ "promptId" := "p1"; "promptName" := "Sunset" ]};
              files := []; file := file Scenario.file_request |}
           Scenario.file_world).
  right. right. reflexivity.
Defined.



(** X18. After an upload that answered 201, GET /prompts lists the
    uploaded [promptId]. *)
Theorem upload_then_list_prompts req w resp w' :
  uploadImage req w = (Return resp, w') →
  status resp = 201 →
  ∃ promptId,
    Js.truthy (body req !! "promptId") = Some promptId ∧
    ∀ req', ∃ out,
      GeminiController.getPrompts req' w' =
        (Return (mkResponse 200
           (JObj [ ("success", JBool true);
                   ("message", JStr "Prompts retrieved successfully");
                   ("data", JArr (GeminiController.entry_json <$> out)) ])), w') ∧
      promptId ∈ GeminiController.entry_id <$> out.
Proof.
  intros Hrun Hst.
  destruct (uploadImage_cases req w) as (resp0 & w0 & Hrun0 & _ & Hcase).
  rewrite Hrun in Hrun0. simplify_eq.
  assert (∃ promptId record store,
            Js.truthy (body req !! "promptId") = Some promptId ∧
            Doc.promptId record = Some promptId ∧
            db w0 = Some (<["images" := collection store "images" ++ [record]]> store))
    as (promptId & record & store & Hp & Hrec & Hdb').
  { destruct (Js.truthy (body req !! "promptId")) as [promptId|];
      [destruct (Js.truthy (body req !! "promptName")) as [promptName|];
        [destruct (Js.truthy (body req !! "prompt")) as [prompt|] |] |];
      try (destruct Hcase as [-> _]; discriminate).
    assert (∀ record, Doc.promptId record = Some promptId →
                      saved record w resp0 w0 →
                      ∃ promptId' record store,
                        Some promptId = Some promptId' ∧
                        Doc.promptId record = Some promptId' ∧
                        db w0 = Some (<["images" := collection store "images" ++ [record]]> store))
      as Hsaved.
    { intros record Hrec [(_ & _ & _ & store & _ & _ & Hdb') | [-> _]]; [|discriminate].
      by exists promptId, record, store. }
    repeat case_match; try (destruct Hcase as [-> _]; discriminate);
      destruct Hcase as [_ Hs]; (eapply Hsaved; [|exact Hs]; reflexivity). }
  exists promptId. split; [exact Hp|]. intros req'.
  eexists. split.
  - unfold GeminiController.getPrompts. rewrite try_catch_run, bind_run.
    rewrite (readDB_connected w0 _ _ _ Hdb'), select_all. run. reflexivity.
  - rewrite collection_insert.
    destruct (scanned_fold (collection store "images" ++ [record]))
      as (Hseen & _ & _ & Hall & _).
    apply Hseen. apply (Hall (length (collection store "images")) record).
    + rewrite lookup_app_r by lia. by rewrite Nat.sub_diag.
    + rewrite Hrec. destruct (truthy_Some _ _ Hp) as [_ Hne]. by apply truthy_id.
Qed.

Lemma upload_then_list_prompts_witness :
  ∃ resp w',
    uploadImage
      (Scenario.json_request
         [("promptId", "p9"); ("promptName", "Harbour");
          ("prompt", "a harbour at dawn"); ("aiImage", "WA==")])
      (Scenario.world (Responds "ok")) = (Return resp, w') ∧
    status resp = 201 ∧
    ∃ promptId,
      Some "p9" = Some promptId ∧
      ∀ req', ∃ out,
        GeminiController.getPrompts req' w' =
          (Return (mkResponse 200
             (JObj [ ("success", JBool true);
                     ("message", JStr "Prompts retrieved successfully");
                     ("data", JArr (GeminiController.entry_json <$> out)) ])), w') ∧
        promptId ∈ GeminiController.entry_id <$> out.
Proof.
  eexists _, _. split; [reflexivity|]. split; [reflexivity|].
  eapply (upload_then_list_prompts
           (Scenario.json_request
              [("promptId", "p9"); ("promptName", "Harbour");
               ("prompt", "a harbour at dawn"); ("aiImage", "WA==")])
           (Scenario.world (Responds "ok")));
    reflexivity.
Defined.

End UploadEdges.

Section DatabaseMore.
Import Database.

Lemma remove_first_None q docs :
  remove_first q docs = None ↔ List.filter (matches q) docs = [].
Proof.
  induction docs as [|d docs IH]; simpl; [done|].
  destruct (matches q d); [done|].
  rewrite <- IH. by destruct (remove_first q docs).
Qed.

Lemma remove_first_Some q docs docs' :
  remove_first q docs = Some docs' →
  ∃ before d after,
    docs = before ++ d :: after ∧
    matches q d = true ∧
    List.filter (matches q) before = [] ∧
    docs' = before ++ after.
Proof.
  revert docs'. induction docs as [|d docs IH]; intros docs'; simpl; [done|].
  destruct (matches q d) eqn:Hd.
  - intros [= <-]. by exists [], d, docs.
  - destruct (remove_first q docs) as [rest|]; [|done]. intros [= <-].
    destruct (IH rest eq_refl) as (before & d' & after & -> & Hd' & Hbefore & ->).
    exists (d :: before), d', after. split_and!; try done. simpl. by rewrite Hd.
Qed.

Lemma deleteDB_connected w store c q :
  db w = Some store →
  deleteDB c q w =
  match remove_first q (collection store c) with
  | Some docs => (Return 1, set_db (Some (<[c := docs]> store)) w)
  | None => (Return 0, w)
  end.
Proof.
  intros Hdb. unfold deleteDB. rewrite try_catch_run, bind_run.
  rewrite (getDB_connected w store Hdb). cbv beta iota.
  rewrite bind_run. unfold deleteOne. rewrite Hdb.
  by destruct (remove_first q (collection store c)).
Qed.

Lemma deleteDB_disconnected w c q :
  db w = None →
  deleteDB c q w =
  (Throw (Error "Database not connected. Call connectDB() first."), w).
Proof.
  intros Hdb. unfold deleteDB. rewrite try_catch_run, bind_run.
  by rewrite (getDB_disconnected w Hdb).
Qed.

Lemma collection_insert_ne (store : gmap string (list Doc.t)) c c' docs :
  c ≠ c' → collection (<[c := docs]> store) c' = collection store c'.
Proof. intros Hne. unfold collection. by rewrite lookup_insert_ne. Qed.

Lemma fresh_id_not_in id docs :
  fresh_id id docs = true ↔ id ∉ (Doc._id <$> docs).
Proof.
  unfold fresh_id. induction docs as [|d docs IH]; simpl.
  - split; [intros _ H; by apply not_elem_of_nil in H | done].
  - rewrite not_elem_of_cons, <- IH. destruct (String.eqb_spec (Doc._id d) id) as [->|Hne]; simpl.
    + split; [done | by intros [? _]].
    + split; [by split | by intros [_ ?]].
Qed.

Lemma unique_ids_snoc docs d :
  unique_ids docs → fresh_id (Doc._id d) docs = true → unique_ids (docs ++ [d]).
Proof.
  unfold unique_ids. intros Hu Hfresh. rewrite fmap_app. apply NoDup_app.
  split_and!; [done | | apply NoDup_singleton].
  intros id Hin Hin'. apply list_elem_of_singleton in Hin' as ->.
  by apply fresh_id_not_in in Hfresh.
Qed.

Lemma unique_ids_remove q docs docs' :
  remove_first q docs = Some docs' → unique_ids docs → unique_ids docs'.
Proof.
  intros Hrm Hu. apply remove_first_Some in Hrm as (before & d & after & -> & _ & _ & ->).
  unfold unique_ids in *. rewrite fmap_app in *. simpl in Hu.
  apply NoDup_app in Hu as (Hb & Hdisj & Ha). apply NoDup_cons in Ha as [_ Ha].
  apply NoDup_app. split_and!; [done | | done].
  intros id Hin Hin'. apply (Hdisj id Hin). by right.
Qed.

(** X19. A document written with [writeDB] is read back by its [_id]
    from the same collection, alone and unchanged, and reads of every
    other collection see what they saw before; a write that fails
    changes nothing. *)
Theorem write_then_read_by_id c data w :
  match writeDB c data w with
  | (Return id, w') =>
      id = Doc._id data ∧
      readDB c (Q_id id) w' = (Return [data], w') ∧
      ∀ c' q, c' ≠ c → (readDB c' q w').1 = (readDB c' q w).1
  | (Throw e, w') => w' = w
  end.
Proof.
  destruct (db w) as [store|] eqn:Hdb.
  - rewrite (writeDB_connected w store c data Hdb).
    destruct (fresh_id (Doc._id data) (collection store c)) eqn:Hfresh; [|done].
    split_and!; [done | |].
    + erewrite readDB_connected by reflexivity. unfold select.
      rewrite collection_insert, List.filter_app, (fresh_id_select _ _ Hfresh).
      cbn [List.filter matches app]. by rewrite String.eqb_refl.
    + intros c' q Hne. erewrite !readDB_connected by (reflexivity || exact Hdb).
      unfold select. by rewrite collection_insert_ne.
  - by rewrite (writeDB_disconnected w c data Hdb).
Qed.

End DatabaseMore.

Section UploadThenGenerate.
Import Database UploadController.

(** A 201 of [uploadImage] stored the record built from the body's
    [promptId], [promptName] and [prompt]. *)
Lemma uploadImage_stored req w resp w' :
  uploadImage req w = (Return resp, w') →
  status resp = 201 →
  ∃ promptId promptName prompt store record,
    Js.truthy (body req !! "promptId") = Some promptId ∧
    Js.truthy (body req !! "promptName") = Some promptName ∧
    Js.truthy (body req !! "prompt") = Some prompt ∧
    Doc.promptId record = Some promptId ∧
    Doc.promptName record = promptName ∧
    Doc.prompt record = prompt ∧
    db w = Some store ∧
    fresh_id (Doc._id record) (collection store "images") = true ∧
    db w' = Some (<["images" := collection store "images" ++ [record]]> store) ∧
    data_field "id" resp = Some (JStr (Doc._id record)).
Proof.
  intros Hrun Hst.
  destruct (uploadImage_cases req w) as (resp0 & w0 & Hrun0 & _ & Hcase).
  rewrite Hrun in Hrun0. simplify_eq.
  destruct (Js.truthy (body req !! "promptId")) as [promptId|];
    [destruct (Js.truthy (body req !! "promptName")) as [promptName|];
      [destruct (Js.truthy (body req !! "prompt")) as [prompt|] |] |];
    try (destruct Hcase as [-> _]; discriminate).
  assert (∀ record,
            Doc.promptId record = Some promptId →
            Doc.promptName record = promptName →
            Doc.prompt record = prompt →
            saved record w resp0 w0 →
            ∃ promptId' promptName' prompt' store record,
              Some promptId = Some promptId' ∧ Some promptName = Some promptName' ∧
              Some prompt = Some prompt' ∧
              Doc.promptId record = Some promptId' ∧
              Doc.promptName record = promptName' ∧
              Doc.prompt record = prompt' ∧
              db w = Some store ∧
              fresh_id (Doc._id record) (collection store "images") = true ∧
              db w0 = Some (<["images" := collection store "images" ++ [record]]> store) ∧
              data_field "id" resp0 = Some (JStr (Doc._id record))) as Hsaved.
  { intros record H1 H2 H3 [(_ & Hid & _ & store & Hdb & Hfresh & Hdb') | [-> _]];
      [|discriminate].
    exists promptId, promptName, prompt, store, record. by split_and!. }
  repeat case_match; try (destruct Hcase as [-> _]; discriminate);
    destruct Hcase as [_ Hs];
    (eapply Hsaved; [| | |exact Hs]; reflexivity).
Qed.

(** X20. After an upload that answered 201, a POST /generate for the
    uploaded [promptId] with a reference image is never answered 400
    or 404: it is answered 200 or 500.  When that upload was the first
    under its [promptId], the artifact of a 200 carries the uploaded
    [promptName] and [prompt]. *)
Theorem upload_then_generate req w resp w' req2 promptId0 referenceImage0 mimeType
    promptId referenceImage :
  uploadImage req w = (Return resp, w') →
  status resp = 201 →
  Js.truthy (body req !! "promptId") = Some promptId →
  GeminiController.readRequest req2 = (promptId0, referenceImage0, mimeType) →
  Js.truthy promptId0 = Some promptId →
  Js.truthy referenceImage0 = Some referenceImage →
  ∃ resp2 w2,
    GeminiController.generateImage req2 w' = (Return resp2, w2) ∧
    (status resp2 = 200 ∨ status resp2 = 500) ∧
    (status resp2 = 200 →
     ∀ store, db w = Some store →
              select store "images" (Q_promptId promptId) = [] →
     ∃ store' artifact,
       db w' = Some store' ∧
       db w2 = Some (<["generated_images" :=
                        collection store' "generated_images" ++ [artifact]]> store') ∧
       Some (Doc.promptName artifact) = Js.truthy (body req !! "promptName") ∧
       Some (Doc.prompt artifact) = Js.truthy (body req !! "prompt")).
Proof.
  intros Hrun Hst Hpid Hreq2 Hp2 Hr2.
  destruct (uploadImage_stored req w resp w' Hrun Hst)
    as (pid & name & text & store & record & Hp & Hn & Ht & Hrp & Hrn & Hrt &
        Hdb & Hfresh & Hdb' & Hid).
  rewrite Hpid in Hp. injection Hp as <-.
  assert (select (<["images" := collection store "images" ++ [record]]> store)
            "images" (Q_promptId promptId) =
          select store "images" (Q_promptId promptId) ++ [record]) as Hsel.
  { unfold select. rewrite collection_insert, List.filter_app.
    cbn [List.filter matches]. by rewrite Hrp, String.eqb_refl. }
  destruct (select store "images" (Q_promptId promptId) ++ [record])
    as [|first rest] eqn:Hfirst.
  { by destruct (select store "images" (Q_promptId promptId)). }
  destruct (generateImage_after_lookup req2 w' _ _ _ _ _ _ first rest
              Hreq2 Hp2 Hr2 Hdb' Hsel)
    as (evs & r & Hsvc & resp2 & w2 & Hrun2 & Htr & Hr).
  exists resp2, w2. split; [exact Hrun2|]. split.
  - destruct r as [images msg txt | error t s].
    + destruct Hr as [(H200 & _) | (-> & _)]; [by left | by right].
    + destruct Hr as [-> _]. by right.
  - intros H200 store0 Hdb0 Hnone. rewrite Hdb in Hdb0. injection Hdb0 as <-.
    rewrite Hnone in Hfirst. injection Hfirst as <- <-.
    destruct (generateImage_ok req2 w' resp2 w2 Hrun2 H200)
      as (p0' & r0' & mime' & pid' & img' & store' & first' & rest' & evs' & text' & H).
    cbv zeta in H.
    destruct H as (Hreq' & Hp' & Hr' & Hdb2 & Hsel' & _ & _ & Hdb2' & _ & _).
    rewrite Hreq2 in Hreq'. injection Hreq' as <- <- <-.
    rewrite Hp2 in Hp'. injection Hp' as <-.
    rewrite Hdb' in Hdb2. injection Hdb2 as <-.
    rewrite Hsel in Hsel'. injection Hsel' as <- <-.
    eexists _, _. split_and!; [exact Hdb' | exact Hdb2' | |]; simpl.
    + by rewrite Hrn, Hn.
    + by rewrite Hrt, Ht.
Qed.

Lemma upload_then_generate_witness :
  ∃ resp w' resp2 w2,
    uploadImage
      (Scenario.json_request
         [("promptId", "p9"); ("promptName", "Harbour");
          ("prompt", "a harbour at dawn"); ("aiImage", "WA==")])
      (Scenario.world (Responds "ok")) = (Return resp, w') ∧
    status resp = 201 ∧
    GeminiController.generateImage
      (Scenario.json_request [("promptId", "p9"); ("referenceImage", "WQ==")])
      w' = (Return resp2, w2) ∧
    (status resp2 = 200 ∨ status resp2 = 500) ∧
    (status resp2 = 200 →
     ∀ store, db (Scenario.world (Responds "ok")) = Some store →
              select store "images" (Q_promptId "p9") = [] →
     ∃ store' artifact,
       db w' = Some store' ∧
       db w2 = Some (<["generated_images" :=
                        collection store' "generated_images" ++ [artifact]]> store') ∧
       Some (Doc.promptName artifact) = Some "Harbour" ∧
       Some (Doc.prompt artifact) = Some "a harbour at dawn").
Proof.
  eexists _, _. 
  destruct (upload_then_generate
           (Scenario.json_request
              [("promptId", "p9"); ("promptName", "Harbour");
               ("prompt", "a harbour at dawn"); ("aiImage", "WA==")])
           (Scenario.world (Responds "ok")) _ _
           (Scenario.json_request [("promptId", "p9"); ("referenceImage", "WQ==")])
           (Some "p9") (Some "WQ==") "image/jpeg" "p9" "WQ=="
           eq_refl eq_refl eq_refl eq_refl eq_refl eq_refl)
    as (resp2 & w2 & Hrun2 & Hst2 & Hart).
  exists resp2, w2. split; [reflexivity|]. split; [reflexivity|].
  split; [exact Hrun2|]. split; [exact Hst2 | exact Hart].
Defined.

End UploadThenGenerate.

Section Reads.
Import Database UploadController.


(** X22. GET /images returns two arrays and a count that belong
    together: both arrays have [count] elements, and position [i] of
    [promptId] and of [aiImage] are the [promptId] and the image data
    of the same stored record, the [i]-th in insertion order. *)
Theorem get_all_images_arrays_are_aligned req w store :
  db w = Some store →
  ∃ resp ids images,
    getAllImages req w = (Return resp, w) ∧
    status resp = 200 ∧
    field "promptId" (json resp) = Some (JArr ids) ∧
    field "aiImage" (json resp) = Some (JArr images) ∧
    field "count" (json resp) = Some (JNum (Z.of_nat (length ids))) ∧
    length ids = length (collection store "images") ∧
    length images = length (collection store "images") ∧
    ∀ i d, collection store "images" !! i = Some d →
           ids !! i = Some (opt_str (Doc.promptId d)) ∧
           images !! i = Some (JStr (Doc.base64Image d)).
Proof.
  intros Hdb. unfold getAllImages. rewrite try_catch_run, bind_run.
  rewrite (readDB_connected w store _ _ Hdb), select_all. run.
  eexists _, _, _. split; [reflexivity|].
  split_and!; try reflexivity.
  - simpl. by rewrite !length_fmap.
  - by rewrite length_fmap.
  - by rewrite length_fmap.
  - intros i d Hi. by rewrite !list_lookup_fmap, Hi.
Qed.

Lemma get_all_images_arrays_are_aligned_witness :
  ∃ resp ids images,
    getAllImages (Scenario.json_request []) (Scenario.world (Responds "ok")) =
      (Return resp, Scenario.world (Responds "ok")) ∧
    status resp = 200 ∧
    field "promptId" (json resp) = Some (JArr ids) ∧
    field "aiImage" (json resp) = Some (JArr images) ∧
    field "count" (json resp) = Some (JNum (Z.of_nat (length ids))) ∧
    length ids = length (collection Scenario.store "images") ∧
    length images = length (collection Scenario.store "images") ∧
    ∀ i d, collection Scenario.store "images" !! i = Some d →
           ids !! i = Some (opt_str (Doc.promptId d)) ∧
           images !! i = Some (JStr (Doc.base64Image d)).
Proof.
  apply (get_all_images_arrays_are_aligned (Scenario.json_request [])
           (Scenario.world (Responds "ok")) Scenario.store).
  reflexivity.
Defined.

(** X23. GET /images/prompt/:promptId returns exactly the records
    stored under that [promptId], in insertion order, with their
    count; it answers 404 "NOT_FOUND" when there is none and 400 when
    the parameter is empty. *)
Theorem images_by_prompt_are_exact promptId req w store :
  db w = Some store →
  ∃ resp,
    getImagesByPromptId promptId req w = (Return resp, w) ∧
    match Js.truthy promptId with
    | None =>
        status resp = 400 ∧
        field "error" (json resp) = Some (JStr "MISSING_PARAMETER")
    | Some p =>
        ∃ found,
          found `sublist_of` collection store "images" ∧
          (∀ d, d ∈ found ↔
                d ∈ collection store "images" ∧ Doc.promptId d = Some p) ∧
          match found with
          | [] =>
              status resp = 404 ∧
              field "error" (json resp) = Some (JStr "NOT_FOUND")
          | _ :: _ =>
              status resp = 200 ∧
              field "data" (json resp) = Some (JArr (image_json <$> found)) ∧
              field "count" (json resp) = Some (JNum (Z.of_nat (length found)))
          end
    end.
Proof.
  intros Hdb. unfold getImagesByPromptId. rewrite try_catch_run.
  destruct (Js.truthy promptId) as [p|].
  - rewrite bind_run, (readDB_connected w store _ _ Hdb). cbv beta iota.
    assert (select store "images" (Q_promptId p) `sublist_of` collection store "images" ∧
            ∀ d, d ∈ select store "images" (Q_promptId p) ↔
                 d ∈ collection store "images" ∧ Doc.promptId d = Some p) as [Hsub Hin].
    { unfold select. induction (collection store "images") as [|d0 docs [IHs IHi]].
      - split; [constructor|]. intros d. split; [intros H | intros [H _]];
          by apply not_elem_of_nil in H.
      - simpl. destruct (Doc.promptId d0) as [p0|] eqn:Hp0;
          [destruct (String.eqb_spec p0 p) as [->|Hne] |].
        + split; [by constructor|]. intros d. rewrite !elem_of_cons, IHi.
          split; [intros [-> | [? ?]]; auto | intros [[-> | ?] ?]; auto].
        + split; [by constructor|]. intros d. rewrite elem_of_cons, IHi.
          split; [intros [? ?]; auto | intros [[-> | ?] ?]; [congruence | auto]].
        + split; [by constructor|]. intros d. rewrite elem_of_cons, IHi.
          split; [intros [? ?]; auto | intros [[-> | ?] ?]; [congruence | auto]]. }
    destruct (select store "images" (Q_promptId p)) as [|d found] eqn:Hsel; run.
    + eexists. split; [reflexivity|]. exists []. by split_and!.
    + eexists. split; [reflexivity|]. exists (d :: found).
      split_and!; try done. simpl. by rewrite length_fmap.
  - run. eexists. split; [reflexivity|]. by split.
Qed.

Lemma images_by_prompt_are_exact_witness :
  ∃ resp,
    getImagesByPromptId (Some "p1") (Scenario.json_request [])
      (Scenario.world (Responds "ok")) =
      (Return resp, Scenario.world (Responds "ok")) ∧
    ∃ found,
      found `sublist_of` collection Scenario.store "images" ∧
      (∀ d, d ∈ found ↔
            d ∈ collection Scenario.store "images" ∧ Doc.promptId d = Some "p1") ∧
      match found with
      | [] =>
          status resp = 404 ∧
          field "error" (json resp) = Some (JStr "NOT_FOUND")
      | _ :: _ =>
          status resp = 200 ∧
          field "data" (json resp) = Some (JArr (image_json <$> found)) ∧
          field "count" (json resp) = Some (JNum (Z.of_nat (length found)))
      end.
Proof.
  apply (images_by_prompt_are_exact (Some "p1") (Scenario.json_request [])
           (Scenario.world (Responds "ok")) Scenario.store).
  reflexivity.
Defined.

End Reads.

Section Delete.
Import Database UploadController.

Lemma deleteImage_run id req w store :
  db w = Some store →
  deleteImage id req w =
  match remove_first (Q_id id) (collection store "images") with
  | Some docs =>
      (Return (mkResponse 200
         (JObj [ ("success", JBool true);
                 ("message", JStr "Image deleted successfully") ])),
       set_db (Some (<["images" := docs]> store)) w)
  | None =>
      (Return (mkResponse 404
         (JObj [ ("success", JBool false);
                 ("message", JStr "Image not found");
                 ("error", JStr "NOT_FOUND") ])), w)
  end.
Proof.
  intros Hdb. unfold deleteImage.
  rewrite try_catch_run, bind_run, (deleteDB_connected w store _ _ Hdb).
  by destruct (remove_first _ _).
Qed.

Lemma select_nil_fresh id docs :
  List.filter (matches (Q_id id)) docs = [] → fresh_id id docs = true.
Proof.
  unfold fresh_id. induction docs as [|d docs IH]; simpl; [done|].
  destruct (Doc._id d =? id)%string; [done | exact IH].
Qed.

Lemma remove_first_app q before d after :
  List.filter (matches q) before = [] →
  matches q d = true →
  remove_first q (before ++ d :: after) = Some (before ++ after).
Proof.
  intros Hbefore Hd. induction before as [|b before IH]; simpl in *.
  - by rewrite Hd.
  - destruct (matches q b); [done|]. by rewrite IH.
Qed.

(** X24. DELETE /images/:id removes at most one record: the first one
    stored with that [_id], the others keeping their order.  When no
    record has the [_id] it answers 404 "NOT_FOUND" and the world is
    unchanged; without a connection it answers 500 "DELETE_ERROR". *)
Theorem delete_removes_first_match id req w :
  ∃ resp w',
    deleteImage id req w = (Return resp, w') ∧
    match db w with
    | None =>
        status resp = 500 ∧
        field "error" (json resp) = Some (JStr "DELETE_ERROR") ∧
        w' = w
    | Some store =>
        (status resp = 404 ∧
         field "error" (json resp) = Some (JStr "NOT_FOUND") ∧
         (id ∉ Doc._id <$> collection store "images") ∧
         w' = w) ∨
        (status resp = 200 ∧
         ∃ before d after,
           collection store "images" = before ++ d :: after ∧
           Doc._id d = id ∧
           (id ∉ Doc._id <$> before) ∧
           db w' = Some (<["images" := before ++ after]> store))
    end.
Proof.
  destruct (db w) as [store|] eqn:Hdb.
  - rewrite (deleteImage_run id req w store Hdb).
    destruct (remove_first (Q_id id) (collection store "images")) as [docs|] eqn:Hrm.
    + eexists _, _. split; [reflexivity|]. right. split; [reflexivity|].
      apply remove_first_Some in Hrm as (before & d & after & Hdocs & Hd & Hbefore & ->).
      exists before, d, after. split_and!; [done | | | done].
      * simpl in Hd. by apply String.eqb_eq.
      * by apply fresh_id_not_in, select_nil_fresh.
    + eexists _, _. split; [reflexivity|]. left. split_and!; try done.
      by apply fresh_id_not_in, select_nil_fresh, remove_first_None.
  - unfold deleteImage. rewrite try_catch_run, bind_run.
    rewrite (deleteDB_disconnected w _ _ Hdb). run.
    eexists _, _. by split_and!.
Qed.

(** X25. When the [_id]s of [images] are distinct, a DELETE
    /images/:id that answered 200 makes GET /images/:id answer 404 for
    that [id], and changes the answer for no other [id]. *)
Theorem delete_then_get_by_id id req w store resp w' :
  db w = Some store →
  unique_ids (collection store "images") →
  deleteImage id req w = (Return resp, w') →
  status resp = 200 →
  (∀ req', ∃ resp',
     getImageById id req' w' = (Return resp', w') ∧
     status resp' = 404 ∧
     field "error" (json resp') = Some (JStr "NOT_FOUND")) ∧
  (∀ id' req', id' ≠ id →
     (getImageById id' req' w').1 = (getImageById id' req' w).1).
Proof.
  intros Hdb Hu Hrun Hst. rewrite (deleteImage_run id req w store Hdb) in Hrun.
  destruct (remove_first (Q_id id) (collection store "images")) as [docs|] eqn:Hrm;
    [|by simplify_eq].
  apply remove_first_Some in Hrm as (before & d & after & Hdocs & Hd & Hbefore & ->).
  injection Hrun as <- <-.
  simpl in Hd. apply String.eqb_eq in Hd.
  assert (List.filter (matches (Q_id id)) after = []) as Hafter.
  { apply fresh_id_select, fresh_id_not_in. intros Hin.
    unfold unique_ids in Hu. rewrite Hdocs, fmap_app in Hu. simpl in Hu.
    apply NoDup_app in Hu as (_ & _ & Hu). apply NoDup_cons in Hu as [Hu _].
    by rewrite Hd in Hu. }
  split.
  - intros req'. unfold getImageById. rewrite try_catch_run, bind_run.
    erewrite readDB_connected by reflexivity. unfold select.
    rewrite collection_insert, List.filter_app, Hbefore, Hafter. run.
    eexists. by split_and!.
  - intros id' req' Hne. unfold getImageById. rewrite !try_catch_run, !bind_run.
    erewrite !readDB_connected by (reflexivity || exact Hdb). unfold select.
    rewrite collection_insert, Hdocs, !List.filter_app. cbn [List.filter matches].
    destruct (String.eqb_spec (Doc._id d) id') as [Heq | _]; [congruence|].
    cbv beta iota. by destruct (List.filter _ before ++ List.filter _ after).
Qed.

Lemma delete_then_get_by_id_witness :
  (∀ req', ∃ resp',
     getImageById "img-2" req'
       (deleteImage "img-2" (Scenario.json_request [])
          (Scenario.world (Responds "ok"))).2 =
       (Return resp',
        (deleteImage "img-2" (Scenario.json_request [])
           (Scenario.world (Responds "ok"))).2) ∧
     status resp' = 404 ∧
     field "error" (json resp') = Some (JStr "NOT_FOUND")) ∧
  (∀ id' req', id' ≠ "img-2" →
     (getImageById id' req'
        (deleteImage "img-2" (Scenario.json_request [])
           (Scenario.world (Responds "ok"))).2).1 =
     (getImageById id' req' (Scenario.world (Responds "ok"))).1).
Proof.
  eapply (delete_then_get_by_id "img-2" (Scenario.json_request [])
            (Scenario.world (Responds "ok")) Scenario.store).
  - reflexivity.
  - apply (bool_decide_unpack _). vm_compute. reflexivity.
  - reflexivity.
  - reflexivity.
Defined.

(** X26. An upload that answered 201, followed by DELETE /images/:id
    with the identity it returned, is undone: the delete answers 200,
    every collection holds the documents it held before the upload,
    and GET /images/:id answers 404 for that identity. *)
Theorem upload_then_delete_restores req w resp w' :
  uploadImage req w = (Return resp, w') →
  status resp = 201 →
  ∃ id store,
    data_field "id" resp = Some (JStr id) ∧
    db w = Some store ∧
    ∀ req', ∃ resp2 w2 store2,
      deleteImage id req' w' = (Return resp2, w2) ∧
      status resp2 = 200 ∧
      db w2 = Some store2 ∧
      (∀ c, collection store2 c = collection store c) ∧
      ∃ resp3,
        getImageById id req' w2 = (Return resp3, w2) ∧
        status resp3 = 404.
Proof.
  intros Hrun Hst.
  destruct (uploadImage_created req w resp w' Hrun Hst)
    as (store & stored & Hdb & Hdb' & Hfresh & Hid & _).
  exists (Doc._id stored), store. split_and!; [exact Hid | exact Hdb |].
  intros req'. rewrite (deleteImage_run _ req' w' _ Hdb'), collection_insert.
  rewrite remove_first_app;
    [| by apply fresh_id_select | simpl; by rewrite String.eqb_refl].
  rewrite app_nil_r. eexists _, _, _. split_and!; [reflexivity..| |].
  - intros c. destruct (decide (c = "images")) as [->|Hne].
    + by rewrite collection_insert.
    + by rewrite !collection_insert_ne.
  - unfold getImageById. rewrite try_catch_run, bind_run.
    erewrite readDB_connected by reflexivity. unfold select.
    rewrite collection_insert, (fresh_id_select _ _ Hfresh). run.
    eexists. by split.
Qed.

Lemma upload_then_delete_restores_witness :
  ∃ resp w',
    uploadImage
      (Scenario.json_request
         [("promptId", "p1"); ("promptName", "Sunset");
          ("prompt", "a sunset over mountains"); ("aiImage", "WA==")])
      (Scenario.world (Responds "ok")) = (Return resp, w') ∧
    status resp = 201 ∧
    ∃ id store,
      data_field "id" resp = Some (JStr id) ∧
      db (Scenario.world (Responds "ok")) = Some store ∧
      ∀ req', ∃ resp2 w2 store2,
        deleteImage id req' w' = (Return resp2, w2) ∧
        status resp2 = 200 ∧
        db w2 = Some store2 ∧
        (∀ c, collection store2 c = collection store c) ∧
        ∃ resp3,
          getImageById id req' w2 = (Return resp3, w2) ∧
          status resp3 = 404.
Proof.
  eexists _, _. split; [reflexivity|]. split; [reflexivity|].
  eapply (upload_then_delete_restores
            (Scenario.json_request
               [("promptId", "p1"); ("promptName", "Sunset");
                ("prompt", "a sunset over mountains"); ("aiImage", "WA==")])
            (Scenario.world (Responds "ok")));
    reflexivity.
Defined.

End Delete.

Section Invariants.
Import Database UploadController.

(** What a handler may do to the store: nothing, append a document
    with a fresh [_id] to one collection, or remove one document. *)
Lemma store_step_keeps_ids_unique (store store' : gmap string (list Doc.t)) :
  unique_ids (collection store "images") →
  unique_ids (collection store "generated_images") →
  (store' = store ∨
   (∃ c d, fresh_id (Doc._id d) (collection store c) = true ∧
           store' = <[c := collection store c ++ [d]]> store) ∨
   (∃ c q docs, remove_first q (collection store c) = Some docs ∧
                store' = <[c := docs]> store)) →
  unique_ids (collection store' "images") ∧
  unique_ids (collection store' "generated_images").
Proof.
  intros Hi Hg [-> | [(c & d & Hfresh & ->) | (c & q & docs & Hrm & ->)]]; [done | |].
  - destruct (decide (c = "images")) as [-> | Hni];
      [| destruct (decide (c = "generated_images")) as [-> | Hng]].
    + rewrite collection_insert, collection_insert_ne by done.
      split; [by apply unique_ids_snoc | done].
    + rewrite collection_insert, collection_insert_ne by done.
      split; [done | by apply unique_ids_snoc].
    + by rewrite !collection_insert_ne.
  - destruct (decide (c = "images")) as [-> | Hni];
      [| destruct (decide (c = "generated_images")) as [-> | Hng]].
    + rewrite collection_insert, collection_insert_ne by done.
      split; [by eapply unique_ids_remove | done].
    + rewrite collection_insert, collection_insert_ne by done.
      split; [done | by eapply unique_ids_remove].
    + by rewrite !collection_insert_ne.
Qed.

(** X27. The handlers that write keep [_id] unique: when no two
    documents of [images] and no two of [generated_images] share an
    [_id], the same holds after any run of POST /generate, POST
    /generate-text, POST /images/upload or DELETE /images/:id. *)
Theorem handlers_keep_ids_unique w store resp w' store' :
  db w = Some store →
  unique_ids (collection store "images") →
  unique_ids (collection store "generated_images") →
  (∃ req, GeminiController.generateImage req w = (Return resp, w')) ∨
  (∃ req, GeminiController.generateImageFromText req w = (Return resp, w')) ∨
  (∃ req, uploadImage req w = (Return resp, w')) ∨
  (∃ id req, deleteImage id req w = (Return resp, w')) →
  db w' = Some store' →
  unique_ids (collection store' "images") ∧
  unique_ids (collection store' "generated_images").
Proof.
  intros Hdb Hi Hg Hrun Hdb'.
  apply (store_step_keeps_ids_unique store store' Hi Hg).
  destruct Hrun as [[req Hrun] | [[req Hrun] | [[req Hrun] | (id & req & Hrun)]]].
  - destruct (generateImage_cases req w) as (resp0 & w0 & Hrun0 & Hcases).
    rewrite Hrun in Hrun0. injection Hrun0 as <- <-.
    destruct Hcases as [[_ ->] | [[_ ->] | [[_ Heq] | (_ & st & d & Hst & Hfresh & Hst')]]];
      [left; congruence.. |].
    right. left. exists "generated_images", d. split; congruence.
  - destruct (generateImageFromText_cases req w) as (resp0 & w0 & Hrun0 & Hcases).
    rewrite Hrun in Hrun0. injection Hrun0 as <- <-.
    destruct Hcases as [[_ ->] | [[_ Heq] | (_ & st & d & Hst & Hfresh & Hst')]];
      [left; congruence.. |].
    right. left. exists "generated_images", d. split; congruence.
  - destruct (status resp =? 201)%Z eqn:Hst.
    + apply Z.eqb_eq in Hst.
      destruct (uploadImage_created req w resp w' Hrun Hst)
        as (st & d & Hdb0 & Hdb0' & Hfresh & _).
      right. left. exists "images", d. split; congruence.
    + apply Z.eqb_neq in Hst. left.
      destruct (uploadImage_cases req w) as (resp0 & w0 & Hrun0 & _ & Hcase).
      rewrite Hrun in Hrun0. injection Hrun0 as <- <-.
      assert (db w' = db w) as Heq; [|congruence].
      assert (∀ record, saved record w resp w' → db w' = db w) as Hsaved.
      { intros record [(H201 & _) | [_ Hsame]]; [done | exact Hsame]. }
      repeat case_match; try (by destruct Hcase as [_ ->]);
        destruct Hcase as [_ Hs]; by eapply Hsaved.
  - rewrite (deleteImage_run id req w store Hdb) in Hrun.
    destruct (remove_first (Q_id id) (collection store "images")) as [docs|] eqn:Hrm.
    + injection Hrun as _ <-. simpl in Hdb'. injection Hdb' as <-.
      right. right. by exists "images", (Q_id id), docs.
    + injection Hrun as _ <-. left. congruence.
Qed.

Lemma handlers_keep_ids_unique_witness :
  ∃ resp w' store',
    uploadImage
      (Scenario.json_request
         [("promptId", "p9"); ("promptName", "Harbour");
          ("prompt", "a harbour at dawn"); ("aiImage", "WA==")])
      (Scenario.world (Responds "ok")) = (Return resp, w') ∧
    db w' = Some store' ∧
    unique_ids (collection store' "images") ∧
    unique_ids (collection store' "generated_images").
Proof.
  eexists _, _, _. split; [reflexivity|]. split; [reflexivity|].
  eapply (handlers_keep_ids_unique (Scenario.world (Responds "ok")) Scenario.store).
  - reflexivity.
  - apply (bool_decide_unpack _). vm_compute. reflexivity.
  - apply (bool_decide_unpack _). vm_compute. reflexivity.
  - right. right. left.
    exists (Scenario.json_request
              [("promptId", "p9"); ("promptName", "Harbour");
               ("prompt", "a harbour at dawn"); ("aiImage", "WA==")]).
    reflexivity.
  - reflexivity.
Defined.

End Invariants.

Section Health.
Import Database.

Variable admin_ping : M unit.

(** X28. GET /health answers 200 with status "OK" in every world,
    because [checkDBHealth] turns every failure into a report: without
    a connection the report is "unhealthy" with the message of
    [getDB] and the server is not pinged; when the ping returns the
    report is "healthy". *)
Theorem health_always_answers_ok uptime req w :
  ∃ resp w',
    App.health admin_ping uptime req w = (Return resp, w') ∧
    status resp = 200 ∧
    field "status" (json resp) = Some (JStr "OK") ∧
    (db w = None →
     at_path ["database"; "status"] (json resp) = Some (JStr "unhealthy") ∧
     at_path ["database"; "error"] (json resp) =
       Some (JStr "Database not connected. Call connectDB() first.") ∧
     db w' = None) ∧
    (∀ store w1, db w = Some store → admin_ping w = (Return tt, w1) →
     at_path ["database"; "status"] (json resp) = Some (JStr "healthy")).
Proof.
  unfold App.health, checkDBHealth. rewrite !try_catch_run, bind_run, try_catch_run.
  destruct (db w) as [store|] eqn:Hdb.
  - rewrite bind_run, (getDB_connected w store Hdb). cbv beta iota.
    rewrite bind_run.
    destruct (admin_ping w) as [[[]|e] w1] eqn:Hping; run;
      (eexists _, _; split; [reflexivity|]; by split_and!).
  - rewrite bind_run, (getDB_disconnected w Hdb). run.
    eexists _, _. split; [reflexivity|]. by split_and!.
Qed.

End Health.

Section Base64.
Import Database.

Lemma toBase64_three a b c rest :
  ∃ c1 c2 c3 c4,
    Js.toBase64 (a :: b :: c :: rest) =
    String c1 (String c2 (String c3 (String c4 (Js.toBase64 rest)))).
Proof. eexists _, _, _, _. reflexivity. Qed.

(** The base64 text of [n] bytes has [4 * ceil (n / 3)] characters. *)
Lemma toBase64_length buffer :
  String.length (Js.toBase64 buffer) = (4 * ((length buffer + 2) / 3))%nat.
Proof.
  assert (∀ n buffer, (length buffer ≤ n)%nat →
            String.length (Js.toBase64 buffer) = (4 * ((length buffer + 2) / 3))%nat)
    as Hall; [|by apply (Hall (length buffer))].
  clear buffer. intros n. induction n as [|n IH]; intros buffer Hlen.
  - destruct buffer; [reflexivity | simpl in Hlen; lia].
  - destruct buffer as [|a [|b [|c rest]]]; [reflexivity..|].
    destruct (toBase64_three a b c rest) as (c1 & c2 & c3 & c4 & ->).
    cbn [String.length length]. rewrite IH by (simpl in Hlen; lia).
    replace (S (S (S (length rest))) + 2)%nat with ((length rest + 2) + 1 * 3)%nat by lia.
    rewrite Nat.div_add by lia. lia.
Qed.

(** X29. For a form-data request that uploads the reference image as
    a file, the artifact of a 200 holds the base64 text of the file,
    its [size] is the length of that text, four characters for every
    three bytes of the file, rounded up, and its [mimetype] is
    "image/jpeg" whatever the type of the file. *)
Theorem generated_size_counts_base64_characters req w resp w' f rest :
  is_json req = false →
  files req = f :: rest →
  GeminiController.generateImage req w = (Return resp, w') →
  status resp = 200 →
  ∃ store artifact,
    db w = Some store ∧
    db w' = Some (<["generated_images" :=
                     collection store "generated_images" ++ [artifact]]> store) ∧
    Doc.base64Image artifact = Js.toBase64 (buffer f) ∧
    Doc.size artifact = 4 * ((Z.of_nat (length (buffer f)) + 2) / 3) ∧
    Doc.mimetype artifact = "image/jpeg".
Proof.
  intros Hjson Hfiles Hrun Hst.
  destruct (generateImage_ok req w resp w' Hrun Hst)
    as (p0 & r0 & mime & pid & img & store & first & rest' & evs & text & H).
  cbv zeta in H.
  destruct H as (Hreq & Hp & Hr & Hdb & Hsel & Hsvc & Hfresh & Hdb' & Htr & ->).
  unfold GeminiController.readRequest in Hreq. unfold is_json in Hjson.
  rewrite Hjson, Hfiles in Hreq. injection Hreq as <- <- <-.
  apply truthy_Some in Hr as [[= <-] _].
  eexists store, _. split_and!; [exact Hdb | exact Hdb' | reflexivity | | reflexivity].
  cbn [Doc.size]. unfold Js.length. rewrite toBase64_length.
  rewrite Nat2Z.inj_mul, Nat2Z.inj_div, Nat2Z.inj_add. reflexivity.
Qed.

Lemma generated_size_counts_base64_characters_witness :
  ∃ resp w',
    GeminiController.generateImage
      {| content_type := Some "multipart/form-data";
         body := {[ "promptId" := "p1" ]};
         files := [ {| buffer := [Byte.x4d; Byte.x61; Byte.x6e; Byte.x21];
                       mem_mimetype := "image/png" |} ];
         file := None |}
      (Scenario.world (Responds "ok")) = (Return resp, w') ∧
    status resp = 200 ∧
    ∃ store artifact,
      db (Scenario.world (Responds "ok")) = Some store ∧
      db w' = Some (<["generated_images" :=
                       collection store "generated_images" ++ [artifact]]> store) ∧
      Doc.base64Image artifact = Js.toBase64 [Byte.x4d; Byte.x61; Byte.x6e; Byte.x21] ∧
      Doc.size artifact = 4 * ((Z.of_nat 4 + 2) / 3) ∧
      Doc.mimetype artifact = "image/jpeg".
Proof.
  eexists _, _. split; [reflexivity|]. split; [reflexivity|].
  eapply (generated_size_counts_base64_characters
            {| content_type := Some "multipart/form-data";
               body := {[ "promptId" := "p1" ]};
               files := [ {| buffer := [Byte.x4d; Byte.x61; Byte.x6e; Byte.x21];
                             mem_mimetype := "image/png" |} ];
               file := None |}
            (Scenario.world (Responds "ok")) _ _
            {| buffer := [Byte.x4d; Byte.x61; Byte.x6e; Byte.x21];
               mem_mimetype := "image/png" |} []);
    reflexivity.
Defined.

End Base64.
